(** * docxTopdf: conversion with retries, batch collection and the final report

    A shallow embedding of the three modules of the application:

    - [Report]    : [conversion_report.py], class [ConversionReport];
    - [Converter] : [docx_converter.py], class [DocxConverter];
    - [App]       : [docx_to_pdf_zip_app.py], the worker thread
                    [convert_and_zip_thread] of [DocxToPdfZipApp].

    Python integers are [Z], Python floats are the kernel's binary64 floats,
    [str] is [string] (the bytes of the UTF-8 encoding), [Optional[T]] is
    [option T].  Code that can raise is written in a small state-and-exception
    monad; [try]/[except] is [try_except].

    [Converter] and [App] describe the calls that end, by returning or with
    an exception that derives from [Exception].  [FullConverter] and
    [FullApp] describe the same methods with every way a call can end: also
    with an exception outside [Exception], such as the [SystemExit] of
    [docx2pdf], or never; and with the [finally] clause of the thread. *)

From Stdlib Require Import ZArith List String Ascii Bool Lia.
From Stdlib Require Import DecimalString Floats Permutation.
Import ListNotations.

Local Open Scope string_scope.
Local Open Scope Z_scope.

(* ================================================================== *)
(** ** Python built-ins used by the program *)
(* ================================================================== *)

Module Py.

(** [str(n)] for an [int]. *)
Definition str_of_Z (z : Z) : string := NilZero.string_of_int (Z.to_int z).

(** The line feed of ["\n".join(lines)]. *)
Definition nl : string := String (ascii_of_nat 10) EmptyString.

(** [sep.join(xs)]. *)
Fixpoint join (sep : string) (xs : list string) : string :=
  match xs with
  | [] => ""
  | x :: rest =>
      match rest with
      | [] => x
      | _ :: _ => x ++ sep ++ join sep rest
      end
  end.

(** [s * n]. *)
Fixpoint repeat_str (s : string) (n : nat) : string :=
  match n with
  | O => ""
  | S k => s ++ repeat_str s k
  end.

(** A byte [10xxxxxx] continues a UTF-8 sequence; every other byte starts a
    code point. *)
Definition is_continuation (c : ascii) : bool :=
  match c with
  | Ascii _ _ _ _ _ _ b6 b7 => b7 && negb b6
  end.

(** [len(s)]: Python counts code points, not bytes. *)
Fixpoint len (s : string) : nat :=
  match s with
  | EmptyString => O
  | String c rest => ((if is_continuation c then 0 else 1) + len rest)%nat
  end.

(** [f"{s:<w}"]: left-justified in a field of [w] code points. *)
Definition ljust (s : string) (w : nat) : string :=
  s ++ repeat_str " " (w - len s).

(** [float(n)] for an [int] of magnitude below [2^63]. *)
Definition float_of_Z (z : Z) : float :=
  if z <? 0
  then PrimFloat.opp (PrimFloat.of_uint63 (Uint63.of_Z (- z)))
  else PrimFloat.of_uint63 (Uint63.of_Z z).

(** [a / b] on two [int]s (true division), for magnitudes below [2^53], where
    both conversions are exact and the quotient is the IEEE one. *)
Definition truediv (a b : Z) : float :=
  PrimFloat.div (float_of_Z a) (float_of_Z b).

(** [int(x)] on a finite float: truncation towards zero. *)
Definition int_of_float (x : float) : Z :=
  match Prim2SF x with
  | S754_finite s m e =>
      let a := if 0 <=? e then Zpos m * 2 ^ e else Zpos m / 2 ^ (- e) in
      if s then - a else a
  | _ => 0
  end.

(** Nearest integer to [num / den], ties to even ([num >= 0], [den > 0]). *)
Definition round_half_even (num den : Z) : Z :=
  let q := num / den in
  let r := num mod den in
  match 2 * r ?= den with
  | Lt => q
  | Gt => q + 1
  | Eq => if Z.even q then q else q + 1
  end.

(** [f"{x:.1f}"]: the exact binary value rounded to one decimal, ties to
    even. *)
Definition format_1f (x : float) : string :=
  match Prim2SF x with
  | S754_nan => "nan"
  | S754_infinity s => (if s then "-" else "") ++ "inf"
  | S754_zero s => (if s then "-" else "") ++ "0.0"
  | S754_finite s m e =>
      let tenths :=
        if 0 <=? e then Zpos m * 2 ^ e * 10
        else round_half_even (Zpos m * 10) (2 ^ (- e)) in
      (if s then "-" else "")
        ++ str_of_Z (tenths / 10) ++ "." ++ str_of_Z (tenths mod 10)
  end.

(** Truthiness of an [Optional[float]]: [None] and [0.0] are false. *)
Definition truthy_time (t : option float) : bool :=
  match t with
  | None => false
  | Some x => negb (PrimFloat.eqb x PrimFloat.zero)
  end.

(** [max(0.0, x)]: the second argument only when it is strictly larger. *)
Definition max0 (x : float) : float :=
  if PrimFloat.ltb PrimFloat.zero x then x else PrimFloat.zero.

(** [str(x)] for an [Optional[str]]. *)
Definition str_opt (x : option string) : string :=
  match x with
  | None => "None"
  | Some s => s
  end.

(** Truthiness of an [Optional[str]]: [None] and the empty string are
    false. *)
Definition or_default (x : option string) (default : string) : string :=
  match x with
  | None => default
  | Some s => if String.eqb s "" then default else s
  end.

(** [s.rpartition(c)] when [c] occurs in [s]: the text before and after its
    last occurrence. *)
Fixpoint split_last (c : ascii) (s : string) : option (string * string) :=
  match s with
  | EmptyString => None
  | String a rest =>
      match split_last c rest with
      | Some (before, after) => Some (String a before, after)
      | None => if Ascii.eqb a c then Some ("", rest) else None
      end
  end.

(** [Path(p).name] for a path written with ["/"] and no trailing
    separator. *)
Definition path_name (p : string) : string :=
  match split_last "/" p with
  | Some (_, after) => after
  | None => p
  end.

(** [Path(p).stem]: the name without its last suffix; a leading or a trailing
    dot starts no suffix. *)
Definition path_stem (p : string) : string :=
  let name := path_name p in
  match split_last "." name with
  | Some (before, after) =>
      if String.eqb before "" || String.eqb after "" then name else before
  | None => name
  end.

(** [Path(d) / name]. *)
Definition path_join (d name : string) : string := d ++ "/" ++ name.

(** [range(lo, hi)]. *)
Definition range (lo hi : Z) : list Z :=
  map (fun i => lo + Z.of_nat i) (seq 0 (Z.to_nat (hi - lo))).

End Py.

(* ================================================================== *)
(** ** conversion_report.py *)
(* ================================================================== *)

Module Report.

Record ConversionReport := mkReport {
  total_files : Z;
  successful_conversions : list string;
  failed_conversions : list (string * string);
  retried_files : list (string * Z);
  start_time : option float;
  end_time : option float
}.

(** [ConversionReport()]. *)
Definition init : ConversionReport :=
  mkReport 0 [] [] [] None None.

Definition add_success (filename : string) (r : ConversionReport)
  : ConversionReport :=
  mkReport (total_files r)
           (successful_conversions r ++ [filename])
           (failed_conversions r) (retried_files r)
           (start_time r) (end_time r).

Definition add_failure (filename error : string) (r : ConversionReport)
  : ConversionReport :=
  mkReport (total_files r) (successful_conversions r)
           (failed_conversions r ++ [(filename, error)])
           (retried_files r) (start_time r) (end_time r).

Definition add_retry (filename : string) (attempts : Z) (r : ConversionReport)
  : ConversionReport :=
  mkReport (total_files r) (successful_conversions r) (failed_conversions r)
           (retried_files r ++ [(filename, attempts)])
           (start_time r) (end_time r).

Definition set_total_files (n : Z) (r : ConversionReport) : ConversionReport :=
  mkReport n (successful_conversions r) (failed_conversions r)
           (retried_files r) (start_time r) (end_time r).

Definition set_start_time (t : float) (r : ConversionReport)
  : ConversionReport :=
  mkReport (total_files r) (successful_conversions r) (failed_conversions r)
           (retried_files r) (Some t) (end_time r).

Definition set_end_time (t : float) (r : ConversionReport)
  : ConversionReport :=
  mkReport (total_files r) (successful_conversions r) (failed_conversions r)
           (retried_files r) (start_time r) (Some t).

(** The dictionary of [get_summary].  The source stores every count as
    [float(len(...))] and reads it back with [int(...)]; that round trip is
    the identity on counts below [2^53], so the counts are kept as integers
    here.  The duration stays a float. *)
Record Summary := mkSummary {
  sum_total : Z;
  sum_success : Z;
  sum_failed : Z;
  sum_retried : Z;
  sum_duration : float
}.

Definition get_summary (r : ConversionReport) : Summary :=
  let duration :=
    if Py.truthy_time (start_time r) && Py.truthy_time (end_time r)
    then match start_time r, end_time r with
         | Some s, Some e => Py.max0 (PrimFloat.sub e s)
         | _, _ => PrimFloat.zero
         end
    else PrimFloat.zero in
  mkSummary (total_files r)
            (Z.of_nat (List.length (successful_conversions r)))
            (Z.of_nat (List.length (failed_conversions r)))
            (Z.of_nat (List.length (retried_files r)))
            duration.

Definition sep : string := Py.repeat_str "=" 72.
Definition sub : string := Py.repeat_str "-" 72.

Definition verdict_full : string := "✅ CONVERSIÓ COMPLETADA AMB ÈXIT TOTAL".
Definition verdict_partial : string :=
  "⚠️  CONVERSIÓ COMPLETADA AMB ALGUNS ERRORS".
Definition verdict_none : string := "❌ NO S'HA POGUT CONVERTIR CAP FITXER".

(** [(x / total) * 100] formatted with [:.1f]. *)
Definition pct (x total : Z) : string :=
  Py.format_1f (PrimFloat.mul (Py.truediv x total) (Py.float_of_Z 100)).

(** The divisor of the percentages: [int(summary["total"]) or 1]. *)
Definition guarded_total (s : Summary) : Z :=
  if sum_total s =? 0 then 1 else sum_total s.

(** The summary block, lines 53 to 64 of the source.  [duration // 60] and
    [duration % 60] are taken on the whole seconds of the (non-negative)
    duration. *)
Definition summary_block (s : Summary) : list string :=
  let total := guarded_total s in
  let success := sum_success s in
  let failed := sum_failed s in
  let retried := sum_retried s in
  let whole := Py.int_of_float (sum_duration s) in
  let duration_min := whole / 60 in
  let duration_sec := whole mod 60 in
  [ sep;
    "INFORME DE CONVERSIÓ DOCX → PDF";
    sep;
    "";
    "📊 RESUM GENERAL";
    sub;
    Py.ljust "Total de fitxers processats:" 35 ++ " " ++ Py.str_of_Z total;
    Py.ljust "✓ Conversions exitoses:" 35 ++ Py.str_of_Z success
      ++ " (" ++ pct success total ++ "%)";
    Py.ljust "✗ Conversions fallides:" 35 ++ Py.str_of_Z failed
      ++ " (" ++ pct failed total ++ "%)";
    Py.ljust "🔄 Fitxers amb reintents:" 35 ++ Py.str_of_Z retried;
    Py.ljust "⏱️  Temps total:" 35 ++ Py.str_of_Z duration_min ++ "m "
      ++ Py.str_of_Z duration_sec ++ "s";
    "" ].

Definition retried_block (r : ConversionReport) : list string :=
  match retried_files r with
  | [] => []
  | _ :: _ =>
      [ "🔄 FITXERS RESOLTS DESPRÉS DE REINTENTS"; sub ]
        ++ flat_map
             (fun '(filename, attempts) =>
                [ "  • " ++ filename;
                  "    └─ Resolt després de " ++ Py.str_of_Z attempts
                    ++ " intent(s)" ])
             (retried_files r)
        ++ [ "" ]
  end.

Definition unretried_block (r : ConversionReport) (success : Z)
  : list string :=
  if negb (success =? 0)
     && (match retried_files r with [] => true | _ :: _ => false end)
  then
    [ "✓ FITXERS CONVERTITS SENSE REINTENTS"; sub ]
      ++ map (fun filename => "  ✓ " ++ filename)
             (firstn 10 (successful_conversions r))
      ++ (if (10 <? List.length (successful_conversions r))%nat
          then [ "  ... i "
                   ++ Py.str_of_Z
                        (Z.of_nat (List.length (successful_conversions r)) - 10)
                   ++ " més" ]
          else [])
      ++ [ "" ]
  else [].

Definition failed_block (r : ConversionReport) : list string :=
  match failed_conversions r with
  | [] => []
  | _ :: _ =>
      [ "✗ FITXERS AMB ERRORS NO RESOLTS"; sub ]
        ++ flat_map
             (fun '(filename, error) =>
                [ "  ✗ " ++ filename;
                  "    └─ Error: " ++ error;
                  "    └─ Suggeriments:";
                  "       • Verifica si el DOCX és corrupte";
                  "       • Comprova que MS Word estigui instal·lat";
                  "       • Obre i desa de nou el DOCX" ])
             (failed_conversions r)
        ++ [ "" ]
  end.

(** Lines 97 to 102: the verdict is chosen by [failed == 0], then
    [success > 0]. *)
Definition verdict (success failed : Z) : string :=
  if failed =? 0 then verdict_full
  else if 0 <? success then verdict_partial
  else verdict_none.

(** The list [lines] at the end of [generate_detailed_report]. *)
Definition report_lines (r : ConversionReport) : list string :=
  let s := get_summary r in
  summary_block s
    ++ retried_block r
    ++ unretried_block r (sum_success s)
    ++ failed_block r
    ++ [ sep; verdict (sum_success s) (sum_failed s); sep ].

Definition generate_detailed_report (r : ConversionReport) : string :=
  Py.join Py.nl (report_lines r).

(** The line between the two closing separators of a rendered list of
    lines. *)
Definition closing_verdict (lines : list string) : option string :=
  nth_error (rev lines) 1.

End Report.

(* ================================================================== *)
(** ** Exceptions and the effect monad *)
(* ================================================================== *)

Module Exn.

(** The classes the program's [except] clauses tell apart.  Every class
    derives from [Exception]; a value of class [c] stands for an instance of
    [c] or of one of its subclasses.  The exceptions outside [Exception],
    which no clause of the program catches, are in [FullEff]. *)
Inductive ExcClass :=
| FuturesTimeoutError
| ValueError
| RuntimeError
| InterruptedError
| ZeroDivisionError
| OtherException.

(** A raised exception: its class and [str(exc)]. *)
Record PyExc := mkExc {
  exc_class : ExcClass;
  exc_str : string
}.

End Exn.

Module Eff.
Import Exn.

(** The result of a call: a value, or an exception on its way up. *)
Inductive Res (A : Type) : Type :=
| Ret (a : A)
| Raise (e : PyExc).
Arguments Ret {A} a.
Arguments Raise {A} e.

(** State [S] is threaded through; it survives a raise, as Python's heap
    and the outside world do. *)
Definition M (S A : Type) : Type := S -> Res A * S.

Definition ret {S A : Type} (a : A) : M S A := fun s => (Ret a, s).

Definition raise {S A : Type} (e : PyExc) : M S A := fun s => (Raise e, s).

Definition bind {S A B : Type} (m : M S A) (k : A -> M S B) : M S B :=
  fun s =>
    match m s with
    | (Ret a, s') => k a s'
    | (Raise e, s') => (Raise e, s')
    end.

(** [try: body except Exception as exc: handler(exc)].  An exception raised
    by the handler itself is not caught. *)
Definition try_except {S A : Type} (body : M S A) (handler : PyExc -> M S A)
  : M S A :=
  fun s =>
    match body s with
    | (Ret a, s') => (Ret a, s')
    | (Raise e, s') => handler e s'
    end.

Definition get {S : Type} : M S S := fun s => (Ret s, s).

Definition modify {S : Type} (f : S -> S) : M S unit := fun s => (Ret tt, f s).

Declare Scope eff_scope.
Delimit Scope eff_scope with eff.

Notation "x <- m ;; k" := (bind m (fun x => k))
  (at level 61, m at next level, right associativity) : eff_scope.
Notation "m ;; k" := (bind m (fun _ => k))
  (at level 61, right associativity) : eff_scope.

End Eff.

(* ================================================================== *)
(** ** docx_converter.py *)
(* ================================================================== *)

Module Converter.
Import Exn Eff.
Local Open Scope eff_scope.

(** *** The outside world of one conversion *)

Inductive Kind := Regular | Directory.

Record Node := mkNode {
  node_kind : Kind;
  st_size : Z
}.

Definition FS := string -> option Node.

Definition fs_remove (p : string) (f : FS) : FS :=
  fun q => if String.eqb q p then None else f q.

(** [Path(p).exists()]. *)
Definition path_exists (f : FS) (p : string) : bool :=
  match f p with
  | Some _ => true
  | None => false
  end.

(** [Path(p).is_file()]. *)
Definition is_file (f : FS) (p : string) : bool :=
  match f p with
  | Some n => match node_kind n with Regular => true | Directory => false end
  | None => false
  end.

(** [p.exists() and p.stat().st_size > 0]. *)
Definition nonempty_output (f : FS) (p : string) : bool :=
  match f p with
  | Some n => 0 <? st_size n
  | None => false
  end.

(** What the converter does to the outside, in order: the calls of the two
    strategies, the removals of a residual PDF, the pauses. *)
Inductive Event :=
| EvUnlink (path : string)
| EvPrimary (attempt : Z)
| EvFallback (attempt : Z)
| EvSleep (seconds : Z).

Record World := mkWorld {
  fs : FS;
  events : list Event
}.

(** One run of [docx2pdf.convert] in its worker thread: the file system it
    leaves, the seconds it took, and the exception it ended with, if any. *)
Record CallRun := mkRun {
  run_fs : FS;
  run_seconds : Z;
  run_raised : option PyExc
}.

(** The collaborators of the converter, as they behave at each attempt on
    each file system:
    - [convert]: the module-level [convert], [None] when [docx2pdf] could
      not be imported;
    - [unlink_error]: the exception [pdf_path.unlink()] raises, if any;
    - [word_session]: the COM session of [convert_with_win32], from
      [CoInitialize] to [CoUninitialize]: the file system it leaves and the
      exception one of its calls raised, if any. *)
Record Env := mkEnv {
  convert : option (Z -> string -> string -> FS -> CallRun);
  unlink_error : Z -> FS -> option PyExc;
  word_session : Z -> string -> string -> FS -> FS * option PyExc
}.

Record DocxConverter := mkConverter {
  max_retries : Z;
  timeout : Z;
  has_win32 : bool
}.

(** The triple [(pdf_path, attempts, error)] a conversion returns. *)
Definition Outcome : Type := option string * Z * option string.

Inductive Status := Success | Failed.

(** How the caller reads an outcome: [if pdf_path: ... else: ...]. *)
Definition status_of (t : Outcome) : Status :=
  match t with
  | (Some _, _, _) => Success
  | (None, _, _) => Failed
  end.

(** What one iteration of the attempt loop ends with: a [return], or the
    next iteration with [last_error] updated. *)
Inductive LoopStep :=
| Return (t : Outcome)
| Continue (last_error : option string).

Definition log (e : Event) : M World unit :=
  modify (fun w => mkWorld (fs w) (events w ++ [e])).

Definition set_fs (f : FS) : M World unit :=
  modify (fun w => mkWorld f (events w)).

Section Methods.

Variable self : DocxConverter.
Variable env : Env.

(** [pdf_path.unlink()]. *)
Definition unlink (attempt : Z) (p : string) : M World unit :=
  w <- get ;;
  log (EvUnlink p) ;;
  match unlink_error env attempt (fs w) with
  | Some e => raise e
  | None => set_fs (fs_remove p (fs w))
  end.

(** Lines 110 to 112: the call is submitted to a one-worker pool and
    [fut.result(timeout=self.timeout)] waits for it.  Leaving the [with]
    block joins the worker, so the file system is the one the call leaves
    in every case.  The call is one that ends, by returning or with an
    exception that derives from [Exception]; the others are in
    [FullConverter.future_result]. *)
Definition future_result
  (c : Z -> string -> string -> FS -> CallRun)
  (attempt : Z) (docx pdf : string) : M World unit :=
  w <- get ;;
  log (EvPrimary attempt) ;;
  let run := c attempt docx pdf (fs w) in
  set_fs (run_fs run) ;;
  if timeout self <? run_seconds run
  then raise (mkExc FuturesTimeoutError "")
  else match run_raised run with
       | Some e => raise e
       | None => ret tt
       end.

(** [convert_with_win32].  [attempt] is not an argument of the method: it
    names the call, to select the behaviour of Word at it. *)
Definition convert_with_win32 (attempt : Z) (docx pdf : string)
  : M World bool :=
  if negb (has_win32 self) then ret false
  else
    try_except
      (w <- get ;;
       log (EvFallback attempt) ;;
       let '(f, err) := word_session env attempt docx pdf (fs w) in
       set_fs f ;;
       match err with
       | Some e => raise e
       | None => w' <- get ;; ret (nonempty_output (fs w') pdf)
       end)
      (fun _ => ret false).

(** Lines 95 to 99. *)
Definition cleanup (attempt : Z) (pdf : string) : M World unit :=
  w <- get ;;
  if path_exists (fs w) pdf
  then try_except (unlink attempt pdf) (fun _ => ret tt)
  else ret tt.

(** The [try] block, lines 101 to 118. *)
Definition primary_attempt (attempt : Z) (docx pdf : string)
  : M World LoopStep :=
  match convert env with
  | None => raise (mkExc RuntimeError "El mòdul docx2pdf no està disponible.")
  | Some c =>
      future_result c attempt docx pdf ;;
      w <- get ;;
      if nonempty_output (fs w) pdf
      then ret (Return (Some pdf, attempt, None))
      else raise (mkExc ValueError "PDF buit o inexistent després de docx2pdf")
  end.

(** The exceptions of the clause [except (FuturesTimeoutError, ValueError)]. *)
Definition caught_with_fallback (exc : PyExc) : bool :=
  match exc_class exc with
  | FuturesTimeoutError | ValueError => true
  | _ => false
  end.

(** The two [except] clauses, lines 120 to 136. *)
Definition on_error (attempt : Z) (docx pdf : string) (exc : PyExc)
  : M World LoopStep :=
  if caught_with_fallback exc
  then
    if has_win32 self && (attempt <? max_retries self)
    then
      ok <- convert_with_win32 attempt docx pdf ;;
      if ok : bool
      then ret (Return (Some pdf, attempt, None))
      else ret (Continue (Some (exc_str exc)))
    else ret (Continue (Some (exc_str exc)))
  else ret (Continue (Some (exc_str exc))).

(** The body of the [for] loop, lines 94 to 142. *)
Definition attempt_body (attempt : Z) (docx pdf : string) : M World LoopStep :=
  cleanup attempt pdf ;;
  step <- try_except (primary_attempt attempt docx pdf)
                     (on_error attempt docx pdf) ;;
  match step with
  | Return t => ret (Return t)
  | Continue last_error =>
      (if attempt <? max_retries self
       then log (EvSleep (Z.min (attempt * 3) 15))
       else ret tt) ;;
      ret (Continue last_error)
  end.

(** The [for] loop over the remaining attempts, and lines 144 to 152 after
    it. *)
Fixpoint attempts_loop (attempts : list Z) (docx pdf : string)
  (last_error : option string) : M World Outcome :=
  match attempts with
  | [] =>
      ret (None, max_retries self,
           Some ("Fallo després de " ++ Py.str_of_Z (max_retries self)
                 ++ " intents: " ++ Py.str_opt last_error))
  | attempt :: rest =>
      step <- attempt_body attempt docx pdf ;;
      match step with
      | Return t => ret t
      | Continue last_error' => attempts_loop rest docx pdf last_error'
      end
  end.

Definition pdf_path_of (docx_file temp_dir : string) : string :=
  Py.path_join temp_dir (Py.path_stem docx_file ++ ".pdf").

Definition convert_single_file
  (docx_file temp_dir : string) (file_num total_files : Z) : M World Outcome :=
  let docx_path := docx_file in
  let pdf_path := pdf_path_of docx_file temp_dir in
  w <- get ;;
  if negb (path_exists (fs w) docx_path) || negb (is_file (fs w) docx_path)
  then ret (None, 0,
            Some ("El fitxer " ++ docx_path ++ " no existeix o no és vàlid."))
  else if negb (path_exists (fs w) temp_dir)
  then ret (None, 0,
            Some ("El directori temporal " ++ temp_dir ++ " no existeix."))
  else attempts_loop (Py.range 1 (max_retries self + 1))
                     docx_path pdf_path None.

(** The exception the [try] block of an attempt ends with when it starts on
    the file system [f], if any. *)
Definition primary_failure (attempt : Z) (docx pdf : string) (f : FS)
  : option PyExc :=
  match fst (primary_attempt attempt docx pdf (mkWorld f [])) with
  | Raise e => Some e
  | Ret _ => None
  end.

(** Whether [convert_with_win32] returns [True] when it starts on the file
    system [f]. *)
Definition fallback_succeeds (attempt : Z) (docx pdf : string) (f : FS)
  : bool :=
  match fst (convert_with_win32 attempt docx pdf (mkWorld f [])) with
  | Ret b => b
  | Raise _ => false
  end.

End Methods.

Definition count_primary (evs : list Event) : nat :=
  List.length
    (filter (fun e => match e with EvPrimary _ => true | _ => false end) evs).

Definition count_fallback (evs : list Event) : nat :=
  List.length
    (filter (fun e => match e with EvFallback _ => true | _ => false end) evs).

(** The events of a run from [w] to [w'] are those of [w] and then new ones,
    among them at most [np] calls of the primary strategy and [nf] of the
    fallback. *)
Definition grows (w w' : World) (np nf : nat) : Prop :=
  exists evs,
    events w' = (events w ++ evs)%list
    /\ (count_primary evs <= np)%nat
    /\ (count_fallback evs <= nf)%nat.

End Converter.

(* ================================================================== *)
(** ** docx_to_pdf_zip_app.py *)
(* ================================================================== *)

Module App.
Import Exn Eff.
Local Open Scope eff_scope.

Definition CONVERSION_TIMEOUT : Z := 600.
Definition MAX_RETRIES : Z := 5.

(** Lines 39 to 43 of the module set [HAS_WIN32 = True] inside a [try] that
    cannot fail. *)
Definition HAS_WIN32 : bool := true.

(** [DocxToPdfZipApp.convert_single_file]: a fresh converter per file. *)
Definition convert_single_file (cenv : Converter.Env)
  (docx_file temp_dir : string) (file_num total_files : Z)
  : M Converter.World Converter.Outcome :=
  Converter.convert_single_file
    (Converter.mkConverter MAX_RETRIES CONVERSION_TIMEOUT HAS_WIN32)
    cenv docx_file temp_dir file_num total_files.

(** The items put on [message_queue]. *)
Inductive Msg :=
| Status (message type : string)
| Progress (value : Z)
| Active (completed total : Z)
| Finished (success : bool) (payload : string).

(** The calls made on the archive. *)
Inductive ZipCall :=
| ZipOpen (zip_path : string) (encrypted : bool)
| ZipSetPassword (password : string)
| ZipWrite (pdf arcname : string).

(** A future of the pool, as the collecting loop sees it: the file it was
    submitted for and what [fut.result()] does, return a triple or raise. *)
Record Future := mkFuture {
  fut_src : string;
  fut_result : Res Converter.Outcome
}.

(** The fields of the application the worker thread touches, its local
    [pdf_files], the number of times it has read [cancel_flag], and the
    archive calls it has made. *)
Record AppState := mkApp {
  conversion_report : Report.ConversionReport;
  completed_conversions : Z;
  message_queue : list Msg;
  pdf_files : list string;
  flag_reads : nat;
  zip_calls : list ZipCall
}.

(** What the thread does not decide:
    - [mkdtemp]: the directory [tempfile.mkdtemp()] returns;
    - [pool_result f temp_dir i total]: what the future of
      [self.convert_single_file(f, temp_dir, i, total)] ends up holding;
    - [next_done k]: which of the futures still pending completes next,
      when [k] are done (an index, taken modulo their number);
    - [cancel_flag n]: the value of [self.cancel_flag] at the thread's
      [n]-th read of it (the GUI thread sets it);
    - [time_time]: the clock when the run ends;
    - [zip_open_error], [zip_write_error]: the exception raised by opening
      the archive or by writing one file into it, if any. *)
Record Env := mkEnv {
  mkdtemp : string;
  pool_result : string -> string -> Z -> Z -> Res Converter.Outcome;
  next_done : nat -> nat;
  cancel_flag : nat -> bool;
  time_time : float;
  zip_open_error : option PyExc;
  zip_write_error : string -> option PyExc
}.

(** The pool when every task converts its own file from the world [w] with
    the collaborators [cenv f]. *)
Definition pool_of (cenv : string -> Converter.Env) (w : Converter.World)
  : string -> string -> Z -> Z -> Res Converter.Outcome :=
  fun f temp_dir i total =>
    fst (convert_single_file (cenv f) f temp_dir i total w).

Definition put (m : Msg) : M AppState unit :=
  modify (fun st =>
    mkApp (conversion_report st) (completed_conversions st)
          (message_queue st ++ [m]) (pdf_files st) (flag_reads st)
          (zip_calls st)).

Definition update_report
  (f : Report.ConversionReport -> Report.ConversionReport) : M AppState unit :=
  modify (fun st =>
    mkApp (f (conversion_report st)) (completed_conversions st)
          (message_queue st) (pdf_files st) (flag_reads st) (zip_calls st)).

Definition set_pdf_files (l : list string) : M AppState unit :=
  modify (fun st =>
    mkApp (conversion_report st) (completed_conversions st)
          (message_queue st) l (flag_reads st) (zip_calls st)).

Definition append_pdf (p : string) : M AppState unit :=
  st <- get ;; set_pdf_files (pdf_files st ++ [p]).

Definition incr_completed : M AppState unit :=
  modify (fun st =>
    mkApp (conversion_report st) (completed_conversions st + 1)
          (message_queue st) (pdf_files st) (flag_reads st) (zip_calls st)).

Definition zip_call (c : ZipCall) : M AppState unit :=
  modify (fun st =>
    mkApp (conversion_report st) (completed_conversions st)
          (message_queue st) (pdf_files st) (flag_reads st)
          (zip_calls st ++ [c])).

Definition remove_nth {A : Type} (i : nat) (l : list A) : list A :=
  firstn i l ++ skipn (S i) l.

Definition interrupted : PyExc :=
  mkExc InterruptedError "Conversió cancel·lada per l'usuari".

Definition no_files_converted : PyExc :=
  mkExc RuntimeError "No s'ha pogut convertir cap fitxer.".

Section Thread.

Variable env : Env.

(** A read of [self.cancel_flag]. *)
Definition read_cancel_flag : M AppState bool :=
  fun st =>
    (Ret (cancel_flag env (flag_reads st)),
     mkApp (conversion_report st) (completed_conversions st)
           (message_queue st) (pdf_files st) (S (flag_reads st))
           (zip_calls st)).

(** Lines 419 to 422: one future per file, numbered from [i]. *)
Fixpoint submit_all (temp_dir : string) (total i : Z) (files : list string)
  : list Future :=
  match files with
  | [] => []
  | f :: rest =>
      mkFuture f (pool_result env f temp_dir i total)
        :: submit_all temp_dir total (i + 1) rest
  end.

(** [as_completed(future_to_file)]: every future once, in the order of
    completion. *)
Fixpoint as_completed_from (fuel done : nat) (pending : list Future)
  : list Future :=
  match fuel with
  | O => []
  | S fuel' =>
      match pending with
      | [] => []
      | first :: _ =>
          let i := (next_done env done mod List.length pending)%nat in
          nth i pending first
            :: as_completed_from fuel' (S done) (remove_nth i pending)
      end
  end.

Definition as_completed (futures : list Future) : list Future :=
  as_completed_from (List.length futures) 0 futures.

(** [fut.result()]. *)
Definition result (fut : Future) : M AppState Converter.Outcome :=
  fun st => (fut_result fut, st).

(** The [try] block of lines 433 to 466. *)
Definition record_result (fut : Future) (name : string) : M AppState unit :=
  t <- result fut ;;
  let '(pdf_path, attempts, error) := t in
  match pdf_path with
  | Some p =>
      append_pdf p ;;
      update_report (Report.add_success name) ;;
      (if 1 <? attempts
       then update_report (Report.add_retry name attempts)
       else ret tt) ;;
      put (Status ("✓ Convertit: " ++ name
                   ++ (if 1 <? attempts
                       then " (" ++ Py.str_of_Z attempts ++ " intents)"
                       else ""))
                  "success")
  | None =>
      update_report
        (Report.add_failure name (Py.or_default error "Error desconegut")) ;;
      put (Status ("✗ Error final: " ++ name) "error")
  end.

(** The [except Exception] clause of lines 467 to 477. *)
Definition record_exception (name : string) (exc : PyExc) : M AppState unit :=
  update_report (Report.add_failure name (exc_str exc)) ;;
  put (Status ("✗ Excepció: " ++ name ++ " - " ++ exc_str exc) "error").

(** The body of [for fut in as_completed(...)], lines 425 to 493.  The
    collection hint [gc.collect()] at its end changes nothing here. *)
Definition collect_one (total : Z) (fut : Future) : M AppState unit :=
  cancelled <- read_cancel_flag ;;
  if cancelled : bool then raise interrupted
  else
    let src := fut_src fut in
    let name := Py.path_name src in
    try_except (record_result fut name) (record_exception name) ;;
    incr_completed ;;
    st <- get ;;
    (if total =? 0
     then raise (mkExc ZeroDivisionError "division by zero")
     else
       put (Progress
              (Py.int_of_float
                 (PrimFloat.mul
                    (Py.truediv (completed_conversions st) total)
                    (Py.float_of_Z 80))))) ;;
    put (Active (completed_conversions st) total).

Fixpoint collect_loop (total : Z) (completed : list Future) : M AppState unit :=
  match completed with
  | [] => ret tt
  | fut :: rest => collect_one total fut ;; collect_loop total rest
  end.

(** Lines 403 to 416: the status line and the empty [pdf_files]. *)
Definition announce (total max_workers : Z) : M AppState unit :=
  put (Status ("Convertint " ++ Py.str_of_Z total ++ " fitxer(s) amb "
               ++ Py.str_of_Z max_workers ++ " fils...")
              "info") ;;
  set_pdf_files [].

(** The futures in the order the loop of line 424 meets them. *)
Definition completion_order (docx_files : list string) : list Future :=
  as_completed
    (submit_all (mkdtemp env) (Z.of_nat (List.length docx_files)) 1 docx_files).

(** Lines 403 to 493. *)
Definition conversion_phase (docx_files : list string) (max_workers : Z)
  : M AppState unit :=
  let total := Z.of_nat (List.length docx_files) in
  announce total max_workers ;;
  collect_loop total (completion_order docx_files).

(** The loop of lines 521 to 526 over [enumerate(pdf_files, 1)]. *)
Fixpoint zip_loop (n idx : Z) (pdfs : list string) : M AppState unit :=
  match pdfs with
  | [] => ret tt
  | pdf :: rest =>
      cancelled <- read_cancel_flag ;;
      if cancelled : bool then raise interrupted
      else
        zip_call (ZipWrite pdf (Py.path_name pdf)) ;;
        match zip_write_error env pdf with
        | Some e => raise e
        | None =>
            put (Progress
                   (Py.int_of_float
                      (PrimFloat.add (Py.float_of_Z 85)
                         (PrimFloat.mul (Py.truediv idx n)
                                        (Py.float_of_Z 15))))) ;;
            zip_loop n (idx + 1) rest
        end
  end.

Definition set_end_time : M AppState unit :=
  update_report (Report.set_end_time (time_time env)).

(** Lines 495 to 532. *)
Definition packaging_phase (password zip_path : string) : M AppState unit :=
  st <- get ;;
  let pdfs := pdf_files st in
  match pdfs with
  | [] => raise no_files_converted
  | _ :: _ =>
      cancelled <- read_cancel_flag ;;
      if cancelled : bool then raise interrupted
      else
        put (Status ("Creant ZIP amb "
                     ++ Py.str_of_Z (Z.of_nat (List.length pdfs))
                     ++ " PDF(s)...")
                    "info") ;;
        put (Progress 85) ;;
        zip_call (ZipOpen zip_path (negb (String.eqb password ""))) ;;
        match zip_open_error env with
        | Some e => raise e
        | None =>
            (if String.eqb password "" then ret tt
             else zip_call (ZipSetPassword password)) ;;
            zip_loop (Z.of_nat (List.length pdfs)) 1 pdfs ;;
            put (Progress 100) ;;
            set_end_time ;;
            put (Finished true zip_path)
        end
  end.

(** The two outer [except] clauses, lines 534 to 544. *)
Definition on_thread_error (exc : PyExc) : M AppState unit :=
  set_end_time ;;
  match exc_class exc with
  | InterruptedError => put (Finished false (exc_str exc))
  | _ => put (Finished false ("Error durant la conversió: " ++ exc_str exc))
  end.

(** The [try] statement of [convert_and_zip_thread] with its two [except]
    clauses, for tasks that end by returning or with an exception that
    derives from [Exception].  [tempfile.mkdtemp()] is taken to succeed.  The
    [finally] clause, which touches nothing of the state kept here but can
    raise, and the other tasks are in [FullApp.convert_and_zip_thread]. *)
Definition convert_and_zip_thread
  (docx_files : list string) (password zip_path : string) (max_workers : Z)
  : M AppState unit :=
  try_except
    (conversion_phase docx_files max_workers ;;
     packaging_phase password zip_path)
    on_thread_error.

End Thread.

(** Lines 365 to 371 of [start_conversion]: the report and the counters of a
    new run. *)
Definition begin_run (docx_files : list string) (now : float) : AppState :=
  mkApp
    (Report.set_start_time now
       (Report.set_total_files (Z.of_nat (List.length docx_files))
          Report.init))
    0 [] [] 0 [].

(** A whole run: the state [start_conversion] sets up, then the thread. *)
Definition batch_run (env : Env) (docx_files : list string)
  (password zip_path : string) (max_workers : Z) (now : float)
  : Res unit * AppState :=
  convert_and_zip_thread env docx_files password zip_path max_workers
    (begin_run docx_files now).

(** The state of a run when [k] completed futures have been through the
    collecting loop (all of them, when [k] exceeds their number; those
    before the cancellation, when the loop was left by it). *)
Definition collection_state (env : Env) (docx_files : list string)
  (max_workers : Z) (now : float) (k : nat) : AppState :=
  let total := Z.of_nat (List.length docx_files) in
  snd ((announce total max_workers ;;
        collect_loop env total (firstn k (completion_order env docx_files)))
         (begin_run docx_files now)).

(** The last message of the queue. *)
Definition last_message (st : AppState) : option Msg :=
  nth_error (rev (message_queue st)) 0.

(** The run ended on the check of line 495: nothing was handed to the
    archive and the run reported that no file was converted. *)
Definition no_files_failure (st : AppState) : Prop :=
  zip_calls st = []
  /\ last_message st
     = Some (Finished false
               ("Error durant la conversió: " ++ exc_str no_files_converted)).

(** The number of outcomes in the report. *)
Definition recorded (st : AppState) : nat :=
  (List.length (Report.successful_conversions (conversion_report st))
   + List.length (Report.failed_conversions (conversion_report st)))%nat.

(** Every retried entry has more than one attempt and names a recorded
    success. *)
Definition retried_ok (r : Report.ConversionReport) : Prop :=
  Forall (fun e => 1 < snd e /\ In (fst e) (Report.successful_conversions r))
         (Report.retried_files r).

(** The report after the loop body has run, uncancelled, on one future. *)
Definition report_after (fut : Future) (r : Report.ConversionReport)
  : Report.ConversionReport :=
  let name := Py.path_name (fut_src fut) in
  match fut_result fut with
  | Ret (Some _, attempts, _) =>
      if 1 <? attempts
      then Report.add_retry name attempts (Report.add_success name r)
      else Report.add_success name r
  | Ret (None, _, error) =>
      Report.add_failure name (Py.or_default error "Error desconegut") r
  | Raise exc => Report.add_failure name (exc_str exc) r
  end.

(** [pdf_files] after the loop body has run, uncancelled, on one future. *)
Definition pdf_files_after (fut : Future) (l : list string) : list string :=
  match fut_result fut with
  | Ret (Some p, _, _) => (l ++ [p])%list
  | _ => l
  end.

(** What a run has recorded so far, apart from time stamps and messages. *)
Definition same_results (st st' : AppState) : Prop :=
  Report.successful_conversions (conversion_report st')
  = Report.successful_conversions (conversion_report st)
  /\ Report.failed_conversions (conversion_report st')
     = Report.failed_conversions (conversion_report st)
  /\ Report.retried_files (conversion_report st')
     = Report.retried_files (conversion_report st)
  /\ Report.total_files (conversion_report st')
     = Report.total_files (conversion_report st)
  /\ pdf_files st' = pdf_files st
  /\ completed_conversions st' = completed_conversions st.

(** The invariant of the collecting loop. *)
Definition collecting (st : AppState) : Prop :=
  List.length (pdf_files st)
  = List.length (Report.successful_conversions (conversion_report st))
  /\ retried_ok (conversion_report st)
  /\ zip_calls st = [].

End App.


(* ================================================================== *)
(** ** Sample worlds and collaborators *)
(* ================================================================== *)

Module Examples.
Import Exn Eff.

Definition write_file (p : string) (f : Converter.FS) : Converter.FS :=
  fun q =>
    if String.eqb q p then Some (Converter.mkNode Converter.Regular 2048)
    else f q.

(** Two documents and the temporary directory. *)
Definition disk : Converter.FS :=
  fun p =>
    if String.eqb p "in/informe.docx"
    then Some (Converter.mkNode Converter.Regular 5120)
    else if String.eqb p "in/acta.docx"
    then Some (Converter.mkNode Converter.Regular 4096)
    else if String.eqb p "/tmp/out"
    then Some (Converter.mkNode Converter.Directory 0)
    else None.

Definition world : Converter.World := Converter.mkWorld disk [].

Definition no_unlink_error : Z -> Converter.FS -> option PyExc :=
  fun _ _ => None.

(** Word is not reachable through COM. *)
Definition word_down
  : Z -> string -> string -> Converter.FS -> Converter.FS * option PyExc :=
  fun _ _ _ f => (f, Some (mkExc OtherException "Word.Application")).

(** Word saves the PDF. *)
Definition word_up
  : Z -> string -> string -> Converter.FS -> Converter.FS * option PyExc :=
  fun _ _ pdf f => (write_file pdf f, None).

(** [docx2pdf] fails on the first two attempts and converts on the third. *)
Definition flaky : Converter.Env :=
  Converter.mkEnv
    (Some (fun attempt _ pdf f =>
             if attempt <? 3
             then Converter.mkRun f 2
                    (Some (mkExc OtherException "Word no respon"))
             else Converter.mkRun (write_file pdf f) 2 None))
    no_unlink_error word_down.

(** [docx2pdf] never ends within the timeout of 600 seconds. *)
Definition hanging (word : Z -> string -> string -> Converter.FS
                           -> Converter.FS * option PyExc)
  : Converter.Env :=
  Converter.mkEnv
    (Some (fun _ _ _ f => Converter.mkRun f 700 None))
    no_unlink_error word.

(** [docx2pdf] raises an error that is neither a timeout nor a
    [ValueError]; Word would save the PDF. *)
Definition broken : Converter.Env :=
  Converter.mkEnv
    (Some (fun _ _ _ f =>
             Converter.mkRun f 2
               (Some (mkExc OtherException "Word no respon"))))
    no_unlink_error word_up.

(** A run of two files: the first is converted at its third attempt, the
    second never; the second future completes first; nobody cancels. *)
Definition two_files : list string := ["in/informe.docx"; "in/acta.docx"].

Definition app_env : App.Env :=
  App.mkEnv "/tmp/out"
    (App.pool_of
       (fun f => if String.eqb f "in/informe.docx" then flaky
                 else hanging word_down)
       world)
    (fun _ => 1%nat)
    (fun _ => false)
    1700000060%float
    None
    (fun _ => None).

End Examples.

(* ================================================================== *)
(** ** Observations on reports, conversions and runs *)
(* ================================================================== *)

Module ReportObs.
Import Report.

(** A call of one of the three recording methods. *)
Inductive Call :=
| CallSuccess (filename : string)
| CallFailure (filename error : string)
| CallRetry (filename : string) (attempts : Z).

Definition call (c : Call) (r : ConversionReport) : ConversionReport :=
  match c with
  | CallSuccess f => add_success f r
  | CallFailure f e => add_failure f e r
  | CallRetry f a => add_retry f a r
  end.

(** The calls of a list, made one after the other. *)
Definition calls (cs : list Call) (r : ConversionReport) : ConversionReport :=
  fold_left (fun r c => call c r) cs r.

Definition successes_of (cs : list Call) : list string :=
  flat_map (fun c => match c with CallSuccess f => [f] | _ => [] end) cs.

Definition failures_of (cs : list Call) : list (string * string) :=
  flat_map (fun c => match c with CallFailure f e => [(f, e)] | _ => [] end) cs.

Definition retries_of (cs : list Call) : list (string * Z) :=
  flat_map (fun c => match c with CallRetry f a => [(f, a)] | _ => [] end) cs.

End ReportObs.

Module ConverterObs.
Import Exn Eff Converter.

(** The attempts at which the primary strategy was called, in order. *)
Definition primary_calls (evs : list Event) : list Z :=
  flat_map (fun e => match e with EvPrimary a => [a] | _ => [] end) evs.

(** The attempts at which the fallback was called, in order. *)
Definition fallback_calls (evs : list Event) : list Z :=
  flat_map (fun e => match e with EvFallback a => [a] | _ => [] end) evs.

(** The pauses made, in seconds, in order. *)
Definition pauses (evs : list Event) : list Z :=
  flat_map (fun e => match e with EvSleep s => [s] | _ => [] end) evs.

(** The pause of line 141 after a failed attempt. *)
Definition backoff (attempt : Z) : Z := Z.min (attempt * 3) 15.

(** Whether an attempt is followed by another one. *)
Definition below_last (self : DocxConverter) (a : Z) : bool :=
  a <? max_retries self.

Definition total (l : list Z) : Z := fold_right Z.add 0 l.

End ConverterObs.

Module AppObs.
Import Exn Eff App.

(** Whether a future holds a triple with an output path. *)
Definition holds_success (fut : Future) : bool :=
  match fut_result fut with
  | Ret (Some _, _, _) => true
  | _ => false
  end.

(** What the loop body appends for one future: to the successes, to the
    failures, to the retried files, to [pdf_files]. *)
Definition recorded_success (fut : Future) : list string :=
  if holds_success fut then [Py.path_name (fut_src fut)] else [].

Definition recorded_failure (fut : Future) : list (string * string) :=
  match fut_result fut with
  | Ret (Some _, _, _) => []
  | Ret (None, _, error) =>
      [(Py.path_name (fut_src fut), Py.or_default error "Error desconegut")]
  | Raise exc => [(Py.path_name (fut_src fut), exc_str exc)]
  end.

Definition recorded_retry (fut : Future) : list (string * Z) :=
  match fut_result fut with
  | Ret (Some _, attempts, _) =>
      if 1 <? attempts then [(Py.path_name (fut_src fut), attempts)] else []
  | _ => []
  end.

Definition output_of (fut : Future) : list string :=
  match fut_result fut with
  | Ret (Some p, _, _) => [p]
  | _ => []
  end.

Definition is_finished (m : Msg) : bool :=
  match m with
  | Finished _ _ => true
  | _ => false
  end.

(** The pairs (completed, total) of the "active" messages, in order. *)
Definition actives (q : list Msg) : list (Z * Z) :=
  flat_map (fun m => match m with Active c t => [(c, t)] | _ => [] end) q.

(** The calls that put the files [pdfs] into the archive [zip_path]. *)
Definition archive_calls (password zip_path : string) (pdfs : list string)
  : list ZipCall :=
  (ZipOpen zip_path (negb (String.eqb password ""))
   :: (if String.eqb password "" then [] else [ZipSetPassword password])
   ++ map (fun pdf => ZipWrite pdf (Py.path_name pdf)) pdfs)%list.

(** No "finished" message among [q]. *)
Definition unfinished (q : list Msg) : Prop :=
  Forall (fun m => is_finished m = false) q.

(** The pairs (c + 1, total), ..., (c + n, total). *)
Definition counting (c : Z) (n : nat) (total : Z) : list (Z * Z) :=
  map (fun i => (c + Z.of_nat i, total)) (seq 1 n).

(** The state [st'] is [st] after the loop body has run, uncancelled, on the
    futures [futs] in turn, with [total] as the number of files. *)
Definition collected (total : Z) (futs : list Future) (st st' : AppState)
  : Prop :=
  Report.successful_conversions (conversion_report st')
  = (Report.successful_conversions (conversion_report st)
     ++ flat_map recorded_success futs)%list
  /\ Report.failed_conversions (conversion_report st')
     = (Report.failed_conversions (conversion_report st)
        ++ flat_map recorded_failure futs)%list
  /\ Report.retried_files (conversion_report st')
     = (Report.retried_files (conversion_report st)
        ++ flat_map recorded_retry futs)%list
  /\ Report.total_files (conversion_report st')
     = Report.total_files (conversion_report st)
  /\ Report.start_time (conversion_report st')
     = Report.start_time (conversion_report st)
  /\ Report.end_time (conversion_report st')
     = Report.end_time (conversion_report st)
  /\ pdf_files st' = (pdf_files st ++ flat_map output_of futs)%list
  /\ completed_conversions st'
     = completed_conversions st + Z.of_nat (List.length futs)
  /\ zip_calls st' = zip_calls st
  /\ exists q,
       message_queue st' = (message_queue st ++ q)%list
       /\ unfinished q
       /\ actives q
          = counting (completed_conversions st) (List.length futs) total.

(** The report lists, [pdf_files] and the counter are those of a run that
    has collected the futures [futs], in that order, and nothing else. *)
Definition collected_lists (futs : list Future) (st : AppState) : Prop :=
  Report.successful_conversions (conversion_report st)
  = flat_map recorded_success futs
  /\ Report.failed_conversions (conversion_report st)
     = flat_map recorded_failure futs
  /\ Report.retried_files (conversion_report st)
     = flat_map recorded_retry futs
  /\ pdf_files st = flat_map output_of futs
  /\ completed_conversions st = Z.of_nat (List.length futs).

End AppObs.

(* ================================================================== *)
(** ** The start of a run *)
(* ================================================================== *)

Module Start.
Import App.

Definition DEFAULT_PARALLEL : Z := 8.
Definition MAX_PARALLEL_ALLOWED : Z := 16.

(** The dialogs [start_conversion] can show. *)
Inductive MessageBox :=
| ShowWarning (title message : string)
| ShowError (title message : string).

(** What [start_conversion] reads: the selected files, the check box, the two
    password entries, the destination entry after [.strip()], and the
    spin box after [int(...)], [None] when that raises [ValueError]. *)
Record Form := mkForm {
  docx_files : list string;
  use_password_var : bool;
  password_entry : string;
  password_confirm_entry : string;
  dest_entry : string;
  parallel_spinbox : option Z
}.

(** What [start_conversion] leaves when it starts the thread: the state of
    the new run, the flags and the widgets it sets, and the arguments of
    [convert_and_zip_thread]. *)
Record Launch := mkLaunch {
  run_state : AppState;
  is_processing : bool;
  cancel_flag : bool;
  convert_btn : string;
  cancel_btn : string;
  progress_value : Z;
  thread_docx_files : list string;
  thread_password : string;
  thread_zip_path : string;
  thread_max_workers : Z
}.

(** Lines 335 to 381. *)
Definition start_conversion (form : Form) (now : float)
  : MessageBox + Launch :=
  match docx_files form with
  | [] => inl (ShowWarning "Atenció" "Selecciona almenys un fitxer DOCX.")
  | _ :: _ =>
      let pwd := if use_password_var form then password_entry form else "" in
      if use_password_var form && String.eqb pwd ""
      then inl (ShowWarning "Atenció" "Introdueix una contrasenya.")
      else if use_password_var form
              && negb (String.eqb pwd (password_confirm_entry form))
      then inl (ShowError "Error" "Les contrasenyes no coincideixen.")
      else
        let zip_path := dest_entry form in
        if String.eqb zip_path ""
        then inl (ShowWarning "Atenció" "Selecciona un destí per al ZIP.")
        else
          match parallel_spinbox form with
          | None => inl (ShowWarning "Atenció" "Número de fils entre 1 i 16.")
          | Some max_workers =>
              if (1 <=? max_workers) && (max_workers <=? MAX_PARALLEL_ALLOWED)
              then
                inr (mkLaunch (begin_run (docx_files form) now)
                       true false "disabled" "normal" 0
                       (docx_files form) pwd zip_path max_workers)
              else inl (ShowWarning "Atenció" "Número de fils entre 1 i 16.")
          end
  end.

(** The run a launch starts. *)
Definition launched_run (env : Env) (l : Launch)
  : Eff.Res unit * AppState :=
  convert_and_zip_thread env (thread_docx_files l) (thread_password l)
    (thread_zip_path l) (thread_max_workers l) (run_state l).

End Start.

(* ================================================================== *)
(** ** More samples *)
(* ================================================================== *)

Module Samples.
Import Exn Eff.

(** A report with one success that needed three attempts and one failure. *)
Definition mixed_report : Report.ConversionReport :=
  Report.add_retry "informe.docx" 3
    (Report.add_failure "acta.docx" "Fallo després de 5 intents: "
       (Report.add_success "informe.docx"
          (Report.set_total_files 2 Report.init))).


(** [docx2pdf] is not installed; Word is. *)
Definition without_docx2pdf : Converter.Env :=
  Converter.mkEnv None Examples.no_unlink_error Examples.word_up.

(** Neither [docx2pdf] nor Word writes anything, and neither raises. *)
Definition silent : Converter.Env :=
  Converter.mkEnv
    (Some (fun _ _ _ f => Converter.mkRun f 2 None))
    Examples.no_unlink_error
    (fun _ _ _ f => (f, None)).

End Samples.

(* ================================================================== *)
(** ** The attempts of one conversion *)
(* ================================================================== *)

Module RunObs.
Import Exn Eff Converter.

Section Attempts.

Variable self : DocxConverter.
Variable env : Env.
Variables docx pdf : string.
Variable w : World.






End Attempts.

End RunObs.

(* ================================================================== *)
(** ** Exceptions outside [Exception] and calls that never end *)
(* ================================================================== *)

Module FullEff.
Import Exn.

(** The classes that derive from [BaseException] and not from [Exception]:
    no clause [except Exception] catches them. *)
Inductive BaseClass :=
| SystemExit
| KeyboardInterrupt
| GeneratorExit.

Record BaseExc := mkBase {
  base_class : BaseClass;
  base_str : string
}.

(** How a call ends: it returns, it raises an exception that derives from
    [Exception], it raises one that does not, or it never ends. *)
Inductive Fate (A : Type) : Type :=
| Returns (a : A)
| Raises (e : PyExc)
| Escapes (b : BaseExc)
| NeverEnds.
Arguments Returns {A} a.
Arguments Raises {A} e.
Arguments Escapes {A} b.
Arguments NeverEnds {A}.

Definition M (S A : Type) : Type := S -> Fate A * S.

Definition ret {S A : Type} (a : A) : M S A := fun s => (Returns a, s).

Definition raise {S A : Type} (e : PyExc) : M S A := fun s => (Raises e, s).

Definition escape {S A : Type} (b : BaseExc) : M S A :=
  fun s => (Escapes b, s).

Definition never_ends {S A : Type} : M S A := fun s => (NeverEnds, s).

Definition bind {S A B : Type} (m : M S A) (k : A -> M S B) : M S B :=
  fun s =>
    match m s with
    | (Returns a, s') => k a s'
    | (Raises e, s') => (Raises e, s')
    | (Escapes b, s') => (Escapes b, s')
    | (NeverEnds, s') => (NeverEnds, s')
    end.

(** [try: body except Exception as exc: handler(exc)]: only an exception
    that derives from [Exception] reaches the handler. *)
Definition try_except {S A : Type} (body : M S A) (handler : PyExc -> M S A)
  : M S A :=
  fun s =>
    match body s with
    | (Raises e, s') => handler e s'
    | other => other
    end.

(** [try: body finally: cleanup].  The clause runs however the body ends, if
    it ends; what it raises replaces what the body ended with. *)
Definition finally {S A : Type} (body : M S A) (cleanup : M S unit) : M S A :=
  fun s =>
    match body s with
    | (NeverEnds, s') => (NeverEnds, s')
    | (r, s') =>
        match cleanup s' with
        | (Returns _, s'') => (r, s'')
        | (Raises e, s'') => (Raises e, s'')
        | (Escapes b, s'') => (Escapes b, s'')
        | (NeverEnds, s'') => (NeverEnds, s'')
        end
    end.

(** A computation of [Eff], which returns or raises an exception that
    derives from [Exception]. *)
Definition lifted {S A : Type} (r : Eff.Res A * S) : Fate A * S :=
  match r with
  | (Eff.Ret a, s') => (Returns a, s')
  | (Eff.Raise e, s') => (Raises e, s')
  end.

Definition lift {S A : Type} (m : Eff.M S A) : M S A :=
  fun s => lifted (m s).

Declare Scope full_scope.
Delimit Scope full_scope with full.

Notation "x <- m ;; k" := (bind m (fun x => k))
  (at level 61, m at next level, right associativity) : full_scope.
Notation "m ;; k" := (bind m (fun _ => k))
  (at level 61, right associativity) : full_scope.

End FullEff.

(* ================================================================== *)
(** ** docx_converter.py, with every way a call of [convert] can end *)
(* ================================================================== *)

Module FullConverter.
Import Exn Converter FullEff.
Local Open Scope full_scope.

(** How a call of [docx2pdf.convert] that ends does so.  [docx2pdf] leaves
    through [sys.exit] on some of its errors, which raises [SystemExit]. *)
Inductive Ending :=
| Returned
| RaisedError (e : PyExc)
| RaisedOutside (b : BaseExc).

(** One call of [docx2pdf.convert] in its worker thread: it never ends, or it
    ends after some seconds and leaves a file system. *)
Inductive Call :=
| Hangs
| Ended (fs' : FS) (seconds : Z) (how : Ending).

(** The collaborators of the converter.  [unlink_error] and [word_session]
    are those of [Converter.Env]: [os.unlink] raises [OSError], and the calls
    of the COM session raise [com_error] or [NameError]. *)
Record Env := mkEnv {
  convert : option (Z -> string -> string -> FS -> Call);
  unlink_error : Z -> FS -> option PyExc;
  word_session : Z -> string -> string -> FS -> FS * option PyExc
}.

(** A call as a [Converter.CallRun], for the calls that end by returning or
    with an exception that derives from [Exception].  (A call that hangs or
    ends otherwise has no such run; it is given one that returns, on the file
    system it started on or left, which nothing below relies on.) *)
Definition as_run (f : FS) (c : Call) : CallRun :=
  match c with
  | Ended f' s Returned => mkRun f' s None
  | Ended f' s (RaisedError e) => mkRun f' s (Some e)
  | Ended f' s (RaisedOutside _) => mkRun f' s None
  | Hangs => mkRun f 0 None
  end.

(** The collaborators as [Converter] takes them. *)
Definition tame (env : Env) : Converter.Env :=
  Converter.mkEnv
    (option_map (fun c a d p f => as_run f (c a d p f)) (convert env))
    (unlink_error env)
    (word_session env).

(** The run of a call that ends, and the collaborators of [Converter], read
    the other way. *)
Definition of_run (r : CallRun) : Call :=
  Ended (run_fs r) (run_seconds r)
        (match run_raised r with
         | Some e => RaisedError e
         | None => Returned
         end).

Definition of_env (env : Converter.Env) : Env :=
  mkEnv
    (option_map (fun c a d p f => of_run (c a d p f)) (Converter.convert env))
    (Converter.unlink_error env)
    (Converter.word_session env).

(** The call returns or raises an exception that derives from
    [Exception]. *)
Definition ordinary_call (c : Call) : Prop :=
  match c with
  | Ended _ _ Returned | Ended _ _ (RaisedError _) => True
  | Ended _ _ (RaisedOutside _) | Hangs => False
  end.

(** Every call of [convert] is ordinary, at every attempt and on every file
    system. *)
Definition ordinary (env : Env) : Prop :=
  forall c a d p f, convert env = Some c -> ordinary_call (c a d p f).

Section Methods.

Variable self : DocxConverter.
Variable env : Env.

(** Lines 110 to 112.  [fut.result(timeout=self.timeout)] raises the
    timeout when the call has not ended by then, and otherwise ends as the
    call did.  Leaving the [with] block calls [shutdown(wait=True)], which
    joins the worker: when the call never ends, neither does the block. *)
Definition future_result
  (c : Z -> string -> string -> FS -> Call)
  (attempt : Z) (docx pdf : string) : M World unit :=
  w <- lift Eff.get ;;
  lift (log (EvPrimary attempt)) ;;
  match c attempt docx pdf (fs w) with
  | Hangs => never_ends
  | Ended f seconds how =>
      lift (set_fs f) ;;
      if timeout self <? seconds
      then raise (mkExc FuturesTimeoutError "")
      else match how with
           | Returned => ret tt
           | RaisedError e => raise e
           | RaisedOutside b => escape b
           end
  end.

(** The [try] block, lines 101 to 118. *)
Definition primary_attempt (attempt : Z) (docx pdf : string)
  : M World LoopStep :=
  match convert env with
  | None => raise (mkExc RuntimeError "El mòdul docx2pdf no està disponible.")
  | Some c =>
      future_result c attempt docx pdf ;;
      w <- lift Eff.get ;;
      if nonempty_output (fs w) pdf
      then ret (Return (Some pdf, attempt, None))
      else raise (mkExc ValueError "PDF buit o inexistent després de docx2pdf")
  end.

(** The body of the [for] loop, lines 94 to 142.  The cleanup and the two
    [except] clauses are those of [Converter]; both clauses name classes
    that derive from [Exception]. *)
Definition attempt_body (attempt : Z) (docx pdf : string) : M World LoopStep :=
  lift (Converter.cleanup (tame env) attempt pdf) ;;
  step <- try_except
            (primary_attempt attempt docx pdf)
            (fun exc =>
               lift (Converter.on_error self (tame env) attempt docx pdf
                       exc)) ;;
  match step with
  | Return t => ret (Return t)
  | Continue last_error =>
      (if attempt <? max_retries self
       then lift (log (EvSleep (Z.min (attempt * 3) 15)))
       else ret tt) ;;
      ret (Continue last_error)
  end.

(** The [for] loop over the remaining attempts, and lines 144 to 152 after
    it. *)
Fixpoint attempts_loop (attempts : list Z) (docx pdf : string)
  (last_error : option string) : M World Outcome :=
  match attempts with
  | [] =>
      ret (None, max_retries self,
           Some ("Fallo després de " ++ Py.str_of_Z (max_retries self)
                 ++ " intents: " ++ Py.str_opt last_error))
  | attempt :: rest =>
      step <- attempt_body attempt docx pdf ;;
      match step with
      | Return t => ret t
      | Continue last_error' => attempts_loop rest docx pdf last_error'
      end
  end.

Definition convert_single_file
  (docx_file temp_dir : string) (file_num total_files : Z) : M World Outcome :=
  let docx_path := docx_file in
  let pdf_path := pdf_path_of docx_file temp_dir in
  w <- lift Eff.get ;;
  if negb (path_exists (fs w) docx_path) || negb (is_file (fs w) docx_path)
  then ret (None, 0,
            Some ("El fitxer " ++ docx_path ++ " no existeix o no és vàlid."))
  else if negb (path_exists (fs w) temp_dir)
  then ret (None, 0,
            Some ("El directori temporal " ++ temp_dir ++ " no existeix."))
  else attempts_loop (Py.range 1 (max_retries self + 1))
                     docx_path pdf_path None.

End Methods.

End FullConverter.

(* ================================================================== *)
(** ** docx_to_pdf_zip_app.py, with every way a task can end *)
(* ================================================================== *)

Module FullApp.
Import Exn FullEff.
Local Open Scope full_scope.

(** What the future of a task ends up holding: the triple the task
    returned, the exception it raised, or nothing, when the task never
    ends. *)
Inductive Held :=
| HeldTriple (t : Converter.Outcome)
| HeldError (e : PyExc)
| HeldOutside (b : BaseExc)
| NeverDone.

Record Future := mkFuture {
  fut_src : string;
  fut_held : Held
}.

(** What the thread does not decide: as in [App.Env], with what each future
    ends up holding, and with [rmtree_error], the exception
    [shutil.rmtree(temp_dir)] raises in the [finally] clause, if any ([None]
    also when the directory is gone by then). *)
Record Env := mkEnv {
  mkdtemp : string;
  pool_result : string -> string -> Z -> Z -> Held;
  next_done : nat -> nat;
  cancel_flag : nat -> bool;
  time_time : float;
  zip_open_error : option PyExc;
  zip_write_error : string -> option PyExc;
  rmtree_error : option PyExc
}.

(** The pool when every task converts its own file from the world [w] with
    the collaborators [cenv f]. *)
Definition pool_of (cenv : string -> FullConverter.Env) (w : Converter.World)
  : string -> string -> Z -> Z -> Held :=
  fun f temp_dir i total =>
    match
      fst (FullConverter.convert_single_file
             (Converter.mkConverter App.MAX_RETRIES App.CONVERSION_TIMEOUT
                App.HAS_WIN32)
             (cenv f) f temp_dir i total w)
    with
    | Returns t => HeldTriple t
    | Raises e => HeldError e
    | Escapes b => HeldOutside b
    | NeverEnds => NeverDone
    end.

(** The future holds a triple or an exception that derives from
    [Exception]. *)
Definition ordinary_held (h : Held) : bool :=
  match h with
  | HeldTriple _ | HeldError _ => true
  | HeldOutside _ | NeverDone => false
  end.

Definition is_done (fut : Future) : bool :=
  match fut_held fut with
  | NeverDone => false
  | _ => true
  end.

(** Whether the future holds a triple with an output path. *)
Definition holds_output (fut : Future) : bool :=
  match fut_held fut with
  | HeldTriple (Some _, _, _) => true
  | _ => false
  end.

Definition ordinary_future (fut : Future) : Prop :=
  ordinary_held (fut_held fut) = true.

(** [Path(src).name] for the file of a future. *)
Definition name_of (fut : Future) : string := Py.path_name (fut_src fut).

(** The output path a future holds, if any. *)
Definition output_of (fut : Future) : list string :=
  match fut_held fut with
  | HeldTriple (Some p, _, _) => [p]
  | _ => []
  end.

(** A future as [App] takes it, for the futures that hold a triple or an
    exception that derives from [Exception].  (Another future is given an
    exception of that kind, which nothing below relies on.) *)
Definition as_result (h : Held) : Eff.Res Converter.Outcome :=
  match h with
  | HeldTriple t => Eff.Ret t
  | HeldError e => Eff.Raise e
  | HeldOutside b => Eff.Raise (mkExc OtherException (base_str b))
  | NeverDone => Eff.Raise (mkExc OtherException "")
  end.

Definition tame_future (fut : Future) : App.Future :=
  App.mkFuture (fut_src fut) (as_result (fut_held fut)).

(** The surroundings as [App] takes them. *)
Definition tame (env : Env) : App.Env :=
  App.mkEnv (mkdtemp env)
    (fun f temp_dir i total => as_result (pool_result env f temp_dir i total))
    (next_done env) (cancel_flag env) (time_time env)
    (zip_open_error env) (zip_write_error env).

Section Thread.

Variable env : Env.

(** Lines 419 to 422: one future per file, numbered from [i]. *)
Fixpoint submit_all (temp_dir : string) (total i : Z) (files : list string)
  : list Future :=
  match files with
  | [] => []
  | f :: rest =>
      mkFuture f (pool_result env f temp_dir i total)
        :: submit_all temp_dir total (i + 1) rest
  end.

(** [as_completed(future_to_file)] yields every future that completes, once,
    in the order of completion. *)
Fixpoint as_completed_from (fuel done : nat) (pending : list Future)
  : list Future :=
  match fuel with
  | O => []
  | S fuel' =>
      match pending with
      | [] => []
      | first :: _ =>
          let i := (next_done env done mod List.length pending)%nat in
          nth i pending first
            :: as_completed_from fuel' (S done) (App.remove_nth i pending)
      end
  end.

Definition as_completed (futures : list Future) : list Future :=
  as_completed_from (List.length (filter is_done futures)) 0
                    (filter is_done futures).

(** [fut.result()] on a completed future re-raises what the task raised. *)
Definition result (fut : Future) : M App.AppState Converter.Outcome :=
  match fut_held fut with
  | HeldTriple t => ret t
  | HeldError e => raise e
  | HeldOutside b => escape b
  | NeverDone => never_ends
  end.

(** The [try] block of lines 433 to 466. *)
Definition record_result (fut : Future) (name : string)
  : M App.AppState unit :=
  t <- result fut ;;
  let '(pdf_path, attempts, error) := t in
  match pdf_path with
  | Some p =>
      lift (App.append_pdf p) ;;
      lift (App.update_report (Report.add_success name)) ;;
      (if 1 <? attempts
       then lift (App.update_report (Report.add_retry name attempts))
       else ret tt) ;;
      lift (App.put
              (App.Status ("✓ Convertit: " ++ name
                           ++ (if 1 <? attempts
                               then " (" ++ Py.str_of_Z attempts ++ " intents)"
                               else ""))
                          "success"))
  | None =>
      lift (App.update_report
              (Report.add_failure name
                 (Py.or_default error "Error desconegut"))) ;;
      lift (App.put (App.Status ("✗ Error final: " ++ name) "error"))
  end.

(** The body of [for fut in as_completed(...)], lines 425 to 493.  The
    clause of line 467 is [except Exception]. *)
Definition collect_one (total : Z) (fut : Future) : M App.AppState unit :=
  cancelled <- lift (App.read_cancel_flag (tame env)) ;;
  if cancelled : bool then raise App.interrupted
  else
    let src := fut_src fut in
    let name := Py.path_name src in
    try_except (record_result fut name)
               (fun exc => lift (App.record_exception name exc)) ;;
    lift App.incr_completed ;;
    st <- lift Eff.get ;;
    (if total =? 0
     then raise (mkExc ZeroDivisionError "division by zero")
     else
       lift (App.put
               (App.Progress
                  (Py.int_of_float
                     (PrimFloat.mul
                        (Py.truediv (App.completed_conversions st) total)
                        (Py.float_of_Z 80)))))) ;;
    lift (App.put (App.Active (App.completed_conversions st) total)).

Fixpoint collect_loop (total : Z) (completed : list Future)
  : M App.AppState unit :=
  match completed with
  | [] => ret tt
  | fut :: rest => collect_one total fut ;; collect_loop total rest
  end.

(** [with ThreadPoolExecutor(...) as executor: body].  When [as_completed]
    has yielded every future that completes, it waits for the others; and
    leaving the block, by its end or by an exception, calls
    [shutdown(wait=True)], which waits for every task.  So the block ends
    only when every task does. *)
Definition with_executor {A : Type} (futures : list Future)
  (body : M App.AppState A) : M App.AppState A :=
  fun st =>
    match body st with
    | (r, st') =>
        if forallb is_done futures then (r, st') else (NeverEnds, st')
    end.

(** The futures of a run, in the order of submission. *)
Definition submitted (docx_files : list string) : list Future :=
  submit_all (mkdtemp env) (Z.of_nat (List.length docx_files)) 1 docx_files.

(** Lines 403 to 493. *)
Definition conversion_phase (docx_files : list string) (max_workers : Z)
  : M App.AppState unit :=
  let total := Z.of_nat (List.length docx_files) in
  lift (App.announce total max_workers) ;;
  let futures := submitted docx_files in
  with_executor futures (collect_loop total (as_completed futures)).

(** The [finally] clause, lines 545 to 548; [temp_dir] is set. *)
Definition remove_temp_dir : M App.AppState unit :=
  match rmtree_error env with
  | Some e => raise e
  | None => ret tt
  end.

(** [convert_and_zip_thread], lines 398 to 548.  [tempfile.mkdtemp()] is
    taken to succeed.  The packaging and the two outer [except] clauses,
    [except InterruptedError] and [except Exception], are those of [App]. *)
Definition convert_and_zip_thread
  (docx_files : list string) (password zip_path : string) (max_workers : Z)
  : M App.AppState unit :=
  finally
    (try_except
       (conversion_phase docx_files max_workers ;;
        lift (App.packaging_phase (tame env) password zip_path))
       (fun exc => lift (App.on_thread_error (tame env) exc)))
    remove_temp_dir.

End Thread.

(** A whole run: the state [start_conversion] sets up, then the thread. *)
Definition batch_run (env : Env) (docx_files : list string)
  (password zip_path : string) (max_workers : Z) (now : float)
  : Fate unit * App.AppState :=
  convert_and_zip_thread env docx_files password zip_path max_workers
    (App.begin_run docx_files now).

End FullApp.

(* ================================================================== *)
(** ** Samples with calls that leave through [sys.exit] or never end *)
(* ================================================================== *)

Module FullSamples.
Import Exn FullEff.

(** [docx2pdf] leaves through [sys.exit(1)] two seconds into each call. *)
Definition exiting : FullConverter.Env :=
  FullConverter.mkEnv
    (Some (fun _ _ _ f =>
             FullConverter.Ended f 2
               (FullConverter.RaisedOutside (mkBase SystemExit "1"))))
    Examples.no_unlink_error Examples.word_up.

(** [docx2pdf] never ends. *)
Definition stuck : FullConverter.Env :=
  FullConverter.mkEnv (Some (fun _ _ _ _ => FullConverter.Hangs))
    Examples.no_unlink_error Examples.word_up.

(** A run of the two sample files in which no conversion writes a PDF; the
    second future completes first; nobody cancels. *)
Definition fruitless_env : FullApp.Env :=
  FullApp.mkEnv "/tmp/out"
    (FullApp.pool_of (fun _ => FullConverter.of_env Samples.silent)
       Examples.world)
    (fun _ => 1%nat)
    (fun _ => false)
    1700000060%float
    None
    (fun _ => None)
    None.

(** The sample run of [Examples.app_env], at the end of which the temporary
    directory cannot be removed. *)
Definition locked_env : FullApp.Env :=
  FullApp.mkEnv "/tmp/out"
    (FullApp.pool_of
       (fun f => FullConverter.of_env
                   (if String.eqb f "in/informe.docx" then Examples.flaky
                    else Examples.hanging Examples.word_down))
       Examples.world)
    (fun _ => 1%nat)
    (fun _ => false)
    1700000060%float
    None
    (fun _ => None)
    (Some (mkExc OtherException "[WinError 32] /tmp/out")).

(** A run of the two sample files in which [docx2pdf] leaves through
    [sys.exit] on the first file and writes nothing for the second; the
    first future completes first; nobody cancels. *)
Definition exit_env : FullApp.Env :=
  FullApp.mkEnv "/tmp/out"
    (FullApp.pool_of
       (fun f => if String.eqb f "in/informe.docx" then exiting
                 else FullConverter.of_env Samples.silent)
       Examples.world)
    (fun _ => 0%nat)
    (fun _ => false)
    1700000060%float
    None
    (fun _ => None)
    None.

End FullSamples.

(* ================================================================== *)
(** ** The final report *)
(* ================================================================== *)

Module ReportFacts.
Import Report.

Lemma report_lines_closing (r : ConversionReport) :
  exists body,
    report_lines r
    = (body ++ [ sep;
                 verdict (sum_success (get_summary r))
                         (sum_failed (get_summary r));
                 sep ])%list.
Proof.
  unfold report_lines.
  exists (summary_block (get_summary r) ++ retried_block r
          ++ unretried_block r (sum_success (get_summary r))
          ++ failed_block r)%list.
  now rewrite <- !app_assoc.
Qed.

Lemma closing_verdict_app (body : list string) (a v b : string) :
  closing_verdict (body ++ [a; v; b])%list = Some v.
Proof.
  unfold closing_verdict. rewrite rev_app_distr. reflexivity.
Qed.

Lemma closing_verdict_at (r : ConversionReport) :
  closing_verdict (report_lines r)
  = Some (verdict (sum_success (get_summary r)) (sum_failed (get_summary r))).
Proof.
  destruct (report_lines_closing r) as [body E].
  rewrite E. apply closing_verdict_app.
Qed.

Lemma verdict_by_lists (r : ConversionReport) :
  verdict (sum_success (get_summary r)) (sum_failed (get_summary r))
  = match failed_conversions r, successful_conversions r with
    | [], _ => verdict_full
    | _ :: _, _ :: _ => verdict_partial
    | _ :: _, [] => verdict_none
    end.
Proof.
  unfold verdict, get_summary; cbn [sum_success sum_failed].
  destruct (failed_conversions r) as [|x xs]; [reflexivity|].
  destruct (successful_conversions r) as [|y ys]; [reflexivity|].
  cbn [List.length].
  destruct (Z.eqb_spec (Z.of_nat (S (List.length xs))) 0) as [E|_]; [lia|].
  destruct (Z.ltb_spec 0 (Z.of_nat (S (List.length ys)))) as [_|E]; [|lia].
  reflexivity.
Qed.

(** C9, as amended.  The rendered report is its lines joined by line feeds,
    the lines end with a separator, the verdict and a separator, and the
    verdict is: the full-success line when there is no failure (also when
    there is no success either); the partial-success line when there are
    successes and failures; the total-failure line when there are failures
    and no success. *)
Theorem closing_verdict_by_outcomes (r : ConversionReport) :
  let v := match failed_conversions r, successful_conversions r with
           | [], _ => verdict_full
           | _ :: _, _ :: _ => verdict_partial
           | _ :: _, [] => verdict_none
           end in
  (exists body,
      generate_detailed_report r
      = Py.join Py.nl (body ++ [sep; v; sep])%list)
  /\ closing_verdict (report_lines r) = Some v.
Proof.
  cbv zeta. rewrite <- verdict_by_lists.
  destruct (report_lines_closing r) as [body E].
  split.
  - exists body. unfold generate_detailed_report. now rewrite E.
  - apply closing_verdict_at.
Qed.

(** C9, as stated, fails on the report of an empty run: it has zero
    successes, and its verdict is the full-success line, not the
    total-failure line. *)
Lemma empty_report_verdict_is_full :
  successful_conversions init = []
  /\ closing_verdict (report_lines init) = Some verdict_full
  /\ closing_verdict (report_lines init) <> Some verdict_none.
Proof.
  split; [reflexivity|].
  assert (E : closing_verdict (report_lines init) = Some verdict_full).
  { rewrite closing_verdict_at. reflexivity. }
  split; [exact E|]. rewrite E. discriminate.
Qed.

(** C4.  On a report whose declared total is 0, the two percentages are
    computed with the divisor 1, and the line of the total shows that same
    guarded value, 1, not the declared 0. *)
Theorem zero_total_summary_lines (r : ConversionReport) :
  total_files r = 0 ->
  let success := Z.of_nat (List.length (successful_conversions r)) in
  let failed := Z.of_nat (List.length (failed_conversions r)) in
  nth_error (report_lines r) 6
  = Some (Py.ljust "Total de fitxers processats:" 35 ++ " " ++ "1")
  /\ nth_error (report_lines r) 7
     = Some (Py.ljust "✓ Conversions exitoses:" 35 ++ Py.str_of_Z success
             ++ " (" ++ pct success 1 ++ "%)")
  /\ nth_error (report_lines r) 8
     = Some (Py.ljust "✗ Conversions fallides:" 35 ++ Py.str_of_Z failed
             ++ " (" ++ pct failed 1 ++ "%)").
Proof.
  intros H. cbv zeta.
  unfold report_lines, summary_block, guarded_total, get_summary.
  cbn [sum_total sum_success sum_failed sum_retried sum_duration].
  rewrite H. cbn [Z.eqb app nth_error].
  repeat split; reflexivity.
Qed.

(** The fresh report [ConversionReport()] declares 0 files and renders
    "Total de fitxers processats: 1". *)
Lemma zero_total_summary_lines_fresh :
  total_files init = 0
  /\ nth_error (report_lines init) 6
     = Some "Total de fitxers processats:        1"
  /\ nth_error (report_lines init) 7
     = Some "✓ Conversions exitoses:            0 (0.0%)"
  /\ nth_error (report_lines init) 8
     = Some "✗ Conversions fallides:            0 (0.0%)".
Proof.
  split; [reflexivity|].
  exact (zero_total_summary_lines init eq_refl).
Defined.

End ReportFacts.

(* ================================================================== *)
(** ** The converter *)
(* ================================================================== *)

Module ConverterFacts.
Import Exn Eff Converter.

Ltac run_eff :=
  unfold bind, ret, raise, try_except, get, modify, log, set_fs; cbn.

Section Facts.

Variable self : DocxConverter.
Variable env : Env.

Lemma grows_refl w : grows w w 0 0.
Proof. exists []. rewrite app_nil_r. repeat split; cbn; lia. Qed.

Lemma count_primary_app a b :
  count_primary (a ++ b) = (count_primary a + count_primary b)%nat.
Proof. unfold count_primary. now rewrite filter_app, length_app. Qed.

Lemma count_fallback_app a b :
  count_fallback (a ++ b) = (count_fallback a + count_fallback b)%nat.
Proof. unfold count_fallback. now rewrite filter_app, length_app. Qed.

Lemma grows_trans w1 w2 w3 np nf np' nf' :
  grows w1 w2 np nf -> grows w2 w3 np' nf' ->
  grows w1 w3 (np + np') (nf + nf').
Proof.
  intros (e1 & E1 & P1 & F1) (e2 & E2 & P2 & F2).
  exists (e1 ++ e2)%list. rewrite E2, E1, app_assoc.
  rewrite count_primary_app, count_fallback_app. repeat split; lia.
Qed.

Lemma grows_weaken w w' np nf np' nf' :
  grows w w' np nf -> (np <= np')%nat -> (nf <= nf')%nat -> grows w w' np' nf'.
Proof.
  intros (e & E & P & F) ? ?. exists e. repeat split; [exact E|lia|lia].
Qed.

Lemma cleanup_returns a p w :
  exists w1, cleanup env a p w = (Ret tt, w1) /\ grows w w1 0 0.
Proof.
  unfold cleanup, unlink. run_eff.
  destruct (path_exists (fs w) p).
  - destruct (unlink_error env a (fs w)); cbn;
      (eexists; split; [reflexivity|]);
      exists [EvUnlink p]; cbn; repeat split; lia.
  - eexists; split; [reflexivity|apply grows_refl].
Qed.

Lemma grows_refl_le w np nf : grows w w np nf.
Proof. eapply grows_weaken; [apply grows_refl|lia|lia]. Qed.

Lemma primary_attempt_cases a d p w :
  let r := primary_attempt self env a d p w in
  grows w (snd r) 1 0
  /\ fst r = fst (primary_attempt self env a d p (mkWorld (fs w) []))
  /\ fs (snd r) = fs (snd (primary_attempt self env a d p (mkWorld (fs w) [])))
  /\ (fst r = Ret (Return (Some p, a, None)) \/ exists e, fst r = Raise e).
Proof.
  cbv zeta. unfold primary_attempt, future_result.
  destruct (convert env) as [c|]; run_eff.
  2:{ repeat split; [apply grows_refl_le|right; eauto]. }
  assert (G : grows w {| fs := run_fs (c a d p (fs w));
                         events := (events w ++ [EvPrimary a])%list |} 1 0).
  { exists [EvPrimary a]. cbn. repeat split; lia. }
  destruct (timeout self <? run_seconds (c a d p (fs w))); cbn.
  { repeat split; [exact G|right; eauto]. }
  destruct (run_raised (c a d p (fs w))); cbn.
  { repeat split; [exact G|right; eauto]. }
  destruct (nonempty_output (run_fs (c a d p (fs w))) p); cbn.
  - repeat split; [exact G|left; reflexivity].
  - repeat split; [exact G|right; eauto].
Qed.

Lemma primary_attempt_result a d p w :
  fst (primary_attempt self env a d p w)
  = match primary_failure self env a d p (fs w) with
    | None => Ret (Return (Some p, a, None))
    | Some e => Raise e
    end.
Proof.
  destruct (primary_attempt_cases a d p w) as (_ & E & _ & C).
  unfold primary_failure. rewrite <- E.
  destruct C as [C|[e C]]; rewrite C; reflexivity.
Qed.

Lemma convert_with_win32_returns a d p w :
  exists w3,
    convert_with_win32 self env a d p w
    = (Ret (fallback_succeeds self env a d p (fs w)), w3)
    /\ grows w w3 0 1
    /\ (has_win32 self = true -> In (EvFallback a) (events w3)).
Proof.
  unfold fallback_succeeds, convert_with_win32.
  destruct (has_win32 self); cbn [negb].
  2:{ run_eff. eexists; repeat split; [apply grows_refl_le|discriminate]. }
  run_eff.
  destruct (word_session env a d p (fs w)) as [f [e|]]; cbn;
    (eexists; repeat split;
     [ exists [EvFallback a]; cbn; repeat split; lia
     | intros _; apply in_or_app; right; left; reflexivity ]).
Qed.

Lemma on_error_returns a d p exc w :
  exists step w3,
    on_error self env a d p exc w = (Ret step, w3)
    /\ grows w w3 0 1
    /\ step
       = (if caught_with_fallback exc && has_win32 self
             && (a <? max_retries self)
             && fallback_succeeds self env a d p (fs w)
          then Return (Some p, a, None)
          else Continue (Some (exc_str exc)))
    /\ (caught_with_fallback exc = true -> has_win32 self = true ->
        a < max_retries self -> In (EvFallback a) (events w3)).
Proof.
  unfold on_error.
  destruct (caught_with_fallback exc); cbn [andb].
  2:{ run_eff. do 2 eexists; repeat split;
      [apply grows_refl_le|discriminate]. }
  destruct (has_win32 self) eqn:HW; cbn [andb].
  2:{ run_eff. do 2 eexists; repeat split;
      [apply grows_refl_le|discriminate]. }
  destruct (Z.ltb_spec a (max_retries self)) as [L|L]; cbn [andb].
  2:{ run_eff. do 2 eexists; repeat split;
      [apply grows_refl_le|lia]. }
  destruct (convert_with_win32_returns a d p w) as (w3 & E & G & I).
  unfold bind. rewrite E.
  destruct (fallback_succeeds self env a d p (fs w)); run_eff;
    do 2 eexists; repeat split; try exact G; intros; apply I; exact HW.
Qed.

Lemma grows_sleep w n np nf :
  grows w {| fs := fs w; events := (events w ++ [EvSleep n])%list |} np nf.
Proof. exists [EvSleep n]. cbn. repeat split; lia. Qed.

Lemma attempt_body_returns a d p w :
  let w1 := snd (cleanup env a p w) in
  let w2 := snd (primary_attempt self env a d p w1) in
  exists step w',
    attempt_body self env a d p w = (Ret step, w')
    /\ grows w w' 1 1
    /\ step
       = match primary_failure self env a d p (fs w1) with
         | None => Return (Some p, a, None)
         | Some e =>
             if caught_with_fallback e && has_win32 self
                && (a <? max_retries self)
                && fallback_succeeds self env a d p (fs w2)
             then Return (Some p, a, None)
             else Continue (Some (exc_str e))
         end
    /\ (forall e,
          primary_failure self env a d p (fs w1) = Some e ->
          caught_with_fallback e = true -> has_win32 self = true ->
          a < max_retries self -> In (EvFallback a) (events w')).
Proof.
  cbv zeta.
  destruct (cleanup_returns a p w) as (w1 & E1 & G1).
  unfold attempt_body, bind at 1. rewrite E1. cbn [snd].
  pose proof (primary_attempt_result a d p w1) as R.
  destruct (primary_attempt_cases a d p w1) as (G2 & _ & _ & _).
  unfold bind, try_except.
  destruct (primary_attempt self env a d p w1) as [r w2]. cbn [fst snd] in *.
  destruct (primary_failure self env a d p (fs w1)) as [e|]; subst r.
  - destruct (on_error_returns a d p e w2) as (step & w3 & E3 & G3 & S3 & I3).
    rewrite E3.
    assert (G : grows w w3 1 1).
    { pose proof (grows_trans _ _ _ _ _ _ _ G1 G2) as G12.
      eapply grows_weaken;
        [exact (grows_trans _ _ _ _ _ _ _ G12 G3)|lia|lia]. }
    rewrite <- S3.
    destruct step as [t|le].
    + run_eff. do 2 eexists. repeat split; [exact G|].
      intros e' H; injection H as <-. exact I3.
    + destruct (a <? max_retries self); run_eff; do 2 eexists;
        (repeat split;
         [| intros e' H; injection H as <-; intros; try apply in_or_app;
            try left; apply I3; assumption ]).
      * eapply grows_weaken;
          [exact (grows_trans _ _ _ _ _ _ _ G (grows_sleep w3 _ 0 0))|lia|lia].
      * exact G.
  - run_eff. do 2 eexists. repeat split; [|discriminate].
    eapply grows_weaken; [exact (grows_trans _ _ _ _ _ _ _ G1 G2)|lia|lia].
Qed.

Lemma attempts_loop_cons a rest d p last w :
  exists step w1,
    attempt_body self env a d p w = (Ret step, w1)
    /\ attempts_loop self env (a :: rest) d p last w
       = match step with
         | Return t => (Ret t, w1)
         | Continue last' => attempts_loop self env rest d p last' w1
         end.
Proof.
  destruct (attempt_body_returns a d p w) as (step & w1 & E & _).
  exists step, w1. split; [exact E|].
  cbn [attempts_loop]. unfold bind. rewrite E. now destruct step.
Qed.



Lemma attempts_loop_returns attempts d p :
  forall last w,
  exists t w',
    attempts_loop self env attempts d p last w = (Ret t, w')
    /\ grows w w' (List.length attempts) (List.length attempts)
    /\ ((exists a, In a attempts /\ t = (Some p, a, None))
        \/ exists msg, t = (None, max_retries self, Some msg)).
Proof.
  induction attempts as [|a rest IH]; intros last w.
  - cbn. unfold ret. do 2 eexists. repeat split; [apply grows_refl|].
    right. eauto.
  - destruct (attempts_loop_cons a rest d p last w) as (step & w1 & E & L).
    destruct (attempt_body_returns a d p w) as (step' & w1' & E' & G & S & _).
    rewrite E in E'. injection E' as <- <-.
    rewrite L. destruct step as [t|last'].
    + exists t, w1. repeat split.
      * eapply grows_weaken; [exact G|cbn; lia|cbn; lia].
      * left. exists a. split; [now left|].
        destruct (primary_failure self env a d p
                    (fs (snd (cleanup env a p w))));
          [|now injection S].
        destruct (_ && _) in S; [now injection S|discriminate].
    + destruct (IH last' w1) as (t & w' & E2 & G2 & Sh).
      exists t, w'. repeat split; [exact E2| |].
      * exact (grows_trans _ _ _ _ _ _ _ G G2).
      * destruct Sh as [(b & I & ->)|(msg & ->)]; [left|right; eauto].
        exists b. split; [now right|reflexivity].
Qed.

Lemma in_range lo hi a : In a (Py.range lo hi) <-> lo <= a < hi.
Proof.
  unfold Py.range. rewrite in_map_iff. split.
  - intros (i & <- & I). apply in_seq in I. lia.
  - intros H. exists (Z.to_nat (a - lo)). split; [lia|].
    apply in_seq. lia.
Qed.

Lemma length_range lo hi : List.length (Py.range lo hi) = Z.to_nat (hi - lo).
Proof. unfold Py.range. now rewrite length_map, length_seq. Qed.

Lemma range_last lo hi :
  lo < hi -> Py.range lo hi = (Py.range lo (hi - 1) ++ [hi - 1])%list.
Proof.
  intros H. unfold Py.range.
  replace (Z.to_nat (hi - lo)) with (S (Z.to_nat (hi - 1 - lo))) by lia.
  rewrite seq_S, map_app. cbn. do 2 f_equal. lia.
Qed.

Lemma convert_single_file_unfold docx temp i n w :
  convert_single_file self env docx temp i n w
  = if negb (path_exists (fs w) docx) || negb (is_file (fs w) docx)
    then (Ret (None, 0,
               Some ("El fitxer " ++ docx ++ " no existeix o no és vàlid.")),
          w)
    else if negb (path_exists (fs w) temp)
    then (Ret (None, 0,
               Some ("El directori temporal " ++ temp ++ " no existeix.")),
          w)
    else attempts_loop self env (Py.range 1 (max_retries self + 1))
           docx (pdf_path_of docx temp) None w.
Proof.
  unfold convert_single_file. run_eff.
  destruct (negb (path_exists (fs w) docx) || negb (is_file (fs w) docx));
    [reflexivity|].
  destruct (negb (path_exists (fs w) temp)); reflexivity.
Qed.

Lemma convert_single_file_returns docx temp i n w :
  exists t w',
    convert_single_file self env docx temp i n w = (Ret t, w')
    /\ grows w w' (Z.to_nat (max_retries self)) (Z.to_nat (max_retries self))
    /\ ((exists a, t = (Some (pdf_path_of docx temp), a, None))
        \/ exists a msg, t = (None, a, Some msg)).
Proof.
  rewrite convert_single_file_unfold.
  destruct (negb (path_exists (fs w) docx) || negb (is_file (fs w) docx)).
  { do 2 eexists. repeat split; [apply grows_refl_le|right; eauto]. }
  destruct (negb (path_exists (fs w) temp)).
  { do 2 eexists. repeat split; [apply grows_refl_le|right; eauto]. }
  destruct (attempts_loop_returns (Py.range 1 (max_retries self + 1))
              docx (pdf_path_of docx temp) None w) as (t & w' & E & G & Sh).
  rewrite length_range, Z.add_simpl_r in G.
  exists t, w'. repeat split; [exact E|exact G|].
  destruct Sh as [(a & _ & ->)|(msg & ->)]; [left|right]; eauto.
Qed.


End Facts.

(** C2.  Every call of [convert_single_file] returns a triple in which
    exactly one of the output path and the error is set, and the caller
    reads it as a success exactly when the output path is set. *)
Theorem outcome_path_xor_error
  (self : DocxConverter) (env : Env) (docx_file temp_dir : string)
  (file_num total_files : Z) (w : World) :
  exists output_path attempts error w',
    convert_single_file self env docx_file temp_dir file_num total_files w
    = (Ret (output_path, attempts, error), w')
    /\ (status_of (output_path, attempts, error) = Success
        <-> output_path <> None)
    /\ (output_path <> None <-> error = None).
Proof.
  destruct (convert_single_file_returns self env docx_file temp_dir
              file_num total_files w) as (t & w' & E & _ & Sh).
  destruct Sh as [(a & ->)|(a & msg & ->)].
  - do 4 eexists. split; [exact E|]. cbn. repeat split; congruence.
  - do 4 eexists. split; [exact E|]. cbn. repeat split; congruence.
Qed.

(** C7.  When the input does not exist or is not a regular file, or the
    output directory does not exist, [convert_single_file] returns at once a
    failure with 0 attempts, and leaves the world as it found it: no call of
    a strategy, no removal, no pause. *)
Theorem precondition_failure_is_immediate
  (self : DocxConverter) (env : Env) (docx_file temp_dir : string)
  (file_num total_files : Z) (w : World) :
  path_exists (fs w) docx_file = false
  \/ is_file (fs w) docx_file = false
  \/ path_exists (fs w) temp_dir = false ->
  exists msg,
    convert_single_file self env docx_file temp_dir file_num total_files w
    = (Ret (None, 0, Some msg), w).
Proof.
  intros H. rewrite convert_single_file_unfold.
  destruct (path_exists (fs w) docx_file) eqn:E1; cbn [negb orb]; [|eauto].
  destruct (is_file (fs w) docx_file) eqn:E2; cbn [negb orb]; [|eauto].
  destruct (path_exists (fs w) temp_dir) eqn:E3; cbn [negb orb]; [|eauto].
  destruct H as [H|[H|H]]; discriminate.
Qed.

(** C3, as amended.  When the [try] block of an attempt ends with a timeout
    or a [ValueError] (the one raised for an empty or missing PDF, or one
    raised by the strategy), the fallback is available and the attempt is
    not the last one, the fallback is run at that attempt; and when it
    succeeds the loop returns at once the output path with that attempt as
    the number of attempts and no error. *)
Theorem fallback_runs_after_timeout_or_value_error
  (self : DocxConverter) (env : Env) (attempt : Z) (docx pdf : string)
  (w : World) (exc : PyExc) :
  let w1 := snd (cleanup env attempt pdf w) in
  let w2 := snd (primary_attempt self env attempt docx pdf w1) in
  fst (primary_attempt self env attempt docx pdf w1) = Raise exc ->
  exc_class exc = FuturesTimeoutError \/ exc_class exc = ValueError ->
  has_win32 self = true ->
  attempt < max_retries self ->
  In (EvFallback attempt)
     (events (snd (attempt_body self env attempt docx pdf w)))
  /\ (fst (convert_with_win32 self env attempt docx pdf w2) = Ret true ->
      forall rest last_error,
        fst (attempts_loop self env (attempt :: rest) docx pdf last_error w)
        = Ret (Some pdf, attempt, None)).
Proof.
  intros w1 w2 HR HC HW HL.
  assert (PF : primary_failure self env attempt docx pdf (fs w1) = Some exc).
  { pose proof (primary_attempt_result self env attempt docx pdf w1) as R.
    rewrite HR in R.
    destruct (primary_failure self env attempt docx pdf (fs w1));
      congruence. }
  assert (CW : caught_with_fallback exc = true).
  { unfold caught_with_fallback. destruct HC as [-> | ->]; reflexivity. }
  destruct (attempt_body_returns self env attempt docx pdf w)
    as (step & w' & E & _ & S & I).
  fold w1 w2 in S, I. split.
  - rewrite E. apply (I exc PF CW HW HL).
  - intros FB rest last_error.
    destruct (convert_with_win32_returns self env attempt docx pdf w2)
      as (w3 & E3 & _).
    rewrite E3 in FB. cbn in FB. injection FB as FB.
    rewrite PF, CW, HW, FB in S.
    destruct (Z.ltb_spec attempt (max_retries self)); [|lia]. cbn in S.
    destruct (attempts_loop_cons self env attempt rest docx pdf last_error w)
      as (step' & w1' & E' & L).
    rewrite E in E'. injection E' as <- <-.
    rewrite L, S. reflexivity.
Qed.

(** After an error of any other class the second [except] clause only
    records the message: the attempt ends without a call of the fallback,
    whatever [has_win32] and the attempt are. *)
Lemma no_fallback_after_other_error
  (self : DocxConverter) (env : Env) (attempt : Z) (docx pdf : string)
  (w : World) (exc : PyExc) :
  let w1 := snd (cleanup env attempt pdf w) in
  fst (primary_attempt self env attempt docx pdf w1) = Raise exc ->
  caught_with_fallback exc = false ->
  exists w',
    attempt_body self env attempt docx pdf w
    = (Ret (Continue (Some (exc_str exc))), w')
    /\ grows w w' 1 0.
Proof.
  intros w1 HR HC. subst w1.
  destruct (cleanup_returns env attempt pdf w) as (w1 & E1 & G1).
  rewrite E1 in HR. cbn [snd] in HR.
  destruct (primary_attempt_cases self env attempt docx pdf w1)
    as (G2 & _ & _ & _).
  unfold attempt_body, bind at 1. rewrite E1.
  unfold bind, try_except.
  destruct (primary_attempt self env attempt docx pdf w1) as [r w2].
  cbn [fst snd] in *. subst r.
  unfold on_error. rewrite HC.
  pose proof (grows_trans _ _ _ _ _ _ _ G1 G2) as G.
  destruct (attempt <? max_retries self); run_eff; eexists;
    (split; [reflexivity|]).
  - exact (grows_trans _ _ _ _ _ _ _ G (grows_sleep w2 _ 0 0)).
  - exact G.
Qed.

(** C3, as stated, fails on an error of another class: with the fallback
    available, two attempts allowed and a primary strategy that raises such
    an error, the fallback is not run at attempt 1, although it would
    succeed, and the conversion fails after the two attempts. *)
Lemma other_error_skips_fallback :
  let self := mkConverter 2 600 true in
  let docx := "in/informe.docx" in
  let pdf := pdf_path_of docx "/tmp/out" in
  let run :=
    convert_single_file self Examples.broken docx "/tmp/out" 1 1
      Examples.world in
  has_win32 self = true
  /\ 1 < max_retries self
  /\ primary_failure self Examples.broken 1 docx pdf (fs Examples.world)
     = Some (mkExc OtherException "Word no respon")
  /\ (forall f, fallback_succeeds self Examples.broken 1 docx pdf f = true)
  /\ ~ In (EvFallback 1) (events (snd run))
  /\ fst run
     = Ret (None, 2, Some "Fallo després de 2 intents: Word no respon").
Proof.
  cbv zeta. split; [reflexivity|]. split; [reflexivity|].
  split; [reflexivity|]. split.
  - intros f. reflexivity.
  - split; [|vm_compute; reflexivity].
    vm_compute. intros [H|[H|[H|[]]]]; discriminate.
Qed.

(** The primary strategy outlasts the timeout at attempt 1 of 3 and Word
    saves the PDF. *)
Lemma fallback_runs_after_timeout_witness :
  let self := mkConverter 3 600 true in
  let env := Examples.hanging Examples.word_up in
  let docx := "in/informe.docx" in
  let pdf := pdf_path_of docx "/tmp/out" in
  In (EvFallback 1)
     (events (snd (attempt_body self env 1 docx pdf Examples.world)))
  /\ forall rest last_error,
       fst (attempts_loop self env (1 :: rest) docx pdf last_error
              Examples.world)
       = Ret (Some pdf, 1, None).
Proof.
  cbv zeta.
  destruct (fallback_runs_after_timeout_or_value_error
              (mkConverter 3 600 true) (Examples.hanging Examples.word_up)
              1 "in/informe.docx" (pdf_path_of "in/informe.docx" "/tmp/out")
              Examples.world (mkExc FuturesTimeoutError ""))
    as [I R].
  - reflexivity.
  - left. reflexivity.
  - reflexivity.
  - reflexivity.
  - split; [exact I|]. apply R. reflexivity.
Defined.

(** An input file that is not on the disk. *)
Lemma precondition_failure_witness :
  exists msg,
    convert_single_file (mkConverter 5 600 true) Examples.flaky
      "in/absent.docx" "/tmp/out" 1 1 Examples.world
    = (Ret (None, 0, Some msg), Examples.world).
Proof.
  apply precondition_failure_is_immediate. left. reflexivity.
Defined.

End ConverterFacts.

(* ================================================================== *)
(** ** The batch run *)
(* ================================================================== *)

Module AppFacts.
Import Exn Eff App.

Ltac run_app :=
  unfold append_pdf, put, update_report, set_pdf_files, incr_completed,
    zip_call, read_cancel_flag, result;
  unfold bind, ret, raise, try_except, get, modify;
  cbn [fst snd conversion_report completed_conversions message_queue
       pdf_files flag_reads zip_calls].

Section Facts.
Variable env : Env.

Lemma collect_one_cancelled total fut st :
  cancel_flag env (flag_reads st) = true ->
  exists st',
    collect_one env total fut st = (Raise interrupted, st')
    /\ conversion_report st' = conversion_report st
    /\ pdf_files st' = pdf_files st
    /\ completed_conversions st' = completed_conversions st
    /\ zip_calls st' = zip_calls st.
Proof.
  intros C. unfold collect_one. run_app. rewrite C. run_app.
  eexists. repeat split.
Qed.

Lemma collect_one_uncancelled total fut st :
  cancel_flag env (flag_reads st) = false ->
  exists r st',
    collect_one env total fut st = (r, st')
    /\ (total <> 0 -> r = Ret tt)
    /\ conversion_report st' = report_after fut (conversion_report st)
    /\ pdf_files st' = pdf_files_after fut (pdf_files st)
    /\ completed_conversions st' = completed_conversions st + 1
    /\ zip_calls st' = zip_calls st.
Proof.
  intros C. unfold collect_one, record_result, record_exception,
    report_after, pdf_files_after.
  run_app. rewrite C.
  destruct (fut_result fut) as [[[[p|] a] e]|exc]; run_app.
  - destruct (1 <? a); run_app;
      destruct (Z.eqb_spec total 0); run_app;
        do 2 eexists; repeat split; congruence.
  - destruct (Z.eqb_spec total 0); run_app;
      do 2 eexists; repeat split; congruence.
  - destruct (Z.eqb_spec total 0); run_app;
      do 2 eexists; repeat split; congruence.
Qed.

Lemma report_after_recorded fut r :
  (List.length (Report.successful_conversions (report_after fut r))
   + List.length (Report.failed_conversions (report_after fut r))
   = S (List.length (Report.successful_conversions r)
        + List.length (Report.failed_conversions r)))%nat.
Proof.
  unfold report_after.
  destruct (fut_result fut) as [[[[p|] a] e]|exc]; [destruct (1 <? a)| |];
    cbn; rewrite length_app; cbn; lia.
Qed.

Lemma report_after_total fut r :
  Report.total_files (report_after fut r) = Report.total_files r.
Proof.
  unfold report_after.
  destruct (fut_result fut) as [[[[p|] a] e]|exc]; [destruct (1 <? a)| |];
    reflexivity.
Qed.

Lemma retried_ok_more_successes r r' :
  Report.retried_files r' = Report.retried_files r ->
  (forall n, In n (Report.successful_conversions r) ->
             In n (Report.successful_conversions r')) ->
  retried_ok r -> retried_ok r'.
Proof.
  unfold retried_ok. intros -> Sub H.
  eapply Forall_impl; [|exact H]. intros [n a] [L I]. split; auto.
Qed.

Lemma report_after_retried_ok fut r :
  retried_ok r -> retried_ok (report_after fut r).
Proof.
  intros H. unfold report_after.
  destruct (fut_result fut) as [[[[p|] a] e]|exc].
  - assert (H1 : retried_ok
                   (Report.add_success (Py.path_name (fut_src fut)) r)).
    { apply (retried_ok_more_successes r); [reflexivity| |exact H].
      intros n I. cbn. apply in_or_app. now left. }
    destruct (Z.ltb_spec 1 a) as [L|_]; [|exact H1].
    unfold retried_ok in *. cbn in *. apply Forall_app. split; [exact H1|].
    constructor; [|constructor]. cbn. split; [exact L|].
    apply in_or_app. right. now left.
  - exact H.
  - exact H.
Qed.

Lemma report_after_pdf_files fut r l :
  List.length l = List.length (Report.successful_conversions r) ->
  List.length (pdf_files_after fut l)
  = List.length (Report.successful_conversions (report_after fut r)).
Proof.
  intros H. unfold report_after, pdf_files_after.
  destruct (fut_result fut) as [[[[p|] a] e]|exc]; [destruct (1 <? a)| |];
    cbn; rewrite ?length_app; cbn; lia.
Qed.

Lemma collect_loop_spec total futs :
  forall st,
  (futs <> [] -> total <> 0) ->
  collecting st ->
  exists r st' k,
    collect_loop env total futs st = (r, st')
    /\ collecting st'
    /\ (k <= List.length futs)%nat
    /\ recorded st' = (recorded st + k)%nat
    /\ completed_conversions st' = completed_conversions st + Z.of_nat k
    /\ Report.total_files (conversion_report st')
       = Report.total_files (conversion_report st)
    /\ ((r = Ret tt /\ k = List.length futs)
        \/ (r = Raise interrupted /\ exists n, cancel_flag env n = true)).
Proof.
  induction futs as [|fut rest IH]; intros st HT Inv.
  - exists (Ret tt), st, O. cbn. unfold ret.
    repeat split; try apply Inv; try lia. now left.
  - assert (T : total <> 0) by (apply HT; discriminate).
    cbn [collect_loop]. unfold bind at 1.
    destruct (cancel_flag env (flag_reads st)) eqn:C.
    + destruct (collect_one_cancelled total fut st C)
        as (st' & E & R & P & Co & Zc).
      rewrite E. exists (Raise interrupted), st', O.
      destruct Inv as (I1 & I2 & I3).
      repeat split; try lia.
      * now rewrite P, R.
      * now rewrite R.
      * now rewrite Zc.
      * unfold recorded. rewrite R. lia.
      * now rewrite R.
      * right. split; [reflexivity|eauto].
    + destruct (collect_one_uncancelled total fut st C)
        as (r & st1 & E & Rt & R & P & Co & Zc).
      rewrite E, (Rt T).
      destruct Inv as (I1 & I2 & I3).
      destruct (IH st1)
        as (r2 & st2 & k & E2 & Inv2 & K & Rec & Co2 & Tf & Fin).
      { intros _. exact T. }
      { repeat split.
        - rewrite P, R. now apply report_after_pdf_files.
        - rewrite R. now apply report_after_retried_ok.
        - now rewrite Zc. }
      exists r2, st2, (S k). repeat split; try apply Inv2.
      * exact E2.
      * cbn. lia.
      * rewrite Rec. unfold recorded at 1. rewrite R, report_after_recorded.
        unfold recorded. lia.
      * rewrite Co2, Co. lia.
      * now rewrite Tf, R, report_after_total.
      * destruct Fin as [[-> ->]|Fin]; [left|right; exact Fin].
        split; reflexivity.
Qed.

Lemma nth_remove_nth_perm (d : Future) (l : list Future) :
  forall i, (i < List.length l)%nat ->
            Permutation (nth i l d :: remove_nth i l) l.
Proof.
  unfold remove_nth.
  induction l as [|x l IH]; intros i H; cbn in H; [lia|].
  destruct i as [|i].
  - reflexivity.
  - cbn [nth firstn skipn app]. etransitivity; [apply perm_swap|].
    apply perm_skip. apply IH. lia.
Qed.

Lemma as_completed_from_perm fuel :
  forall done pending,
    List.length pending = fuel ->
    Permutation (as_completed_from env fuel done pending) pending.
Proof.
  induction fuel as [|fuel IH]; intros done pending H.
  - destruct pending; [constructor|discriminate].
  - destruct pending as [|first rest]; [discriminate|].
    cbn [as_completed_from].
    set (i := (next_done env done mod List.length (first :: rest))%nat).
    assert (Hi : (i < List.length (first :: rest))%nat).
    { apply Nat.mod_upper_bound. discriminate. }
    pose proof (nth_remove_nth_perm first (first :: rest) i Hi) as P.
    etransitivity; [|exact P]. apply perm_skip. apply IH.
    apply Permutation_length in P. cbn [List.length] in P, H. lia.
Qed.

Lemma as_completed_perm futures :
  Permutation (as_completed env futures) futures.
Proof. now apply as_completed_from_perm. Qed.

Lemma length_submit_all temp total files :
  forall i, List.length (submit_all env temp total i files) = List.length files.
Proof.
  induction files as [|f rest IH]; intros i; cbn; [|rewrite IH]; reflexivity.
Qed.

Lemma length_completion_order docx_files :
  List.length (completion_order env docx_files) = List.length docx_files.
Proof.
  unfold completion_order.
  rewrite (Permutation_length (as_completed_perm _)).
  apply length_submit_all.
Qed.

Lemma same_results_refl st : same_results st st.
Proof. repeat split. Qed.

Lemma same_results_trans st1 st2 st3 :
  same_results st1 st2 -> same_results st2 st3 -> same_results st1 st3.
Proof.
  unfold same_results.
  intros (A1 & A2 & A3 & A4 & A5 & A6) (B1 & B2 & B3 & B4 & B5 & B6).
  repeat split; congruence.
Qed.

Lemma zip_loop_spec n pdfs :
  forall idx st,
  exists r st' calls,
    zip_loop env n idx pdfs st = (r, st')
    /\ same_results st st'
    /\ zip_calls st' = (zip_calls st ++ calls)%list.
Proof.
  induction pdfs as [|pdf rest IH]; intros idx st.
  - exists (Ret tt), st, []. cbn. unfold ret. rewrite app_nil_r.
    repeat split.
  - cbn [zip_loop]. run_app.
    destruct (cancel_flag env (flag_reads st)); run_app.
    { do 2 eexists. exists []. rewrite app_nil_r. repeat split. }
    destruct (zip_write_error env pdf); run_app.
    { do 2 eexists. exists [ZipWrite pdf (Py.path_name pdf)].
      repeat split. }
    match goal with |- context [zip_loop env n (idx + 1) rest ?s] =>
      destruct (IH (idx + 1) s) as (r & st' & calls & E & Sm & Zc) end.
    rewrite E. exists r, st', (ZipWrite pdf (Py.path_name pdf) :: calls).
    split; [reflexivity|]. split.
    + destruct Sm as (A1 & A2 & A3 & A4 & A5 & A6). repeat split; assumption.
    + rewrite Zc. cbn. now rewrite <- app_assoc.
Qed.

Lemma packaging_phase_spec password zip_path st :
  exists r st',
    packaging_phase env password zip_path st = (r, st')
    /\ same_results st st'
    /\ (pdf_files st = [] ->
        r = Raise no_files_converted /\ zip_calls st' = zip_calls st)
    /\ (pdf_files st <> [] -> cancel_flag env (flag_reads st) = false ->
        zip_calls st' <> []).
Proof.
  unfold packaging_phase. run_app.
  destruct (pdf_files st) as [|pdf rest] eqn:P.
  { run_app. do 2 eexists. repeat split; congruence. }
  run_app.
  destruct (cancel_flag env (flag_reads st)); run_app.
  { do 2 eexists. repeat split; congruence. }
  destruct (zip_open_error env); run_app.
  { do 2 eexists. repeat split; try congruence.
    intros _ _ H. now apply app_eq_nil in H. }
  destruct (String.eqb password ""); run_app.
  - match goal with |- context [zip_loop env ?n 1 ?l ?s] =>
      destruct (zip_loop_spec n l 1 s) as (r & st' & calls & E & Sm & Zc) end.
    rewrite E. cbn [zip_calls] in Zc.
    destruct Sm as (A1 & A2 & A3 & A4 & A5 & A6); cbn in A1, A2, A3, A4, A5, A6.
    destruct r; run_app; do 2 eexists;
      (split; [reflexivity|]); (split; [repeat split; cbn; congruence|]);
      (split; [congruence|]); intros _ _; cbn; rewrite Zc; intros H;
      apply app_eq_nil in H; destruct H as [H _]; apply app_eq_nil in H;
      destruct H; discriminate.
  - match goal with |- context [zip_loop env ?n 1 ?l ?s] =>
      destruct (zip_loop_spec n l 1 s) as (r & st' & calls & E & Sm & Zc) end.
    rewrite E. cbn [zip_calls] in Zc.
    destruct Sm as (A1 & A2 & A3 & A4 & A5 & A6); cbn in A1, A2, A3, A4, A5, A6.
    destruct r; run_app; do 2 eexists;
      (split; [reflexivity|]); (split; [repeat split; cbn; congruence|]);
      (split; [congruence|]); intros _ _; cbn; rewrite Zc; intros H;
      apply app_eq_nil in H; destruct H as [H _]; apply app_eq_nil in H;
      destruct H as [H _]; apply app_eq_nil in H; destruct H; discriminate.
Qed.

Lemma on_thread_error_spec exc st :
  exists st',
    on_thread_error env exc st = (Ret tt, st')
    /\ same_results st st'
    /\ zip_calls st' = zip_calls st
    /\ message_queue st'
       = (message_queue st
          ++ [Finished false
                (match exc_class exc with
                 | InterruptedError => exc_str exc
                 | _ => "Error durant la conversió: " ++ exc_str exc
                 end)])%list.
Proof.
  unfold on_thread_error, set_end_time. run_app.
  destruct (exc_class exc); run_app; eexists; repeat split.
Qed.

Lemma last_message_snoc st q m :
  message_queue st = (q ++ [m])%list -> last_message st = Some m.
Proof.
  intros E. unfold last_message. now rewrite E, rev_app_distr.
Qed.

Lemma collection_from_begin docx_files max_workers now futs :
  (List.length futs <= List.length docx_files)%nat ->
  exists r st1 k,
    (announce (Z.of_nat (List.length docx_files)) max_workers ;;
     collect_loop env (Z.of_nat (List.length docx_files)) futs)%eff
      (begin_run docx_files now)
    = (r, st1)
    /\ collecting st1
    /\ (k <= List.length futs)%nat
    /\ recorded st1 = k
    /\ completed_conversions st1 = Z.of_nat k
    /\ Report.total_files (conversion_report st1)
       = Z.of_nat (List.length docx_files)
    /\ ((r = Ret tt /\ k = List.length futs)
        \/ (r = Raise interrupted /\ exists n, cancel_flag env n = true)).
Proof.
  intros L. unfold announce. run_app.
  match goal with |- context [collect_loop env ?t futs ?s] =>
    destruct (collect_loop_spec t futs s)
      as (r & st1 & k & E & Inv & K & Rec & Co & Tf & Fin) end.
  { intros NE. destruct futs; [congruence|]. cbn in L. lia. }
  { repeat split. constructor. }
  exists r, st1, k. repeat split; try assumption; try apply Inv.
Qed.

Lemma batch_run_spec docx_files password zip_path max_workers now :
  exists st1 k st,
    batch_run env docx_files password zip_path max_workers now = (Ret tt, st)
    /\ collecting st1
    /\ same_results st1 st
    /\ (k <= List.length docx_files)%nat
    /\ recorded st1 = k
    /\ completed_conversions st1 = Z.of_nat k
    /\ Report.total_files (conversion_report st1)
       = Z.of_nat (List.length docx_files)
    /\ ((forall n, cancel_flag env n = false) ->
        k = List.length docx_files
        /\ (no_files_failure st <-> pdf_files st1 = [])).
Proof.
  unfold batch_run, convert_and_zip_thread, conversion_phase.
  destruct (collection_from_begin docx_files max_workers now
              (completion_order env docx_files))
    as (r & st1 & k & E & Inv & K & Rec & Co & Tf & Fin).
  { now rewrite length_completion_order. }
  rewrite length_completion_order in K, Fin.
  exists st1, k. unfold try_except, bind at 1. rewrite E.
  destruct Fin as [[-> ->]|[-> (n & Cn)]].
  - destruct (packaging_phase_spec password zip_path st1)
      as (r2 & st2 & E2 & Sm2 & Empty & Full).
    rewrite E2.
    assert (Z1 : zip_calls st1 = []) by apply Inv.
    destruct r2 as [[]|exc].
    + exists st2.
      do 7 (split; [solve [reflexivity|assumption|lia]|]).
      intros NC. split; [reflexivity|]. split.
      * intros [Zc _]. destruct (pdf_files st1) eqn:P; [reflexivity|].
        exfalso. apply Full; [congruence|apply NC|exact Zc].
      * intros P. destruct (Empty P) as [? _]. discriminate.
    + destruct (on_thread_error_spec exc st2) as (st3 & E3 & Sm3 & Zc3 & Mq3).
      rewrite E3. exists st3.
      pose proof (same_results_trans _ _ _ Sm2 Sm3) as Sm.
      do 7 (split; [solve [reflexivity|assumption|lia]|]).
      intros NC. split; [reflexivity|]. split.
      * intros [Zc _]. destruct (pdf_files st1) eqn:P; [reflexivity|].
        exfalso. apply Full; [congruence|apply NC|congruence].
      * intros P. destruct (Empty P) as [Ex Zc]. injection Ex as ->. split.
        -- now rewrite Zc3, Zc.
        -- apply (last_message_snoc _ _ _ Mq3).
  - destruct (on_thread_error_spec interrupted st1) as (st3 & E3 & Sm3 & _).
    rewrite E3. exists st3.
    do 7 (split; [solve [reflexivity|assumption|lia]|]).
    intros NC. rewrite NC in Cn. discriminate.
Qed.

Lemma collect_loop_app total l1 :
  forall l2 st,
    collect_loop env total (l1 ++ l2) st
    = (collect_loop env total l1 ;; collect_loop env total l2)%eff st.
Proof.
  induction l1 as [|fut rest IH]; intros l2 st; [reflexivity|].
  cbn [app collect_loop]. unfold bind.
  destruct (collect_one env total fut st) as [[[]|e] st1]; [|reflexivity].
  rewrite IH. reflexivity.
Qed.

End Facts.

(** C1.  In every run the report declares as total the number of input
    files; at every point of the collecting loop, and at the end of the run,
    successes plus failures do not exceed that total; and when the
    cancellation flag is never seen set, they equal it at the end. *)
Theorem recorded_outcomes_within_total
  (env : Env) (docx_files : list string) (password zip_path : string)
  (max_workers : Z) (now : float) :
  let counted (r : Report.ConversionReport) :=
    Z.of_nat (List.length (Report.successful_conversions r)
              + List.length (Report.failed_conversions r)) in
  let final :=
    conversion_report
      (snd (batch_run env docx_files password zip_path max_workers now)) in
  (forall k,
     let r := conversion_report
                (collection_state env docx_files max_workers now k) in
     Report.total_files r = Z.of_nat (List.length docx_files)
     /\ counted r <= Report.total_files r)
  /\ Report.total_files final = Z.of_nat (List.length docx_files)
  /\ counted final <= Report.total_files final
  /\ ((forall n, cancel_flag env n = false) ->
      counted final = Report.total_files final).
Proof.
  cbv zeta. split.
  - intros k. unfold collection_state.
    destruct (collection_from_begin env docx_files max_workers now
                (firstn k (completion_order env docx_files)))
      as (r & st1 & j & E & _ & J & Rec & _ & Tf & _).
    { rewrite length_firstn, length_completion_order. lia. }
    rewrite E. cbn [snd]. rewrite Tf. split; [reflexivity|].
    unfold recorded in Rec. rewrite Rec.
    rewrite length_firstn, length_completion_order in J. lia.
  - destruct (batch_run_spec env docx_files password zip_path max_workers now)
      as (st1 & k & st & E & _ & Sm & K & Rec & _ & Tf & NC).
    rewrite E. cbn [snd].
    destruct Sm as (S1 & S2 & _ & S4 & _).
    unfold recorded in Rec. rewrite S1, S2, S4, Rec, Tf.
    split; [reflexivity|]. split; [lia|].
    intros H. destruct (NC H) as [-> _]. reflexivity.
Qed.


(** The sample run of two files, never cancelled. *)
Lemma recorded_outcomes_within_total_witness :
  let final :=
    conversion_report
      (snd (batch_run Examples.app_env Examples.two_files "secret" "out.zip"
              8 1700000000%float)) in
  Z.of_nat (List.length (Report.successful_conversions final)
            + List.length (Report.failed_conversions final))
  = Report.total_files final.
Proof.
  apply (proj2 (proj2 (proj2
           (recorded_outcomes_within_total Examples.app_env Examples.two_files
              "secret" "out.zip" 8 1700000000%float)))).
  intros n. reflexivity.
Defined.


End AppFacts.

(* ================================================================== *)
(** ** More on the report *)
(* ================================================================== *)

Module ReportExtras.
Import Report ReportObs.

(** X1.  Whatever calls of [add_success], [add_failure] and [add_retry] are
    made, in whatever order, each appends to its own list: the entries a
    report had stay in front, the new ones follow in the order of the
    calls, and the declared total and the time stamps are not touched. *)
Theorem calls_append_in_order (cs : list Call) (r : ConversionReport) :
  let r' := calls cs r in
  successful_conversions r'
  = (successful_conversions r ++ successes_of cs)%list
  /\ failed_conversions r' = (failed_conversions r ++ failures_of cs)%list
  /\ retried_files r' = (retried_files r ++ retries_of cs)%list
  /\ total_files r' = total_files r
  /\ start_time r' = start_time r
  /\ end_time r' = end_time r.
Proof.
  cbv zeta. revert r. unfold calls.
  induction cs as [|c cs IH]; intros r.
  - cbn. rewrite !app_nil_r. repeat split.
  - cbn [fold_left]. destruct (IH (call c r)) as (S & F & R & T & B & E).
    rewrite S, F, R, T, B, E.
    destruct c; cbn; rewrite <- ?app_assoc; repeat split.
Qed.

(** X2.  The duration of [get_summary] is never below zero, and it is 0.0
    when one of the two time stamps is not set. *)
Theorem duration_never_negative (r : ConversionReport) :
  let d := sum_duration (get_summary r) in
  PrimFloat.ltb d PrimFloat.zero = false
  /\ (start_time r = None \/ end_time r = None -> d = PrimFloat.zero).
Proof.
  cbv zeta. unfold get_summary; cbn [sum_duration]. split.
  - destruct (Py.truthy_time (start_time r) && Py.truthy_time (end_time r));
      [|reflexivity].
    destruct (start_time r) as [s|]; [|reflexivity].
    destruct (end_time r) as [e|]; [|reflexivity].
    unfold Py.max0.
    destruct (PrimFloat.ltb PrimFloat.zero (PrimFloat.sub e s)) eqn:L;
      [|reflexivity].
    rewrite FloatAxioms.ltb_spec in *.
    change (Prim2SF PrimFloat.zero) with (S754_zero false) in *.
    destruct (Prim2SF (PrimFloat.sub e s)) as [[]|[]| |[] m x];
      cbn in *; try reflexivity; discriminate.
  - intros [H|H]; rewrite H; cbn.
    + reflexivity.
    + now rewrite andb_false_r.
Qed.

Lemma length_flat_map_const {A B : Type} (f : A -> list B) (k : nat)
  (l : list A) :
  (forall x, List.length (f x) = k) ->
  List.length (flat_map f l) = (k * List.length l)%nat.
Proof.
  intros H. induction l as [|x l IH]; cbn; [lia|].
  rewrite length_app, H, IH. lia.
Qed.

(** X3.  The number of lines of the report: 15 for the summary and the
    verdict; 3 and two per retried file when there is one; 3 and one per
    success, at most 10, and one more line when there are more than 10,
    when there are successes and no retried file; 3 and six per failure
    when there is one.  So the list of successes is capped and it is not
    shown at all beside a retried file, and the failures are not capped. *)
Theorem report_line_count (r : ConversionReport) :
  let ns := List.length (successful_conversions r) in
  let nf := List.length (failed_conversions r) in
  let nr := List.length (retried_files r) in
  List.length (report_lines r)
  = (15
     + (if Nat.eqb nr 0 then 0 else 3 + 2 * nr)
     + (if Nat.eqb nr 0 && negb (Nat.eqb ns 0)
        then 3 + Nat.min 10 ns + (if Nat.ltb 10 ns then 1 else 0)
        else 0)
     + (if Nat.eqb nf 0 then 0 else 3 + 6 * nf))%nat.
Proof.
  cbv zeta. unfold report_lines. rewrite !length_app.
  change (List.length (summary_block (get_summary r))) with 12%nat.
  cbn [List.length].
  assert (R : List.length (retried_block r)
              = if Nat.eqb (List.length (retried_files r)) 0 then 0%nat
                else (3 + 2 * List.length (retried_files r))%nat).
  { unfold retried_block. destruct (retried_files r) as [|x l] eqn:E.
    - reflexivity.
    - rewrite <- E. rewrite !length_app.
      rewrite (length_flat_map_const _ 2);
        [|intros [f a]; reflexivity].
      rewrite E. cbn [List.length Nat.eqb]. lia. }
  assert (F : List.length (failed_block r)
              = if Nat.eqb (List.length (failed_conversions r)) 0 then 0%nat
                else (3 + 6 * List.length (failed_conversions r))%nat).
  { unfold failed_block. destruct (failed_conversions r) as [|x l] eqn:E.
    - reflexivity.
    - rewrite <- E. rewrite !length_app.
      rewrite (length_flat_map_const _ 6);
        [|intros [f e]; reflexivity].
      rewrite E. cbn [List.length Nat.eqb]. lia. }
  assert (U : List.length (unretried_block r (sum_success (get_summary r)))
              = if Nat.eqb (List.length (retried_files r)) 0
                   && negb (Nat.eqb (List.length (successful_conversions r)) 0)
                then (3 + Nat.min 10 (List.length (successful_conversions r))
                      + (if Nat.ltb 10 (List.length (successful_conversions r))
                         then 1 else 0))%nat
                else 0%nat).
  { unfold unretried_block, get_summary. cbn [sum_success].
    destruct (retried_files r) as [|x l]; cbn [List.length Nat.eqb andb];
      [|now rewrite andb_false_r].
    destruct (successful_conversions r) as [|y ys] eqn:E;
      [reflexivity|].
    rewrite <- E.
    replace (Z.of_nat (List.length (successful_conversions r)) =? 0)
      with false by (rewrite E; cbn [List.length]; symmetry;
                     apply Z.eqb_neq; lia).
    replace (Nat.eqb (List.length (successful_conversions r)) 0)
      with false by (rewrite E; reflexivity).
    cbn [negb andb]. rewrite !length_app, length_map, length_firstn.
    destruct (Nat.ltb 10 (List.length (successful_conversions r)));
      cbn [List.length]; lia. }
  rewrite R, F, U. lia.
Qed.

Lemma failed_block_split (r : ConversionReport) (filename error : string)
  (l1 l2 : list (string * string)) :
  failed_conversions r = (l1 ++ (filename, error) :: l2)%list ->
  exists before after,
    failed_block r
    = (before
       ++ [ ("  ✗ " ++ filename)%string;
            ("    └─ Error: " ++ error)%string;
            "    └─ Suggeriments:";
            "       • Verifica si el DOCX és corrupte";
            "       • Comprova que MS Word estigui instal·lat";
            "       • Obre i desa de nou el DOCX" ]
       ++ after)%list.
Proof.
  intros E. unfold failed_block. rewrite E.
  destruct (l1 ++ (filename, error) :: l2)%list as [|x l] eqn:E2.
  { now destruct l1. }
  rewrite <- E2. clear E2.
  rewrite flat_map_app.
  set (f := fun '(filename, error) => _).
  exists ([ "✗ FITXERS AMB ERRORS NO RESOLTS"; sub ] ++ flat_map f l1)%list,
         (flat_map f l2 ++ [ "" ])%list.
  cbn [flat_map]. subst f. cbv beta iota.
  rewrite <- !app_assoc. reflexivity.
Qed.

(** X4.  Every recorded failure is in the report: its name, its error and
    the four lines of suggestions, one after the other. *)
Theorem every_failure_is_listed (r : ConversionReport)
  (filename error : string) :
  In (filename, error) (failed_conversions r) ->
  exists before after,
    report_lines r
    = (before
       ++ [ ("  ✗ " ++ filename)%string;
            ("    └─ Error: " ++ error)%string;
            "    └─ Suggeriments:";
            "       • Verifica si el DOCX és corrupte";
            "       • Comprova que MS Word estigui instal·lat";
            "       • Obre i desa de nou el DOCX" ]
       ++ after)%list.
Proof.
  intros H. apply in_split in H. destruct H as (l1 & l2 & E).
  destruct (failed_block_split r filename error l1 l2 E)
    as (before & after & B).
  unfold report_lines. rewrite B.
  exists (summary_block (get_summary r) ++ retried_block r
          ++ unretried_block r (sum_success (get_summary r))
          ++ before)%list.
  eexists. rewrite <- !app_assoc. reflexivity.
Qed.

Lemma retried_block_split (r : ConversionReport) (filename : string)
  (attempts : Z) (l1 l2 : list (string * Z)) :
  retried_files r = (l1 ++ (filename, attempts) :: l2)%list ->
  exists before after,
    retried_block r
    = (before
       ++ [ ("  • " ++ filename)%string;
            ("    └─ Resolt després de " ++ Py.str_of_Z attempts
               ++ " intent(s)")%string ]
       ++ after)%list.
Proof.
  intros E. unfold retried_block. rewrite E.
  destruct (l1 ++ (filename, attempts) :: l2)%list as [|x l] eqn:E2.
  { now destruct l1. }
  rewrite <- E2. clear E2.
  rewrite flat_map_app.
  set (f := fun '(filename, attempts) => _).
  exists ([ "🔄 FITXERS RESOLTS DESPRÉS DE REINTENTS"; sub ]
          ++ flat_map f l1)%list,
         (flat_map f l2 ++ [ "" ])%list.
  cbn [flat_map]. subst f. cbv beta iota.
  rewrite <- !app_assoc. reflexivity.
Qed.

(** X5.  Every retried file is in the report: its name and, on the next
    line, the number of attempts it took. *)
Theorem every_retry_is_listed (r : ConversionReport)
  (filename : string) (attempts : Z) :
  In (filename, attempts) (retried_files r) ->
  exists before after,
    report_lines r
    = (before
       ++ [ ("  • " ++ filename)%string;
            ("    └─ Resolt després de " ++ Py.str_of_Z attempts
               ++ " intent(s)")%string ]
       ++ after)%list.
Proof.
  intros H. apply in_split in H. destruct H as (l1 & l2 & E).
  destruct (retried_block_split r filename attempts l1 l2 E)
    as (before & after & B).
  unfold report_lines. rewrite B.
  exists (summary_block (get_summary r) ++ before)%list.
  eexists. rewrite <- !app_assoc. reflexivity.
Qed.

(** The failure of the sample report. *)
Lemma every_failure_is_listed_witness :
  exists before after,
    report_lines Samples.mixed_report
    = (before
       ++ [ "  ✗ acta.docx";
            "    └─ Error: Fallo després de 5 intents: ";
            "    └─ Suggeriments:";
            "       • Verifica si el DOCX és corrupte";
            "       • Comprova que MS Word estigui instal·lat";
            "       • Obre i desa de nou el DOCX" ]
       ++ after)%list.
Proof.
  apply (every_failure_is_listed Samples.mixed_report "acta.docx"
           "Fallo després de 5 intents: ").
  left. reflexivity.
Defined.

(** The retried file of the sample report. *)
Lemma every_retry_is_listed_witness :
  exists before after,
    report_lines Samples.mixed_report
    = (before
       ++ [ "  • informe.docx";
            "    └─ Resolt després de 3 intent(s)" ]
       ++ after)%list.
Proof.
  apply (every_retry_is_listed Samples.mixed_report "informe.docx" 3).
  left. reflexivity.
Defined.

End ReportExtras.

(* ================================================================== *)
(** ** More on the converter *)
(* ================================================================== *)

Module ConverterExtras.
Import Exn Eff Converter ConverterObs.

Ltac run_eff :=
  unfold bind, ret, raise, try_except, get, modify, log, set_fs; cbn.

Section Traces.

Variable self : DocxConverter.
Variable env : Env.

Lemma primary_calls_app a b :
  primary_calls (a ++ b) = (primary_calls a ++ primary_calls b)%list.
Proof. apply flat_map_app. Qed.

Lemma fallback_calls_app a b :
  fallback_calls (a ++ b) = (fallback_calls a ++ fallback_calls b)%list.
Proof. apply flat_map_app. Qed.

Lemma pauses_app a b : pauses (a ++ b) = (pauses a ++ pauses b)%list.
Proof. apply flat_map_app. Qed.

(** X6.  The removal of a residual PDF before an attempt never raises.
    Without a residue it changes nothing.  With one, when [unlink] works
    the PDF is gone and every other path is as it was; when [unlink]
    raises, the exception is swallowed and the file system is as it was. *)
Theorem cleanup_removes_only_the_residue (attempt : Z) (pdf : string)
  (w : World) :
  exists w1,
    cleanup env attempt pdf w = (Ret tt, w1)
    /\ (path_exists (fs w) pdf = false -> w1 = w)
    /\ (path_exists (fs w) pdf = true ->
        (unlink_error env attempt (fs w) = None ->
         path_exists (fs w1) pdf = false
         /\ forall q, q <> pdf -> fs w1 q = fs w q)
        /\ (unlink_error env attempt (fs w) <> None -> fs w1 = fs w))
    /\ (events w1 = events w \/ events w1 = (events w ++ [EvUnlink pdf])%list).
Proof.
  unfold cleanup, unlink. run_eff.
  destruct (path_exists (fs w) pdf) eqn:P.
  - destruct (unlink_error env attempt (fs w)) as [e|]; cbn;
      eexists; (split; [reflexivity|]); (split; [discriminate|]);
      (split; [|right; reflexivity]); intros _.
    + split; [discriminate|reflexivity].
    + split; [|congruence]. intros _. split.
      * unfold path_exists, fs_remove. cbn. now rewrite String.eqb_refl.
      * intros q Q. unfold fs_remove. cbn.
        destruct (String.eqb_spec q pdf); [contradiction|reflexivity].
  - eexists. split; [reflexivity|]. split; [reflexivity|].
    split; [discriminate|left; reflexivity].
Qed.

Lemma primary_attempt_trace a d p w :
  let r := primary_attempt self env a d p w in
  events (snd r)
  = (events w
     ++ match convert env with Some _ => [EvPrimary a] | None => [] end)%list
  /\ (forall step, fst r = Ret step ->
        step = Return (Some p, a, None)
        /\ nonempty_output (fs (snd r)) p = true
        /\ convert env <> None)
  /\ (forall e, fst r = Raise e -> caught_with_fallback e = true ->
        convert env <> None).
Proof.
  cbv zeta. unfold primary_attempt, future_result.
  destruct (convert env) as [c|]; run_eff.
  2:{ rewrite app_nil_r. split; [reflexivity|]. split.
      - intros s0 H. discriminate.
      - intros e H. injection H as <-. discriminate. }
  destruct (timeout self <? run_seconds (c a d p (fs w))); cbn.
  { split; [reflexivity|]. split; intros; discriminate. }
  destruct (run_raised (c a d p (fs w))); cbn.
  { split; [reflexivity|]. split; intros; discriminate. }
  destruct (nonempty_output (run_fs (c a d p (fs w))) p) eqn:NE; cbn.
  - split; [reflexivity|]. split; [|intros; discriminate].
    intros s0 H. injection H as <-.
    split; [reflexivity|]. split; [exact NE|discriminate].
  - split; [reflexivity|]. split; intros; discriminate.
Qed.

Lemma convert_with_win32_trace a d p w :
  exists b w3,
    convert_with_win32 self env a d p w = (Ret b, w3)
    /\ events w3
       = (events w ++ if has_win32 self then [EvFallback a] else [])%list
    /\ (b = true -> nonempty_output (fs w3) p = true).
Proof.
  unfold convert_with_win32.
  destruct (has_win32 self); cbn [negb]; run_eff.
  2:{ do 2 eexists. rewrite app_nil_r.
      split; [reflexivity|]. split; [reflexivity|discriminate]. }
  destruct (word_session env a d p (fs w)) as [f [e|]]; cbn.
  - do 2 eexists. split; [reflexivity|]. split; [reflexivity|discriminate].
  - do 2 eexists. split; [reflexivity|]. split; [reflexivity|].
    intros H. exact H.
Qed.

Lemma on_error_trace a d p exc w :
  exists step w3,
    on_error self env a d p exc w = (Ret step, w3)
    /\ ((step = Continue (Some (exc_str exc)) /\ w3 = w)
        \/ (events w3 = (events w ++ [EvFallback a])%list
            /\ has_win32 self = true
            /\ a < max_retries self
            /\ caught_with_fallback exc = true
            /\ ((step = Return (Some p, a, None)
                 /\ nonempty_output (fs w3) p = true)
                \/ step = Continue (Some (exc_str exc))))).
Proof.
  unfold on_error.
  destruct (caught_with_fallback exc) eqn:C.
  2:{ run_eff. do 2 eexists. split; [reflexivity|]. left. now split. }
  destruct (has_win32 self) eqn:HW; cbn [andb].
  2:{ run_eff. do 2 eexists. split; [reflexivity|]. left. now split. }
  destruct (Z.ltb_spec a (max_retries self)) as [L|L].
  2:{ run_eff. do 2 eexists. split; [reflexivity|]. left. now split. }
  destruct (convert_with_win32_trace a d p w) as (b & w3 & E & Ev & NE).
  rewrite HW in Ev. unfold bind. rewrite E.
  destruct b; run_eff; do 2 eexists; (split; [reflexivity|]); right;
    (split; [exact Ev|]); (split; [reflexivity|]); (split; [exact L|]);
    (split; [reflexivity|]).
  - left. split; [reflexivity|now apply NE].
  - now right.
Qed.

(** What one iteration of the loop does, call by call. *)
Lemma attempt_body_trace a d p w :
  exists step w' evs,
    attempt_body self env a d p w = (Ret step, w')
    /\ events w' = (events w ++ evs)%list
    /\ primary_calls evs
       = match convert env with Some _ => [a] | None => [] end
    /\ (fallback_calls evs = []
        \/ (fallback_calls evs = [a] /\ has_win32 self = true
            /\ a < max_retries self /\ convert env <> None))
    /\ match step with
       | Return t =>
           t = (Some p, a, None)
           /\ nonempty_output (fs w') p = true
           /\ convert env <> None
           /\ pauses evs = []
       | Continue _ =>
           pauses evs = if a <? max_retries self then [backoff a] else []
       end.
Proof.
  destruct (cleanup_removes_only_the_residue a p w)
    as (w1 & E1 & _ & _ & U).
  unfold attempt_body, bind at 1. rewrite E1.
  destruct (primary_attempt_trace a d p w1) as (Ev2 & R2 & C2).
  assert (Pre : exists pre,
             events (snd (primary_attempt self env a d p w1))
             = (events w ++ pre)%list
             /\ primary_calls pre
                = match convert env with Some _ => [a] | None => [] end
             /\ fallback_calls pre = [] /\ pauses pre = []).
  { destruct U as [U|U]; rewrite U in Ev2;
      [eexists|eexists ([EvUnlink p] ++ _)%list];
      (split; [rewrite Ev2, <- ?app_assoc; reflexivity|]);
      destruct (convert env); repeat split. }
  clear Ev2 U. destruct Pre as (pre & Ev & Pc & Fc & Ps).
  unfold bind, try_except.
  destruct (primary_attempt self env a d p w1) as [[s0|exc] w2];
    cbn [fst snd] in *.
  - destruct (R2 s0 eq_refl) as (-> & NE & Av).
    run_eff. exists (Return (Some p, a, None)), w2, pre.
    split; [reflexivity|]. split; [exact Ev|]. split; [exact Pc|].
    split; [now left|]. repeat split; assumption.
  - destruct (on_error_trace a d p exc w2) as (step & w3 & E3 & Cases).
    rewrite E3.
    destruct Cases as [[-> ->]|(Ev3 & HW & L & C & St)].
    + destruct (a <? max_retries self) eqn:Lt; run_eff.
      * exists (Continue (Some (exc_str exc))),
          {| fs := fs w2;
             events := (events w2 ++ [EvSleep (Z.min (a * 3) 15)])%list |},
          (pre ++ [EvSleep (Z.min (a * 3) 15)])%list.
        split; [reflexivity|]. cbn [events].
        split; [now rewrite Ev, <- app_assoc|].
        rewrite primary_calls_app, fallback_calls_app, pauses_app.
        rewrite Pc, Fc, Ps. cbn. rewrite app_nil_r.
        split; [reflexivity|]. split; [now left|reflexivity].
      * exists (Continue (Some (exc_str exc))), w2, pre.
        split; [reflexivity|]. split; [exact Ev|]. split; [exact Pc|].
        split; [now left|exact Ps].
    + assert (Av : convert env <> None) by now apply (C2 exc).
      assert (Ev' : events w3 = (events w ++ pre ++ [EvFallback a])%list)
        by now rewrite Ev3, Ev, <- app_assoc.
      destruct St as [[-> NE]| ->]; run_eff.
      * exists (Return (Some p, a, None)), w3, (pre ++ [EvFallback a])%list.
        split; [reflexivity|]. split; [exact Ev'|].
        rewrite primary_calls_app, fallback_calls_app, pauses_app.
        rewrite Pc, Fc, Ps. cbn. rewrite app_nil_r.
        split; [reflexivity|]. split; [right; repeat split; assumption|].
        repeat split; assumption.
      * apply Z.ltb_lt in L. rewrite L. run_eff.
        exists (Continue (Some (exc_str exc))),
          {| fs := fs w3;
             events := (events w3 ++ [EvSleep (Z.min (a * 3) 15)])%list |},
          (pre ++ [EvFallback a; EvSleep (Z.min (a * 3) 15)])%list.
        split; [reflexivity|]. cbn [events].
        split; [rewrite Ev', <- !app_assoc; reflexivity|].
        rewrite primary_calls_app, fallback_calls_app, pauses_app.
        rewrite Pc, Fc, Ps. cbn. rewrite app_nil_r.
        split; [reflexivity|].
        split; [right; repeat split; try assumption; now apply Z.ltb_lt|].
        reflexivity.
Qed.


Lemma attempts_loop_trace attempts d p :
  forall last w,
  exists t w' evs,
    attempts_loop self env attempts d p last w = (Ret t, w')
    /\ events w' = (events w ++ evs)%list
    /\ Forall (fun a => In a attempts /\ a < max_retries self
                        /\ has_win32 self = true
                        /\ In a (primary_calls evs))
              (fallback_calls evs)
    /\ ((exists pre a rest,
            attempts = (pre ++ a :: rest)%list
            /\ t = (Some p, a, None)
            /\ nonempty_output (fs w') p = true
            /\ convert env <> None
            /\ primary_calls evs = (pre ++ [a])%list
            /\ pauses evs = map backoff (filter (below_last self) pre))
        \/ (exists msg,
               t = (None, max_retries self, Some msg)
               /\ primary_calls evs
                  = match convert env with
                    | Some _ => attempts
                    | None => []
                    end
               /\ pauses evs
                  = map backoff (filter (below_last self) attempts))).
Proof.
  induction attempts as [|a rest IH]; intros last w.
  - cbn. unfold ret. do 2 eexists. exists []. rewrite app_nil_r.
    split; [reflexivity|]. split; [reflexivity|]. split; [constructor|].
    right. eexists. split; [reflexivity|]. now destruct (convert env).
  - destruct (attempt_body_trace a d p w)
      as (step & w1 & evs1 & E1 & Ev1 & Pc1 & Fc1 & St).
    cbn [attempts_loop]. unfold bind. rewrite E1.
    assert (F1 : Forall (fun x => In x (a :: rest) /\ x < max_retries self
                                  /\ has_win32 self = true
                                  /\ In x (primary_calls evs1))
                        (fallback_calls evs1)).
    { destruct Fc1 as [->|(-> & HW & L & Av)]; [constructor|].
      constructor; [|constructor].
      repeat split; try assumption; [now left|].
      rewrite Pc1. destruct (convert env); [now left|congruence]. }
    destruct step as [t|last'].
    + destruct St as (-> & NE & Av & Ps).
      unfold ret. exists (Some p, a, None), w1, evs1.
      split; [reflexivity|]. split; [exact Ev1|]. split; [exact F1|].
      left. exists [], a, rest.
      repeat split; try assumption.
      rewrite Pc1. destruct (convert env); [reflexivity|congruence].
    + destruct (IH last' w1) as (t & w' & evs2 & E2 & Ev2 & F2 & Out).
      exists t, w', (evs1 ++ evs2)%list.
      split; [exact E2|]. split; [now rewrite Ev2, Ev1, <- app_assoc|].
      rewrite primary_calls_app, fallback_calls_app, pauses_app, St, Pc1.
      split.
      * apply Forall_app. split.
        -- eapply Forall_impl; [|exact F1]. cbn beta.
           intros x (I & L & HW & Ip). repeat split; try assumption.
           apply in_or_app. left. now rewrite <- Pc1.
        -- eapply Forall_impl; [|exact F2]. cbn beta.
           intros x (I & L & HW & Ip). repeat split; try assumption.
           ++ now right.
           ++ apply in_or_app. now right.
      * destruct Out as [(pre & b & rest' & -> & -> & NE & Av & Pc & Ps)
                        |(msg & -> & Pc & Ps)].
        -- left. exists (a :: pre), b, rest'.
           repeat split; try assumption.
           ++ rewrite Pc. destruct (convert env); [reflexivity|congruence].
           ++ rewrite Ps. cbn [filter]. unfold below_last at 2.
              now destruct (a <? max_retries self).
        -- right. exists msg. split; [reflexivity|]. split.
           ++ rewrite Pc. now destruct (convert env).
           ++ rewrite Ps. cbn [filter]. unfold below_last at 2.
              now destruct (a <? max_retries self).
Qed.

End Traces.

Lemma range_nil lo hi : hi <= lo -> Py.range lo hi = [].
Proof.
  intros H. unfold Py.range.
  replace (Z.to_nat (hi - lo)) with O by lia. reflexivity.
Qed.

Lemma range_cons lo hi :
  lo < hi -> Py.range lo hi = lo :: Py.range (lo + 1) hi.
Proof.
  intros H. unfold Py.range.
  replace (Z.to_nat (hi - lo)) with (S (Z.to_nat (hi - (lo + 1)))) by lia.
  cbn [seq map]. f_equal; [lia|].
  rewrite <- seq_shift, map_map. apply map_ext. intros i. lia.
Qed.

Lemma range_split pre :
  forall lo hi a rest,
    Py.range lo hi = (pre ++ a :: rest)%list ->
    pre = Py.range lo a /\ lo <= a < hi.
Proof.
  induction pre as [|x pre IH]; intros lo hi a rest H.
  - destruct (Z.lt_ge_cases lo hi) as [L|L].
    + rewrite range_cons in H by exact L. injection H as <- _.
      split; [now rewrite range_nil by lia|lia].
    + rewrite range_nil in H by exact L. discriminate.
  - destruct (Z.lt_ge_cases lo hi) as [L|L].
    + rewrite range_cons in H by exact L. cbn [app] in H.
      injection H as <- H. destruct (IH _ _ _ _ H) as [-> B].
      split; [|lia]. now rewrite (range_cons lo a) by lia.
    + rewrite range_nil in H by exact L. discriminate.
Qed.

Lemma filter_all {A : Type} (f : A -> bool) (l : list A) :
  (forall x, In x l -> f x = true) -> filter f l = l.
Proof.
  induction l as [|x l IH]; intros H; [reflexivity|].
  cbn. rewrite (H x) by now left. f_equal. apply IH.
  intros y I. apply H. now right.
Qed.

Lemma filter_below_range (n k : Z) :
  k <= n -> filter (fun a => a <? n) (Py.range 1 k) = Py.range 1 k.
Proof.
  intros H. apply filter_all. intros x I.
  apply ConverterFacts.in_range in I. apply Z.ltb_lt. lia.
Qed.

Lemma filter_below_full (n : Z) :
  filter (fun a => a <? n) (Py.range 1 (n + 1)) = Py.range 1 n.
Proof.
  destruct (Z.lt_ge_cases n 1) as [L|L].
  - now rewrite !range_nil by lia.
  - rewrite ConverterFacts.range_last by lia.
    rewrite Z.add_simpl_r, filter_app, filter_below_range by lia.
    cbn. rewrite Z.ltb_irrefl. apply app_nil_r.
Qed.

Lemma backoff_bounds a : 1 <= a -> 3 <= backoff a <= 15.
Proof. unfold backoff. lia. Qed.

Lemma total_backoff l :
  Forall (fun a => 1 <= a) l ->
  Forall (fun s => 3 <= s <= 15) (map backoff l)
  /\ 0 <= total (map backoff l) <= 15 * Z.of_nat (List.length l).
Proof.
  induction 1 as [|a l A _ IH]; cbn [map total fold_right List.length].
  - split; [constructor|lia].
  - destruct IH as [F T]. pose proof (backoff_bounds a A).
    split; [constructor; assumption|]. fold (total (map backoff l)). lia.
Qed.

Lemma range_from_one k : Forall (fun a => 1 <= a) (Py.range 1 k).
Proof.
  apply Forall_forall. intros a I. apply ConverterFacts.in_range in I. lia.
Qed.

(** A whole conversion, call by call. *)
Lemma convert_single_file_trace
  (self : DocxConverter) (env : Env) (docx temp : string) (i n : Z)
  (w : World) :
  let pdf := pdf_path_of docx temp in
  exists t w' evs,
    convert_single_file self env docx temp i n w = (Ret t, w')
    /\ events w' = (events w ++ evs)%list
    /\ Forall (fun a => 1 <= a < max_retries self
                        /\ has_win32 self = true
                        /\ In a (primary_calls evs))
              (fallback_calls evs)
    /\ (((is_file (fs w) docx = false \/ path_exists (fs w) temp = false)
         /\ evs = [] /\ w' = w /\ exists msg, t = (None, 0, Some msg))
        \/ (is_file (fs w) docx = true /\ path_exists (fs w) temp = true
            /\ ((exists a,
                    1 <= a <= max_retries self
                    /\ t = (Some pdf, a, None)
                    /\ nonempty_output (fs w') pdf = true
                    /\ convert env <> None
                    /\ primary_calls evs = Py.range 1 (a + 1)
                    /\ pauses evs = map backoff (Py.range 1 a))
                \/ (exists msg,
                       t = (None, max_retries self, Some msg)
                       /\ primary_calls evs
                          = match convert env with
                            | Some _ => Py.range 1 (max_retries self + 1)
                            | None => []
                            end
                       /\ pauses evs
                          = map backoff (Py.range 1 (max_retries self)))))).
Proof.
  cbv zeta. rewrite ConverterFacts.convert_single_file_unfold.
  destruct (path_exists (fs w) docx) eqn:PE; cbn [negb orb].
  2:{ exists (None, 0, Some ("El fitxer " ++ docx
                             ++ " no existeix o no és vàlid.")), w, [].
      rewrite app_nil_r. repeat split; [constructor|].
      left. repeat split; [|eauto]. left.
      unfold is_file. unfold path_exists in PE.
      now destruct (fs w docx). }
  destruct (is_file (fs w) docx) eqn:IF; cbn [negb orb].
  2:{ exists (None, 0, Some ("El fitxer " ++ docx
                             ++ " no existeix o no és vàlid.")), w, [].
      rewrite app_nil_r. repeat split; [constructor|].
      left. repeat split; [now left|eauto]. }
  destruct (path_exists (fs w) temp) eqn:PT; cbn [negb].
  2:{ exists (None, 0, Some ("El directori temporal " ++ temp
                             ++ " no existeix.")), w, [].
      rewrite app_nil_r. repeat split; [constructor|].
      left. repeat split; [now right|eauto]. }
  destruct (attempts_loop_trace self env (Py.range 1 (max_retries self + 1))
              docx (pdf_path_of docx temp) None w)
    as (t & w' & evs & E & Ev & F & Out).
  exists t, w', evs. split; [exact E|]. split; [exact Ev|]. split.
  { eapply Forall_impl; [|exact F]. cbn beta.
    intros a (I & L & HW & Ip). apply ConverterFacts.in_range in I.
    repeat split; try assumption; lia. }
  right. split; [reflexivity|]. split; [reflexivity|].
  destruct Out as [(pre & a & rest & R & -> & NE & Av & Pc & Ps)
                  |(msg & -> & Pc & Ps)].
  - left. exists a. destruct (range_split _ _ _ _ _ R) as [-> B].
    split; [lia|]. repeat split; try assumption.
    + rewrite Pc. now rewrite (ConverterFacts.range_last 1 (a + 1)),
        Z.add_simpl_r by lia.
    + rewrite Ps. unfold below_last.
      now rewrite (filter_below_range (max_retries self) a) by lia.
  - right. exists msg. repeat split; [exact Pc|].
    rewrite Ps. unfold below_last. now rewrite filter_below_full.
Qed.

(** X8.  A conversion that returns an output path returns the path
    [temp_dir/stem.pdf] and no error, and leaves that file existing and
    not empty; it started from an input that was a regular file and an
    output directory that existed, with [docx2pdf] imported. *)
Theorem success_leaves_nonempty_output
  (self : DocxConverter) (env : Env) (docx_file temp_dir : string)
  (file_num total_files : Z) (w w' : World)
  (output : string) (attempts : Z) (error : option string) :
  convert_single_file self env docx_file temp_dir file_num total_files w
  = (Ret (Some output, attempts, error), w') ->
  output = Py.path_join temp_dir (Py.path_stem docx_file ++ ".pdf")
  /\ error = None
  /\ nonempty_output (fs w') output = true
  /\ is_file (fs w) docx_file = true
  /\ path_exists (fs w) temp_dir = true
  /\ convert env <> None.
Proof.
  intros H.
  destruct (convert_single_file_trace self env docx_file temp_dir
              file_num total_files w) as (t & w2 & evs & E & _ & _ & Out).
  rewrite H in E. injection E as <- <-.
  destruct Out as [(_ & _ & _ & msg & Q)
                  |(IF & PT & [(a & _ & Q & NE & Av & _)|(msg & Q & _)])];
    try discriminate.
  injection Q as -> -> ->. repeat split; assumption.
Qed.

(** X9.  In a conversion that returns an output path with [attempts]
    attempts, [attempts] is between 1 and [max_retries], the primary
    strategy was called exactly at the attempts 1, 2, ..., [attempts], in
    that order, and the pauses were those after the attempts 1, ...,
    [attempts] - 1: none after the successful one. *)
Theorem success_counts_primary_calls
  (self : DocxConverter) (env : Env) (docx_file temp_dir : string)
  (file_num total_files : Z) (w w' : World)
  (output : string) (attempts : Z) (error : option string) :
  convert_single_file self env docx_file temp_dir file_num total_files w
  = (Ret (Some output, attempts, error), w') ->
  1 <= attempts <= max_retries self
  /\ exists evs,
       events w' = (events w ++ evs)%list
       /\ primary_calls evs = Py.range 1 (attempts + 1)
       /\ pauses evs = map backoff (Py.range 1 attempts).
Proof.
  intros H.
  destruct (convert_single_file_trace self env docx_file temp_dir
              file_num total_files w) as (t & w2 & evs & E & Ev & _ & Out).
  rewrite H in E. injection E as <- <-.
  destruct Out as [(_ & _ & _ & msg & Q)
                  |(IF & PT & [(a & B & Q & _ & _ & Pc & Ps)|(msg & Q & _)])];
    try discriminate.
  injection Q as _ ->. split; [exact B|]. exists evs.
  repeat split; assumption.
Qed.

(** X10.  A conversion that passes the two checks and fails reports
    [max_retries] attempts; when [docx2pdf] is imported the primary
    strategy was called at every attempt 1, ..., [max_retries], in order;
    and the pauses were those after the attempts 1, ..., [max_retries] - 1:
    none after the last attempt. *)
Theorem failure_after_every_attempt
  (self : DocxConverter) (env : Env) (docx_file temp_dir : string)
  (file_num total_files : Z) (w w' : World)
  (attempts : Z) (error : option string) :
  is_file (fs w) docx_file = true ->
  path_exists (fs w) temp_dir = true ->
  convert_single_file self env docx_file temp_dir file_num total_files w
  = (Ret (None, attempts, error), w') ->
  attempts = max_retries self
  /\ exists evs,
       events w' = (events w ++ evs)%list
       /\ (convert env <> None ->
           primary_calls evs = Py.range 1 (max_retries self + 1))
       /\ pauses evs = map backoff (Py.range 1 (max_retries self)).
Proof.
  intros IF PT H.
  destruct (convert_single_file_trace self env docx_file temp_dir
              file_num total_files w) as (t & w2 & evs & E & Ev & _ & Out).
  rewrite H in E. injection E as <- <-.
  destruct Out as [([C|C] & _)
                  |(_ & _ & [(a & _ & Q & _)|(msg & Q & Pc & Ps)])];
    try congruence.
  injection Q as -> _. split; [reflexivity|]. exists evs.
  repeat split; try assumption.
  intros Av. rewrite Pc. destruct (convert env); [reflexivity|congruence].
Qed.

(** X11.  The fallback is called only at an attempt from 1 to
    [max_retries] - 1 at which the primary strategy was called: never at
    the last attempt, never when [has_win32] is false, never when one
    attempt only is allowed. *)
Theorem fallback_only_between_attempts
  (self : DocxConverter) (env : Env) (docx_file temp_dir : string)
  (file_num total_files : Z) (w : World) :
  exists t w' evs,
    convert_single_file self env docx_file temp_dir file_num total_files w
    = (Ret t, w')
    /\ events w' = (events w ++ evs)%list
    /\ Forall (fun a => 1 <= a < max_retries self
                        /\ In a (primary_calls evs))
              (fallback_calls evs)
    /\ (has_win32 self = false -> fallback_calls evs = [])
    /\ (max_retries self <= 1 -> fallback_calls evs = []).
Proof.
  destruct (convert_single_file_trace self env docx_file temp_dir
              file_num total_files w) as (t & w' & evs & E & Ev & F & _).
  exists t, w', evs. split; [exact E|]. split; [exact Ev|]. split.
  { eapply Forall_impl; [|exact F]. cbn beta. intros a (B & _ & I).
    now split. }
  split.
  - intros HW. destruct (fallback_calls evs) as [|a l]; [reflexivity|].
    inversion F as [|? ? (_ & HW' & _) _]. congruence.
  - intros L. destruct (fallback_calls evs) as [|a l]; [reflexivity|].
    inversion F as [|? ? (B & _) _]. lia.
Qed.

(** X12.  Every pause of a conversion lasts between 3 and 15 seconds, there
    are at most [max_retries] - 1 of them, and together they last at most
    15 * ([max_retries] - 1) seconds. *)
Theorem pauses_are_bounded
  (self : DocxConverter) (env : Env) (docx_file temp_dir : string)
  (file_num total_files : Z) (w : World) :
  exists t w' evs,
    convert_single_file self env docx_file temp_dir file_num total_files w
    = (Ret t, w')
    /\ events w' = (events w ++ evs)%list
    /\ Forall (fun s => 3 <= s <= 15) (pauses evs)
    /\ Z.of_nat (List.length (pauses evs)) <= Z.max 0 (max_retries self - 1)
    /\ 0 <= total (pauses evs) <= 15 * Z.max 0 (max_retries self - 1).
Proof.
  destruct (convert_single_file_trace self env docx_file temp_dir
              file_num total_files w) as (t & w' & evs & E & Ev & _ & Out).
  exists t, w', evs. split; [exact E|]. split; [exact Ev|].
  assert (K : exists k, k <= max_retries self
                        /\ pauses evs = map backoff (Py.range 1 k)).
  { destruct Out as [(_ & -> & _)
                    |(_ & _ & [(a & B & _ & _ & _ & _ & Ps)
                              |(msg & _ & _ & Ps)])].
    - exists (Z.min 1 (max_retries self)). split; [lia|].
      now rewrite range_nil by lia.
    - exists a. split; [lia|exact Ps].
    - exists (max_retries self). split; [lia|exact Ps]. }
  destruct K as (k & B & ->).
  destruct (total_backoff (Py.range 1 k) (range_from_one k)) as [F T].
  rewrite length_map, ConverterFacts.length_range in *.
  split; [exact F|]. lia.
Qed.

Lemma attempts_loop_without_primary
  (self : DocxConverter) (env : Env) (d p : string) (attempts : list Z) :
  convert env = None ->
  forall last w,
  exists w',
    attempts_loop self env attempts d p last w
    = (Ret (None, max_retries self,
            Some ("Fallo després de " ++ Py.str_of_Z (max_retries self)
                  ++ " intents: "
                  ++ Py.str_opt
                       match attempts with
                       | [] => last
                       | _ :: _ =>
                           Some "El mòdul docx2pdf no està disponible."
                       end)),
       w').
Proof.
  intros None_.
  induction attempts as [|a rest IH]; intros last w.
  - eexists. reflexivity.
  - destruct (ConverterFacts.no_fallback_after_other_error self env a d p w
                (mkExc RuntimeError "El mòdul docx2pdf no està disponible."))
      as (w1 & E1 & _).
    { unfold primary_attempt. rewrite None_. reflexivity. }
    { reflexivity. }
    cbn [attempts_loop]. unfold bind. rewrite E1. cbn [exc_str].
    destruct (IH (Some "El mòdul docx2pdf no està disponible.") w1)
      as (w' & E).
    exists w'. rewrite E. now destruct rest.
Qed.

(** X13.  When [docx2pdf] could not be imported, a conversion that passes
    the two checks makes its [max_retries] attempts, pauses included,
    without a call of any strategy, the fallback neither even when
    [has_win32] is true, and fails with the message of the missing
    module. *)
Theorem missing_primary_fails_every_attempt
  (self : DocxConverter) (env : Env) (docx_file temp_dir : string)
  (file_num total_files : Z) (w : World) :
  convert env = None ->
  is_file (fs w) docx_file = true ->
  path_exists (fs w) temp_dir = true ->
  1 <= max_retries self ->
  exists w' evs,
    convert_single_file self env docx_file temp_dir file_num total_files w
    = (Ret (None, max_retries self,
            Some ("Fallo després de " ++ Py.str_of_Z (max_retries self)
                  ++ " intents: El mòdul docx2pdf no està disponible.")),
       w')
    /\ events w' = (events w ++ evs)%list
    /\ primary_calls evs = []
    /\ fallback_calls evs = []
    /\ pauses evs = map backoff (Py.range 1 (max_retries self)).
Proof.
  intros None_ IF PT N.
  destruct (convert_single_file_trace self env docx_file temp_dir
              file_num total_files w) as (t & w' & evs & E & Ev & F & Out).
  destruct Out as [([C|C] & _)
                  |(_ & _ & [(a & _ & _ & _ & Av & _)|(msg & -> & Pc & Ps)])];
    try congruence.
  rewrite None_ in Pc.
  assert (Fc : fallback_calls evs = []).
  { destruct (fallback_calls evs) as [|a l]; [reflexivity|].
    inversion F as [|? ? (_ & _ & I) _]. rewrite Pc in I. contradiction. }
  assert (M : msg = "Fallo després de " ++ Py.str_of_Z (max_retries self)
                    ++ " intents: El mòdul docx2pdf no està disponible.").
  { rewrite ConverterFacts.convert_single_file_unfold in E.
    assert (PE : path_exists (fs w) docx_file = true).
    { unfold is_file in IF. unfold path_exists.
      now destruct (fs w docx_file). }
    rewrite PE, IF, PT in E. cbn [negb orb] in E.
    destruct (attempts_loop_without_primary self env docx_file
                (pdf_path_of docx_file temp_dir)
                (Py.range 1 (max_retries self + 1)) None_ None w)
      as (w2 & E2).
    rewrite E2 in E. rewrite range_cons in E by lia.
    cbn [Py.str_opt] in E. now injection E as <- _. }
  subst msg. exists w', evs. repeat split; assumption.
Qed.

(** X7.  [convert_with_win32] never raises.  Without [has_win32] it returns
    [False] and touches nothing.  It returns [True] only when [has_win32]
    is set, no call of the COM session raised, and the PDF exists and is
    not empty afterwards. *)
Theorem fallback_answers_without_raising
  (self : DocxConverter) (env : Env) (attempt : Z) (docx pdf : string)
  (w : World) :
  exists answer w',
    convert_with_win32 self env attempt docx pdf w = (Ret answer, w')
    /\ (has_win32 self = false -> answer = false /\ w' = w)
    /\ (answer = true ->
        has_win32 self = true
        /\ snd (word_session env attempt docx pdf (fs w)) = None
        /\ fs w' = fst (word_session env attempt docx pdf (fs w))
        /\ nonempty_output (fs w') pdf = true).
Proof.
  unfold convert_with_win32.
  destruct (has_win32 self); cbn [negb]; run_eff.
  2:{ do 2 eexists. split; [reflexivity|]. split; [now split|discriminate]. }
  destruct (word_session env attempt docx pdf (fs w)) as [f [e|]]; cbn.
  - do 2 eexists. split; [reflexivity|]. split; discriminate.
  - do 2 eexists. split; [reflexivity|]. split; [discriminate|].
    intros H. repeat split. exact H.
Qed.

(** The sample conversion that succeeds at its third attempt. *)
Lemma success_leaves_nonempty_output_witness :
  nonempty_output
    (fs (snd (convert_single_file (mkConverter 3 600 true) Examples.flaky
                "in/informe.docx" "/tmp/out" 1 2 Examples.world)))
    "/tmp/out/informe.pdf"
  = true.
Proof.
  destruct (success_leaves_nonempty_output (mkConverter 3 600 true)
              Examples.flaky "in/informe.docx" "/tmp/out" 1 2 Examples.world
              (snd (convert_single_file (mkConverter 3 600 true)
                      Examples.flaky "in/informe.docx" "/tmp/out" 1 2
                      Examples.world))
              "/tmp/out/informe.pdf" 3 None eq_refl)
    as (_ & _ & NE & _).
  exact NE.
Defined.

Lemma success_counts_primary_calls_witness :
  exists evs,
    events (snd (convert_single_file (mkConverter 3 600 true) Examples.flaky
                   "in/informe.docx" "/tmp/out" 1 2 Examples.world))
    = (events Examples.world ++ evs)%list
    /\ primary_calls evs = [1; 2; 3]
    /\ pauses evs = [3; 6].
Proof.
  destruct (success_counts_primary_calls (mkConverter 3 600 true)
              Examples.flaky "in/informe.docx" "/tmp/out" 1 2 Examples.world
              (snd (convert_single_file (mkConverter 3 600 true)
                      Examples.flaky "in/informe.docx" "/tmp/out" 1 2
                      Examples.world))
              "/tmp/out/informe.pdf" 3 None eq_refl)
    as (_ & evs & Ev & Pc & Ps).
  exists evs. repeat split; assumption.
Defined.

(** The sample conversion that outlasts the timeout at each of its three
    attempts. *)
Lemma failure_after_every_attempt_witness :
  exists evs,
    events (snd (convert_single_file (mkConverter 3 600 false)
                   (Examples.hanging Examples.word_up)
                   "in/informe.docx" "/tmp/out" 1 2 Examples.world))
    = (events Examples.world ++ evs)%list
    /\ primary_calls evs = [1; 2; 3]
    /\ pauses evs = [3; 6].
Proof.
  destruct (failure_after_every_attempt (mkConverter 3 600 false)
              (Examples.hanging Examples.word_up)
              "in/informe.docx" "/tmp/out" 1 2 Examples.world
              (snd (convert_single_file (mkConverter 3 600 false)
                      (Examples.hanging Examples.word_up)
                      "in/informe.docx" "/tmp/out" 1 2 Examples.world))
              3 (Some "Fallo després de 3 intents: ")
              eq_refl eq_refl eq_refl)
    as (_ & evs & Ev & Pc & Ps).
  exists evs. repeat split; [exact Ev| |exact Ps].
  apply Pc. discriminate.
Defined.

(** [docx2pdf] is not installed; Word is. *)
Lemma missing_primary_fails_every_attempt_witness :
  exists w',
    convert_single_file (mkConverter 2 600 true) Samples.without_docx2pdf
      "in/informe.docx" "/tmp/out" 1 2 Examples.world
    = (Ret (None, 2,
            Some ("Fallo després de 2 intents: "
                  ++ "El mòdul docx2pdf no està disponible.")),
       w').
Proof.
  destruct (missing_primary_fails_every_attempt (mkConverter 2 600 true)
              Samples.without_docx2pdf "in/informe.docx" "/tmp/out" 1 2
              Examples.world
              eq_refl eq_refl eq_refl)
    as (w' & evs & E & _).
  - cbn. lia.
  - exists w'. exact E.
Defined.

End ConverterExtras.

(* ================================================================== *)
(** ** More on the batch run *)
(* ================================================================== *)

Module AppExtras.
Import Exn Eff App AppObs.

Ltac run_app :=
  unfold append_pdf, put, update_report, set_pdf_files, incr_completed,
    zip_call, read_cancel_flag, result;
  unfold bind, ret, raise, try_except, get, modify;
  cbn [fst snd conversion_report completed_conversions message_queue
       pdf_files flag_reads zip_calls].

Section Runs.
Variable env : Env.

Lemma report_after_lists fut r :
  Report.successful_conversions (report_after fut r)
  = (Report.successful_conversions r ++ recorded_success fut)%list
  /\ Report.failed_conversions (report_after fut r)
     = (Report.failed_conversions r ++ recorded_failure fut)%list
  /\ Report.retried_files (report_after fut r)
     = (Report.retried_files r ++ recorded_retry fut)%list
  /\ Report.total_files (report_after fut r) = Report.total_files r
  /\ Report.start_time (report_after fut r) = Report.start_time r
  /\ Report.end_time (report_after fut r) = Report.end_time r.
Proof.
  unfold report_after, recorded_success, recorded_failure, recorded_retry,
    holds_success.
  destruct (fut_result fut) as [[[[p|] a] e]|exc]; [destruct (1 <? a)| |];
    cbn; rewrite ?app_nil_r; repeat split.
Qed.

Lemma pdf_files_after_output fut l :
  pdf_files_after fut l = (l ++ output_of fut)%list.
Proof.
  unfold pdf_files_after, output_of.
  destruct (fut_result fut) as [[[[p|] a] e]|exc];
    rewrite ?app_nil_r; reflexivity.
Qed.

(** One uncancelled iteration, with its messages. *)
Lemma collect_one_step total fut st :
  cancel_flag env (flag_reads st) = false ->
  total <> 0 ->
  exists st' message type value,
    collect_one env total fut st = (Ret tt, st')
    /\ conversion_report st' = report_after fut (conversion_report st)
    /\ pdf_files st' = (pdf_files st ++ output_of fut)%list
    /\ completed_conversions st' = completed_conversions st + 1
    /\ zip_calls st' = zip_calls st
    /\ flag_reads st' = S (flag_reads st)
    /\ message_queue st'
       = (message_queue st
          ++ [Status message type; Progress value;
              Active (completed_conversions st + 1) total])%list.
Proof.
  intros C T. rewrite <- pdf_files_after_output.
  unfold collect_one, record_result, record_exception,
    report_after, pdf_files_after.
  run_app. rewrite C.
  destruct (Z.eqb_spec total 0) as [|_]; [contradiction|].
  destruct (fut_result fut) as [[[[p|] a] e]|exc]; run_app.
  - destruct (1 <? a); run_app; do 4 eexists;
      repeat split; rewrite <- !app_assoc; reflexivity.
  - do 4 eexists. repeat split. rewrite <- !app_assoc. reflexivity.
  - do 4 eexists. repeat split. rewrite <- !app_assoc. reflexivity.
Qed.

Lemma collect_one_stop total fut st :
  cancel_flag env (flag_reads st) = true ->
  exists st',
    collect_one env total fut st = (Raise interrupted, st')
    /\ conversion_report st' = conversion_report st
    /\ pdf_files st' = pdf_files st
    /\ completed_conversions st' = completed_conversions st
    /\ zip_calls st' = zip_calls st
    /\ flag_reads st' = S (flag_reads st)
    /\ message_queue st' = message_queue st.
Proof.
  intros C. unfold collect_one. run_app. rewrite C. run_app.
  eexists. repeat split.
Qed.

Lemma unfinished_app q1 q2 :
  unfinished q1 -> unfinished q2 -> unfinished (q1 ++ q2).
Proof. intros A B. apply Forall_app. now split. Qed.

Lemma actives_app q1 q2 : actives (q1 ++ q2) = (actives q1 ++ actives q2)%list.
Proof. apply flat_map_app. Qed.

Lemma counting_cons c n total :
  counting c (S n) total = (c + 1, total) :: counting (c + 1) n total.
Proof.
  unfold counting. cbn [seq map]. f_equal.
  rewrite <- seq_shift, map_map. apply map_ext. intros i.
  f_equal. lia.
Qed.

Lemma collected_nil total st : collected total [] st st.
Proof.
  unfold collected. cbn. rewrite !app_nil_r, Z.add_0_r.
  repeat split. exists []. rewrite app_nil_r. repeat split. constructor.
Qed.

(** The loop over futures at which the flag is never seen set. *)
Lemma collect_loop_run total futs :
  forall st,
  (forall i, (i < List.length futs)%nat ->
             cancel_flag env (flag_reads st + i) = false) ->
  (futs <> [] -> total <> 0) ->
  exists st',
    collect_loop env total futs st = (Ret tt, st')
    /\ collected total futs st st'
    /\ flag_reads st' = (flag_reads st + List.length futs)%nat.
Proof.
  induction futs as [|fut rest IH]; intros st NC T.
  - exists st. split; [reflexivity|]. split; [apply collected_nil|].
    cbn. lia.
  - assert (T' : total <> 0) by (apply T; discriminate).
    destruct (collect_one_step total fut st) as
      (st1 & m & ty & v & E & R & P & Co & Zc & Fr & Mq).
    { rewrite <- (Nat.add_0_r (flag_reads st)). apply NC. cbn. lia. }
    { exact T'. }
    destruct (IH st1) as (st' & E2 & C2 & Fr2).
    { intros i Hi. rewrite Fr.
      replace (S (flag_reads st) + i)%nat with (flag_reads st + S i)%nat
        by lia.
      apply NC. cbn. lia. }
    { intros _. exact T'. }
    exists st'. cbn [collect_loop]. unfold bind. rewrite E.
    split; [exact E2|]. split; [|rewrite Fr2, Fr; cbn; lia].
    destruct (report_after_lists fut (conversion_report st))
      as (S1 & F1 & R1 & T1 & B1 & E1).
    destruct C2 as (S2 & F2 & R2 & T2 & B2 & En2 & P2 & Co2 & Zc2
                    & q & Mq2 & U2 & A2).
    rewrite R in *.
    unfold collected. cbn [flat_map List.length].
    rewrite S2, S1, F2, F1, R2, R1, T2, T1, B2, B1, En2, E1, P2, P, Co2, Co,
      Zc2, Zc, <- !app_assoc.
    repeat split; try lia.
    exists ([Status m ty; Progress v;
             Active (completed_conversions st + 1) total] ++ q)%list.
    split; [now rewrite Mq2, Mq, <- app_assoc|]. split.
    + apply unfinished_app; [|exact U2].
      repeat constructor.
    + rewrite actives_app, A2, Co, counting_cons. reflexivity.
Qed.

(** The loop left by a cancellation seen at its iteration [k]. *)
Lemma collect_loop_cancelled total futs k st :
  (k < List.length futs)%nat ->
  (forall i, (i < k)%nat -> cancel_flag env (flag_reads st + i) = false) ->
  cancel_flag env (flag_reads st + k) = true ->
  total <> 0 ->
  exists st',
    collect_loop env total futs st = (Raise interrupted, st')
    /\ collected total (firstn k futs) st st'.
Proof.
  intros K NC C T.
  assert (Sp : collect_loop env total futs st
               = (collect_loop env total (firstn k futs) ;;
                  collect_loop env total (skipn k futs))%eff st).
  { now rewrite <- AppFacts.collect_loop_app, firstn_skipn. }
  rewrite Sp. clear Sp.
  assert (L : List.length (firstn k futs) = k)
    by (rewrite length_firstn; lia).
  destruct (collect_loop_run total (firstn k futs) st)
    as (st1 & E1 & C1 & Fr1).
  { rewrite L. exact NC. }
  { intros _. exact T. }
  unfold bind. rewrite E1.
  destruct (skipn k futs) as [|fut rest] eqn:Sk.
  { apply (f_equal (@List.length _)) in Sk. rewrite length_skipn in Sk.
    cbn in Sk. lia. }
  cbn [collect_loop]. unfold bind.
  destruct (collect_one_stop total fut st1)
    as (st2 & E2 & R2 & P2 & Co2 & Zc2 & _ & Mq2).
  { now rewrite Fr1, L. }
  rewrite E2. exists st2. split; [reflexivity|].
  unfold collected in *. rewrite R2, P2, Co2, Zc2, Mq2. exact C1.
Qed.

Lemma zip_loop_trace n pdfs :
  forall idx st,
  exists r st' q calls,
    zip_loop env n idx pdfs st = (r, st')
    /\ conversion_report st' = conversion_report st
    /\ pdf_files st' = pdf_files st
    /\ completed_conversions st' = completed_conversions st
    /\ message_queue st' = (message_queue st ++ q)%list
    /\ (unfinished q /\ actives q = [])
    /\ zip_calls st' = (zip_calls st ++ calls)%list
    /\ (r = Ret tt ->
        calls = map (fun pdf => ZipWrite pdf (Py.path_name pdf)) pdfs).
Proof.
  induction pdfs as [|pdf rest IH]; intros idx st.
  - exists (Ret tt), st, [], []. cbn. unfold ret. rewrite !app_nil_r.
    repeat split. constructor.
  - cbn [zip_loop]. run_app.
    destruct (cancel_flag env (flag_reads st)); run_app.
    { do 2 eexists. exists [], []. rewrite !app_nil_r.
      repeat split; [constructor|discriminate]. }
    destruct (zip_write_error env pdf); run_app.
    { do 2 eexists. exists [], [ZipWrite pdf (Py.path_name pdf)].
      rewrite !app_nil_r. repeat split; [constructor|discriminate]. }
    match goal with |- context [zip_loop env n (idx + 1) rest ?s] =>
      destruct (IH (idx + 1) s)
        as (r & st' & q & calls & E & R & P & Co & Mq & [U A] & Zc & Ok) end.
    rewrite E. cbn in R, P, Co, Mq, Zc.
    exists r, st'.
    match type of Mq with
    | _ = ((_ ++ [?m]) ++ _)%list => exists (m :: q)
    end.
    exists (ZipWrite pdf (Py.path_name pdf) :: calls).
    split; [reflexivity|]. split; [exact R|]. split; [exact P|].
    split; [exact Co|]. split; [rewrite Mq, <- app_assoc; reflexivity|].
    split; [split; [constructor; [reflexivity|exact U]|exact A]|].
    split; [rewrite Zc, <- app_assoc; reflexivity|].
    intros H. cbn [map]. f_equal. now apply Ok.
Qed.

Lemma on_thread_error_trace exc st :
  exists st',
    on_thread_error env exc st = (Ret tt, st')
    /\ same_results st st'
    /\ zip_calls st' = zip_calls st
    /\ message_queue st'
       = (message_queue st
          ++ [Finished false
                (match exc_class exc with
                 | InterruptedError => exc_str exc
                 | _ => "Error durant la conversió: " ++ exc_str exc
                 end)])%list
    /\ Report.end_time (conversion_report st') = Some (time_time env).
Proof.
  unfold on_thread_error, set_end_time. run_app.
  destruct (exc_class exc); run_app; eexists; repeat split.
Qed.

Lemma packaging_phase_trace password zip_path st :
  exists r st' q,
    packaging_phase env password zip_path st = (r, st')
    /\ same_results st st'
    /\ message_queue st' = (message_queue st ++ q)%list
    /\ match r with
       | Ret _ =>
           pdf_files st <> []
           /\ cancel_flag env (flag_reads st) = false
           /\ zip_calls st'
              = (zip_calls st
                 ++ archive_calls password zip_path (pdf_files st))%list
           /\ (exists q0,
                  q = (q0 ++ [Finished true zip_path])%list
                  /\ unfinished q0 /\ actives q0 = [])
           /\ Report.end_time (conversion_report st')
              = Some (time_time env)
       | Raise e =>
           (unfinished q /\ actives q = [])
           /\ (pdf_files st = [] ->
               e = no_files_converted /\ zip_calls st' = zip_calls st)
           /\ (pdf_files st <> [] ->
               (cancel_flag env (flag_reads st) = true ->
                e = interrupted /\ zip_calls st' = zip_calls st)
               /\ (cancel_flag env (flag_reads st) = false ->
                   zip_calls st' <> []))
       end.
Proof.
  unfold packaging_phase. run_app.
  destruct (pdf_files st) as [|pdf rest] eqn:P.
  { run_app. exists (Raise no_files_converted), st, [].
    rewrite app_nil_r.
    split; [reflexivity|]. split; [apply AppFacts.same_results_refl|].
    split; [reflexivity|]. split; [split; [constructor|reflexivity]|].
    split; [now split|]. intros H. congruence. }
  run_app.
  pose (opening :=
          [Status ("Creant ZIP amb "
                   ++ Py.str_of_Z (Z.of_nat (List.length (pdf :: rest)))
                   ++ " PDF(s)...") "info";
           Progress 85]).
  assert (UO : unfinished opening) by (repeat constructor).
  destruct (cancel_flag env (flag_reads st)) eqn:C; run_app.
  { eexists _, _, []. rewrite app_nil_r.
    split; [reflexivity|]. split; [repeat split; now rewrite ?P|].
    split; [reflexivity|]. split; [split; [constructor|reflexivity]|].
    split; [discriminate|]. intros _. split; [now split|discriminate]. }
  destruct (zip_open_error env); run_app.
  { eexists _, _, opening.
    split; [reflexivity|]. split; [repeat split; now rewrite ?P|].
    split; [subst opening; rewrite <- app_assoc; reflexivity|].
    split; [split; [exact UO|reflexivity]|].
    split; [discriminate|]. intros _. split; [discriminate|].
    intros _ H. now apply app_eq_nil in H. }
  unfold archive_calls.
  destruct (String.eqb password ""); run_app;
    match goal with |- context [zip_loop env ?n 1 ?l ?s] =>
      destruct (zip_loop_trace n l 1 s)
        as (r & st' & q & calls & E & R & Pf & Co & Mq & [U A] & Zc & Ok) end;
    rewrite E; cbn in R, Pf, Co, Mq, Zc;
    (assert (Sm : same_results st st')
       by (unfold same_results; rewrite R, Pf, Co; repeat split));
    (assert (Mq' : message_queue st'
                   = (message_queue st ++ opening ++ q)%list)
       by (rewrite Mq; subst opening; rewrite <- !app_assoc; reflexivity));
    (assert (UA : unfinished (opening ++ q) /\ actives (opening ++ q) = [])
       by (split; [now apply unfinished_app
                  |rewrite actives_app, A; reflexivity]));
    clear Mq; destruct r as [[]|e]; run_app.
  - eexists _, _, (opening ++ q ++ [Progress 100; Finished true zip_path])%list.
    split; [reflexivity|].
    split; [unfold same_results; cbn; rewrite R, Pf, Co; repeat split|].
    cbn [message_queue zip_calls conversion_report].
    split; [rewrite Mq', <- !app_assoc; reflexivity|].
    split; [discriminate|]. split; [reflexivity|].
    split; [rewrite Zc, (Ok eq_refl), <- !app_assoc; reflexivity|].
    split; [|reflexivity].
    exists ((opening ++ q) ++ [Progress 100])%list.
    split; [now rewrite <- !app_assoc|]. split.
    + apply unfinished_app; [apply UA|repeat constructor].
    + rewrite actives_app. now rewrite (proj2 UA).
  - eexists _, _, (opening ++ q)%list.
    split; [reflexivity|]. split; [exact Sm|]. split; [exact Mq'|].
    split; [exact UA|].
    split; [discriminate|]. intros _. split; [discriminate|].
    intros _ H. rewrite Zc in H. apply app_eq_nil in H. destruct H as [H _].
    now apply app_eq_nil in H.
  - eexists _, _, (opening ++ q ++ [Progress 100; Finished true zip_path])%list.
    split; [reflexivity|].
    split; [unfold same_results; cbn; rewrite R, Pf, Co; repeat split|].
    cbn [message_queue zip_calls conversion_report].
    split; [rewrite Mq', <- !app_assoc; reflexivity|].
    split; [discriminate|]. split; [reflexivity|].
    split; [rewrite Zc, (Ok eq_refl), <- !app_assoc; reflexivity|].
    split; [|reflexivity].
    exists ((opening ++ q) ++ [Progress 100])%list.
    split; [now rewrite <- !app_assoc|]. split.
    + apply unfinished_app; [apply UA|repeat constructor].
    + rewrite actives_app. now rewrite (proj2 UA).
  - eexists _, _, (opening ++ q)%list.
    split; [reflexivity|]. split; [exact Sm|]. split; [exact Mq'|].
    split; [exact UA|].
    split; [discriminate|]. intros _. split; [discriminate|].
    intros _ H. rewrite Zc in H. apply app_eq_nil in H. destruct H as [H _].
    apply app_eq_nil in H. destruct H as [H _].
    now apply app_eq_nil in H.
Qed.

Lemma first_set (f : nat -> bool) (n : nat) :
  (forall i, (i < n)%nat -> f i = false)
  \/ exists k, (k < n)%nat /\ f k = true
               /\ forall i, (i < k)%nat -> f i = false.
Proof.
  induction n as [|n IH].
  - left. intros i H. lia.
  - destruct IH as [IH|(k & K & T & B)].
    + destruct (f n) eqn:F.
      * right. exists n. repeat split; [lia|exact F|exact IH].
      * left. intros i H. destruct (Nat.eq_dec i n) as [->|]; [exact F|].
        apply IH. lia.
    + right. exists k. repeat split; [lia|exact T|exact B].
Qed.

(** Every way a run can go. *)
Lemma batch_run_outcome docx_files password zip_path max_workers now :
  let n := List.length docx_files in
  let order := completion_order env docx_files in
  exists st k q m,
    batch_run env docx_files password zip_path max_workers now = (Ret tt, st)
    /\ (k <= n)%nat
    /\ (forall i, (i < k)%nat -> cancel_flag env i = false)
    /\ collected_lists (firstn k order) st
    /\ Report.total_files (conversion_report st) = Z.of_nat n
    /\ Report.end_time (conversion_report st) = Some (time_time env)
    /\ message_queue st = (q ++ [m])%list
    /\ unfinished q
    /\ actives q = counting 0 k (Z.of_nat n)
    /\ (((k < n)%nat /\ cancel_flag env k = true
         /\ m = Finished false (exc_str interrupted)
         /\ zip_calls st = [])
        \/ (k = n
            /\ ((pdf_files st = []
                 /\ m = Finished false
                          ("Error durant la conversió: "
                           ++ exc_str no_files_converted)
                 /\ zip_calls st = [])
                \/ (pdf_files st <> [] /\ cancel_flag env n = true
                    /\ m = Finished false (exc_str interrupted)
                    /\ zip_calls st = [])
                \/ (pdf_files st <> [] /\ cancel_flag env n = false
                    /\ (exists e, m = Finished false e)
                    /\ zip_calls st <> [])
                \/ (pdf_files st <> [] /\ cancel_flag env n = false
                    /\ m = Finished true zip_path
                    /\ zip_calls st
                       = archive_calls password zip_path (pdf_files st))))).
Proof.
  cbv zeta.
  set (n := List.length docx_files).
  set (order := completion_order env docx_files).
  set (total := Z.of_nat n).
  pose (hello := Status ("Convertint " ++ Py.str_of_Z total ++ " fitxer(s) amb "
                         ++ Py.str_of_Z max_workers ++ " fils...") "info").
  pose (st_a := mkApp
                  (Report.set_start_time now
                     (Report.set_total_files total Report.init))
                  0 [hello] [] 0 []).
  assert (Ln : List.length order = n)
    by apply AppFacts.length_completion_order.
  assert (Run : batch_run env docx_files password zip_path max_workers now
                = try_except
                    (collect_loop env total order ;;
                     packaging_phase env password zip_path)%eff
                    (on_thread_error env) st_a).
  { reflexivity. }
  rewrite Run. clear Run. unfold try_except, bind.
  assert (T : order <> [] -> total <> 0).
  { intros NE Z0. destruct order; [congruence|]. cbn in Ln.
    subst total. lia. }
  destruct (first_set (cancel_flag env) n) as [NC|(k & K & Ck & NC)].
  - (* the loop runs to its end *)
    destruct (collect_loop_run total order st_a) as (st1 & E1 & C1 & Fr1).
    { intros i Hi. cbn. apply NC. lia. }
    { exact T. }
    rewrite E1. change (flag_reads st1 = List.length order) in Fr1.
    rewrite Ln in Fr1.
    destruct C1 as (S1 & F1 & R1 & T1 & _ & _ & P1 & Co1 & Zc1
                    & q1 & Mq1 & U1 & A1).
    cbn in S1, F1, R1, T1, P1, Co1, Zc1, Mq1, A1. rewrite Ln in *.
    assert (CL : forall st, same_results st1 st ->
                            collected_lists (firstn n order) st).
    { intros st (A & B & C & _ & D & E).
      rewrite <- Ln, firstn_all.
      unfold collected_lists. rewrite A, B, C, D, E. repeat split;
        try assumption. now rewrite Co1, Ln. }
    assert (TF : forall st, same_results st1 st ->
                   Report.total_files (conversion_report st) = total).
    { intros st (_ & _ & _ & A & _). now rewrite A. }
    destruct (packaging_phase_trace password zip_path st1)
      as (r & st2 & q2 & E2 & Sm2 & Mq2 & Out).
    rewrite E2, Fr1 in *.
    assert (P12 : pdf_files st2 = pdf_files st1) by apply Sm2.
    destruct r as [[]|e].
    + destruct Out as (NE & Cn & Zc & (q0 & -> & U0 & A0) & En).
      exists st2, n, (hello :: q1 ++ q0)%list, (Finished true zip_path).
      split; [reflexivity|]. split; [lia|]. split; [exact NC|].
      split; [now apply CL|]. split; [now apply TF|]. split; [exact En|].
      split; [rewrite Mq2, Mq1; cbn; now rewrite <- !app_assoc|].
      split; [constructor; [reflexivity|now apply unfinished_app]|].
      split; [cbn; now rewrite actives_app, A1, A0, app_nil_r|].
      right. split; [reflexivity|]. right. right. right.
      rewrite P12. repeat split; try assumption.
      now rewrite Zc, Zc1.
    + destruct Out as ([U2 A2] & Empty & Full).
      destruct (on_thread_error_trace e st2)
        as (st3 & E3 & Sm3 & Zc3 & Mq3 & En3).
      rewrite E3.
      pose proof (AppFacts.same_results_trans _ _ _ Sm2 Sm3) as Sm.
      assert (P13 : pdf_files st3 = pdf_files st1) by apply Sm.
      eexists st3, n, (hello :: q1 ++ q2)%list, _.
      split; [reflexivity|]. split; [lia|]. split; [exact NC|].
      split; [now apply CL|]. split; [now apply TF|]. split; [exact En3|].
      split; [rewrite Mq3, Mq2, Mq1; cbn; rewrite <- !app_assoc;
              reflexivity|].
      split; [constructor; [reflexivity|now apply unfinished_app]|].
      split; [cbn; now rewrite actives_app, A1, A2, app_nil_r|].
      right. split; [reflexivity|]. rewrite P13, Zc3.
      destruct (pdf_files st1) as [|pdf rest] eqn:P.
      * left. destruct (Empty eq_refl) as [-> Z2].
        repeat split. now rewrite Z2, Zc1.
      * right. assert (NE : pdf :: rest <> []) by discriminate.
        destruct (Full NE) as [Ct Cf].
        destruct (cancel_flag env n) eqn:C.
        -- left. destruct (Ct eq_refl) as [-> Z2].
           repeat split; [exact NE|]. now rewrite Z2, Zc1.
        -- right. left. repeat split; [exact NE|eauto|now apply Cf].
  - (* the flag is seen set at iteration k *)
    destruct (collect_loop_cancelled total order k st_a)
      as (st1 & E1 & C1).
    { now rewrite Ln. }
    { intros i Hi. cbn. now apply NC. }
    { cbn. exact Ck. }
    { apply T. destruct order; [cbn in Ln; lia|discriminate]. }
    rewrite E1.
    assert (Lk : List.length (firstn k order) = k)
      by (rewrite length_firstn; lia).
    destruct C1 as (S1 & F1 & R1 & T1 & _ & _ & P1 & Co1 & Zc1
                    & q1 & Mq1 & U1 & A1).
    cbn in S1, F1, R1, T1, P1, Co1, Zc1, Mq1, A1. rewrite Lk in *.
    destruct (on_thread_error_trace interrupted st1)
      as (st3 & E3 & (A & B & C & D & E & F) & Zc3 & Mq3 & En3).
    rewrite E3.
    eexists st3, k, (hello :: q1)%list, _.
    split; [reflexivity|]. split; [lia|]. split; [exact NC|].
    split.
    { unfold collected_lists. rewrite A, B, C, E, F, Lk.
      repeat split; assumption. }
    split; [now rewrite D|]. split; [exact En3|].
    split; [rewrite Mq3, Mq1; reflexivity|].
    split; [constructor; [reflexivity|exact U1]|].
    split; [exact A1|].
    left. repeat split; [exact K|exact Ck|now rewrite Zc3, Zc1].
Qed.

End Runs.



(** X17.  A run that ends with "finished" and success names the chosen
    archive; it produced at least one PDF, as many as it recorded
    successes; the calls on the archive are its opening, encrypted exactly
    when the password is not empty, the password when there is one, and
    one write per PDF in the order of [pdf_files]; and the report of such
    a run declares at least one file, so the guard of the percentages does
    not change the total it shows. *)
Theorem success_hands_over_outputs
  (env : Env) (docx_files : list string) (password zip_path : string)
  (max_workers : Z) (now : float) (payload : string) :
  let st := snd (batch_run env docx_files password zip_path max_workers now) in
  last_message st = Some (Finished true payload) ->
  payload = zip_path
  /\ pdf_files st <> []
  /\ zip_calls st = archive_calls password zip_path (pdf_files st)
  /\ List.length (Report.successful_conversions (conversion_report st))
     = List.length (pdf_files st)
  /\ Report.guarded_total (Report.get_summary (conversion_report st))
     = Z.of_nat (List.length docx_files).
Proof.
  cbv zeta.
  destruct (batch_run_outcome env docx_files password zip_path max_workers now)
    as (st & k & q & m & E & K & _ & CL & Tf & _ & Mq & _ & _ & Cases).
  rewrite E. cbn [snd]. rewrite (AppFacts.last_message_snoc _ _ _ Mq).
  intros H. injection H as ->.
  destruct Cases as [(_ & _ & Em & _)
                    |(-> & [(_ & Em & _)|[(_ & _ & Em & _)
                     |[(_ & _ & (e & Em) & _)|(NE & _ & Em & Zc)]]])];
    try discriminate.
  injection Em as ->. split; [reflexivity|]. split; [exact NE|].
  split; [exact Zc|].
  destruct CL as (A & _ & _ & D & _). split.
  - rewrite A, D. clear. induction (firstn _ _) as [|fut l IH];
      [reflexivity|].
    cbn [flat_map]. rewrite !length_app, IH. f_equal.
    unfold recorded_success, output_of, holds_success.
    now destruct (fut_result fut) as [[[[p|] a] e]|exc].
  - unfold Report.guarded_total, Report.get_summary. cbn [Report.sum_total].
    rewrite Tf.
    destruct (Z.eqb_spec (Z.of_nat (List.length docx_files)) 0) as [Z0|];
      [|reflexivity].
    exfalso. apply NE. rewrite D.
    destruct docx_files; [|discriminate]. reflexivity.
Qed.

(** X18.  The "active" messages of a run are (1, n), (2, n), ... up to the
    number of completed conversions, with n the number of input files; that
    number never exceeds n. *)
Theorem active_messages_count_up
  (env : Env) (docx_files : list string) (password zip_path : string)
  (max_workers : Z) (now : float) :
  let st := snd (batch_run env docx_files password zip_path max_workers now) in
  (0 <= completed_conversions st <= Z.of_nat (List.length docx_files))
  /\ actives (message_queue st)
     = map (fun i => (Z.of_nat i, Z.of_nat (List.length docx_files)))
           (seq 1 (Z.to_nat (completed_conversions st))).
Proof.
  cbv zeta.
  destruct (batch_run_outcome env docx_files password zip_path max_workers now)
    as (st & k & q & m & E & K & _ & CL & _ & _ & Mq & _ & A & Cases).
  rewrite E. cbn [snd].
  destruct CL as (_ & _ & _ & _ & Co).
  rewrite length_firstn, AppFacts.length_completion_order in Co.
  replace (Nat.min k (List.length docx_files)) with k in Co by lia.
  rewrite Co, Nat2Z.id. split; [lia|].
  rewrite Mq, actives_app, A.
  assert (Fm : actives [m] = []).
  { destruct Cases as [(_ & _ & -> & _)
                      |(_ & [(_ & -> & _)|[(_ & _ & -> & _)
                       |[(_ & _ & (e & ->) & _)|(_ & _ & -> & _)]]])];
      reflexivity. }
  rewrite Fm, app_nil_r. reflexivity.
Qed.



(** The sample run ends with success. *)
Lemma success_hands_over_outputs_witness :
  zip_calls (snd (batch_run Examples.app_env Examples.two_files "secret"
                    "out.zip" 8 1700000000%float))
  = [ZipOpen "out.zip" true; ZipSetPassword "secret";
     ZipWrite "/tmp/out/informe.pdf" "informe.pdf"].
Proof.
  destruct (success_hands_over_outputs Examples.app_env Examples.two_files
              "secret" "out.zip" 8 1700000000%float "out.zip" eq_refl)
    as (_ & _ & Z & _).
  rewrite Z. reflexivity.
Defined.

End AppExtras.

(* ================================================================== *)
(** ** More on the start of a run *)
(* ================================================================== *)

Module StartExtras.
Import App Start.

(** X19.  [start_conversion] starts a run exactly when at least one file is
    selected, the password, if one is asked for, is not empty and equals
    its confirmation, the destination is not empty, and the number of
    workers is an integer from 1 to 16.  The run it starts is the run of
    the selected files with that destination and that number of workers,
    with the password, or the empty password when none is asked for; its
    report declares at least one file. *)
Theorem start_conversion_launches_iff (form : Form) (now : float) :
  ((exists l, start_conversion form now = inr l)
   <-> (docx_files form <> []
        /\ (use_password_var form = true ->
            password_entry form <> ""
            /\ password_entry form = password_confirm_entry form)
        /\ dest_entry form <> ""
        /\ exists n, parallel_spinbox form = Some n
                     /\ 1 <= n <= MAX_PARALLEL_ALLOWED))
  /\ forall l,
       start_conversion form now = inr l ->
       1 <= thread_max_workers l <= MAX_PARALLEL_ALLOWED
       /\ thread_password l
          = (if use_password_var form then password_entry form else "")
       /\ (1 <= Report.total_files (conversion_report (run_state l)))
       /\ forall env,
            launched_run env l
            = batch_run env (docx_files form) (thread_password l)
                (dest_entry form) (thread_max_workers l) now.
Proof.
  unfold start_conversion.
  destruct (docx_files form) as [|f fs] eqn:D.
  { split; [split|]; [intros [l H]; discriminate| |intros l H; discriminate].
    intros (H & _). congruence. }
  destruct (use_password_var form) eqn:U; cbn [andb].
  - destruct (String.eqb_spec (password_entry form) "") as [P|P].
    { split; [split|]; [intros [l H]; discriminate| |intros l H; discriminate].
      intros (_ & H & _). now destruct (H eq_refl). }
    destruct (String.eqb_spec (password_entry form)
                (password_confirm_entry form)) as [Q|Q]; cbn [negb].
    2:{ split; [split|];
          [intros [l H]; discriminate| |intros l H; discriminate].
        intros (_ & H & _). now destruct (H eq_refl). }
    destruct (String.eqb_spec (dest_entry form) "") as [Z|Z].
    { split; [split|]; [intros [l H]; discriminate| |intros l H; discriminate].
      intros (_ & _ & H & _). contradiction. }
    destruct (parallel_spinbox form) as [n|].
    2:{ split; [split|];
          [intros [l H]; discriminate| |intros l H; discriminate].
        intros (_ & _ & _ & n & H & _). discriminate. }
    destruct (Z.leb_spec 1 n) as [L1|L1];
      destruct (Z.leb_spec n MAX_PARALLEL_ALLOWED) as [L2|L2]; cbn [andb];
      try (split; [split|];
           [intros [l H]; discriminate| |intros l H; discriminate];
           intros (_ & _ & _ & n' & H & B); injection H as <-; lia).
    split; [split|].
    + intros _. repeat split; try assumption; try discriminate. eauto.
    + intros _. eauto.
    + intros l H. injection H as <-. cbn.
      repeat split; lia.
  - destruct (String.eqb_spec (dest_entry form) "") as [Z|Z].
    { split; [split|]; [intros [l H]; discriminate| |intros l H; discriminate].
      intros (_ & _ & H & _). contradiction. }
    destruct (parallel_spinbox form) as [n|].
    2:{ split; [split|];
          [intros [l H]; discriminate| |intros l H; discriminate].
        intros (_ & _ & _ & n & H & _). discriminate. }
    destruct (Z.leb_spec 1 n) as [L1|L1];
      destruct (Z.leb_spec n MAX_PARALLEL_ALLOWED) as [L2|L2]; cbn [andb];
      try (split; [split|];
           [intros [l H]; discriminate| |intros l H; discriminate];
           intros (_ & _ & _ & n' & H & B); injection H as <-; lia).
    split; [split|].
    + intros _. repeat split; try assumption; try discriminate. eauto.
    + intros _. eauto.
    + intros l H. injection H as <-. cbn.
      repeat split; lia.
Qed.

End StartExtras.

(* ================================================================== *)
(** ** A conversion in which every attempt fails *)
(* ================================================================== *)

Module RunFacts.
Import Exn Eff Converter RunObs.

Section Facts.

Variable self : DocxConverter.
Variable env : Env.
Variables docx pdf : string.
Variable w : World.





End Facts.



End RunFacts.

(* ================================================================== *)
(** ** The conversion, with every way a call can end *)
(* ================================================================== *)

Module FullConverterFacts.
Import Exn Converter FullEff.

Ltac run_full :=
  unfold FullEff.bind, FullEff.ret, FullEff.raise, FullEff.escape,
    FullEff.never_ends, FullEff.try_except, FullEff.lift,
    Eff.bind, Eff.ret, Eff.raise, Eff.try_except, Eff.get, Eff.modify,
    log, set_fs; cbn.

(** When every call of [convert] is ordinary, the methods of
    [FullConverter] do what those of [Converter] do. *)
Section Facts.

Variable self : DocxConverter.
Variable env : FullConverter.Env.
Hypothesis Ord : FullConverter.ordinary env.

Lemma future_result_ordinary c a d p w :
  FullConverter.ordinary_call (c a d p (fs w)) ->
  FullConverter.future_result self c a d p w
  = lifted (Converter.future_result self
              (fun a d p f => FullConverter.as_run f (c a d p f)) a d p w).
Proof.
  intros H. unfold FullConverter.future_result, Converter.future_result.
  run_full.
  destruct (c a d p (fs w)) as [|f s [|e|b]]; cbn in *; try contradiction;
    destruct (timeout self <? s); reflexivity.
Qed.

Lemma primary_attempt_ordinary a d p w :
  FullConverter.primary_attempt self env a d p w
  = lifted (Converter.primary_attempt self (FullConverter.tame env) a d p w).
Proof.
  unfold FullConverter.primary_attempt, Converter.primary_attempt.
  unfold FullConverter.tame; cbn [Converter.convert].
  destruct (FullConverter.convert env) as [c|] eqn:C; cbn [option_map];
    [|reflexivity].
  unfold FullEff.bind at 1, Eff.bind at 1.
  rewrite future_result_ordinary by (now apply Ord).
  destruct (Converter.future_result self _ a d p w) as [[[]|e] w1];
    cbn [lifted]; [|reflexivity].
  run_full. destruct (nonempty_output (fs w1) p); reflexivity.
Qed.

Lemma attempt_body_ordinary a d p w :
  FullConverter.attempt_body self env a d p w
  = lifted (Converter.attempt_body self (FullConverter.tame env) a d p w).
Proof.
  unfold FullConverter.attempt_body, Converter.attempt_body.
  unfold FullEff.bind at 1, Eff.bind at 1, lift at 1.
  destruct (cleanup (FullConverter.tame env) a p w) as [[[]|e] w1];
    cbn [lifted]; [|reflexivity].
  unfold FullEff.bind at 1, Eff.bind at 1, FullEff.try_except,
    Eff.try_except.
  rewrite primary_attempt_ordinary.
  destruct (Converter.primary_attempt self (FullConverter.tame env) a d p w1)
    as [[step|e] w2]; cbn [lifted].
  - destruct step as [t|le]; [reflexivity|].
    destruct (a <? max_retries self); reflexivity.
  - unfold lift at 1.
    destruct (on_error self (FullConverter.tame env) a d p e w2)
      as [[step|e'] w3]; cbn [lifted]; [|reflexivity].
    destruct step as [t|le]; [reflexivity|].
    destruct (a <? max_retries self); reflexivity.
Qed.

Lemma attempts_loop_ordinary attempts d p :
  forall last w,
    FullConverter.attempts_loop self env attempts d p last w
    = lifted (Converter.attempts_loop self (FullConverter.tame env)
                attempts d p last w).
Proof.
  induction attempts as [|a rest IH]; intros last w; [reflexivity|].
  cbn [FullConverter.attempts_loop Converter.attempts_loop].
  unfold FullEff.bind at 1, Eff.bind at 1. rewrite attempt_body_ordinary.
  destruct (Converter.attempt_body self (FullConverter.tame env) a d p w)
    as [[step|e] w1]; cbn [lifted]; [|reflexivity].
  destruct step as [t|le]; [reflexivity|].
  apply IH.
Qed.

Lemma convert_single_file_ordinary docx temp i n w :
  FullConverter.convert_single_file self env docx temp i n w
  = lifted (Converter.convert_single_file self (FullConverter.tame env)
              docx temp i n w).
Proof.
  unfold FullConverter.convert_single_file, Converter.convert_single_file.
  unfold FullEff.bind at 1, Eff.bind at 1, lift at 1, Eff.get.
  cbn [lifted].
  destruct (negb (path_exists (fs w) docx) || negb (is_file (fs w) docx));
    [reflexivity|].
  destruct (negb (path_exists (fs w) temp)); [reflexivity|].
  apply attempts_loop_ordinary.
Qed.

End Facts.

(** C10, as amended.  Whatever the two strategies do at each attempt, as
    long as each of their calls ends and raises, if anything, an exception
    that derives from [Exception] (a call of [convert] may outlast the
    timeout, and [convert] may be missing; the Word session of
    [FullConverter.Env] is of that kind), [convert_single_file] returns a
    triple and propagates no exception.  The attempt loop calls the primary
    strategy at most [max_retries] times, and the fallback at most as
    often. *)
Theorem convert_single_file_returns_unless_outside
  (self : DocxConverter) (env : FullConverter.Env)
  (docx_file temp_dir : string) (file_num total_files : Z) (w : World) :
  FullConverter.ordinary env ->
  exists t w' evs,
    FullConverter.convert_single_file self env docx_file temp_dir
      file_num total_files w
    = (Returns t, w')
    /\ events w' = (events w ++ evs)%list
    /\ (count_primary evs <= Z.to_nat (max_retries self))%nat
    /\ (count_fallback evs <= Z.to_nat (max_retries self))%nat.
Proof.
  intros Ord. rewrite convert_single_file_ordinary by exact Ord.
  destruct (ConverterFacts.convert_single_file_returns self
              (FullConverter.tame env) docx_file temp_dir file_num
              total_files w) as (t & w' & E & (evs & G) & _).
  exists t, w', evs. rewrite E. split; [reflexivity|exact G].
Qed.

(** [docx2pdf] raises an error at the first two attempts and converts at
    the third. *)
Lemma convert_single_file_returns_witness :
  exists w',
    FullConverter.convert_single_file (mkConverter 5 600 true)
      (FullConverter.of_env Examples.flaky) "in/informe.docx" "/tmp/out" 1 1
      Examples.world
    = (Returns (Some "/tmp/out/informe.pdf", 3, None), w').
Proof.
  destruct (convert_single_file_returns_unless_outside
              (mkConverter 5 600 true) (FullConverter.of_env Examples.flaky)
              "in/informe.docx" "/tmp/out" 1 1 Examples.world)
    as (t & w' & evs & E & _).
  - intros c a d p f C. injection C as <-. cbn.
    destruct (a <? 3); exact I.
  - exists w'. rewrite E. f_equal.
    apply (f_equal fst) in E. vm_compute in E. injection E as <-.
    reflexivity.
Defined.

(** C10, as stated, fails on an exception outside [Exception]: when
    [docx2pdf] leaves through [sys.exit(1)], the [SystemExit] passes both
    [except] clauses and leaves [convert_single_file] at the first attempt,
    with no triple returned.  And when the call of [docx2pdf] never ends,
    [convert_single_file] does not end either, timeout or not: leaving the
    [with] block waits for the worker. *)
Lemma system_exit_leaves_convert_single_file :
  let self := mkConverter 5 600 true in
  let exits :=
    FullConverter.convert_single_file self FullSamples.exiting
      "in/informe.docx" "/tmp/out" 1 1 Examples.world in
  let hangs :=
    FullConverter.convert_single_file self FullSamples.stuck
      "in/informe.docx" "/tmp/out" 1 1 Examples.world in
  fst exits = Escapes (mkBase SystemExit "1")
  /\ events (snd exits) = [EvPrimary 1]
  /\ (forall t, fst exits <> Returns t)
  /\ fst hangs = NeverEnds
  /\ (forall t, fst hangs <> Returns t).
Proof.
  cbv zeta.
  split; [vm_compute; reflexivity|].
  split; [vm_compute; reflexivity|].
  split; [intros t; vm_compute; discriminate|].
  split; [vm_compute; reflexivity|].
  intros t; vm_compute; discriminate.
Qed.

End FullConverterFacts.

(* ================================================================== *)
(** ** The batch run, with every way a task can end *)
(* ================================================================== *)

Module FullAppFacts.
Import Exn FullEff FullApp.

(** When every future is ordinary, the thread of [FullApp] does what that
    of [App] does, and then runs its [finally] clause. *)
Section Facts.

Variable env : Env.

Lemma map_submit_all temp total files :
  forall i,
    map tame_future (submit_all env temp total i files)
    = App.submit_all (tame env) temp total i files.
Proof.
  induction files as [|f rest IH]; intros i; [reflexivity|].
  cbn [submit_all App.submit_all map]. now rewrite IH.
Qed.

Lemma length_submitted temp total files :
  forall i, List.length (submit_all env temp total i files) = List.length files.
Proof.
  induction files as [|f rest IH]; intros i; cbn; [|rewrite IH]; reflexivity.
Qed.

Lemma map_remove_nth (i : nat) (l : list Future) :
  map tame_future (App.remove_nth i l)
  = App.remove_nth i (map tame_future l).
Proof.
  unfold App.remove_nth. now rewrite map_app, firstn_map, skipn_map.
Qed.

Lemma map_as_completed_from fuel :
  forall done pending,
    map tame_future (as_completed_from env fuel done pending)
    = App.as_completed_from (tame env) fuel done (map tame_future pending).
Proof.
  induction fuel as [|fuel IH]; intros done pending; [reflexivity|].
  destruct pending as [|first rest]; [reflexivity|].
  change (map tame_future (first :: rest))
    with (tame_future first :: map tame_future rest) at 1.
  cbn [as_completed_from App.as_completed_from].
  change (tame_future first :: map tame_future rest)
    with (map tame_future (first :: rest)).
  rewrite length_map. cbn [map]. rewrite IH, map_remove_nth.
  f_equal. symmetry.
  apply (map_nth tame_future (first :: rest) first).
Qed.

Lemma pick_remove_perm (d : Future) (l : list Future) :
  forall i, (i < List.length l)%nat ->
            Permutation (nth i l d :: App.remove_nth i l) l.
Proof.
  unfold App.remove_nth.
  induction l as [|x l IH]; intros i H; cbn in H; [lia|].
  destruct i as [|i].
  - reflexivity.
  - cbn [nth firstn skipn app]. etransitivity; [apply perm_swap|].
    apply perm_skip. apply IH. lia.
Qed.

Lemma yielded_from_perm fuel :
  forall done pending,
    List.length pending = fuel ->
    Permutation (as_completed_from env fuel done pending) pending.
Proof.
  induction fuel as [|fuel IH]; intros done pending H.
  - destruct pending; [constructor|discriminate].
  - destruct pending as [|first rest]; [discriminate|].
    cbn [as_completed_from].
    set (i := (next_done env done mod List.length (first :: rest))%nat).
    assert (Hi : (i < List.length (first :: rest))%nat).
    { apply Nat.mod_upper_bound. discriminate. }
    pose proof (pick_remove_perm first (first :: rest) i Hi) as P.
    etransitivity; [|exact P]. apply perm_skip. apply IH.
    apply Permutation_length in P. cbn [List.length] in P, H. lia.
Qed.

(** [as_completed] yields the futures that complete, each once. *)
Lemma yielded_perm futures :
  Permutation (as_completed env futures) (filter is_done futures).
Proof. now apply yielded_from_perm. Qed.

Lemma ordinary_is_done futures :
  Forall ordinary_future futures ->
  filter is_done futures = futures /\ forallb is_done futures = true.
Proof.
  induction 1 as [|fut rest O _ [IH1 IH2]]; [split; reflexivity|].
  cbn [filter forallb]. unfold ordinary_future in O.
  assert (D : is_done fut = true).
  { unfold is_done. now destruct (fut_held fut). }
  rewrite D, IH1, IH2. split; reflexivity.
Qed.

Lemma record_result_ordinary fut name st :
  ordinary_future fut ->
  record_result fut name st
  = lifted (App.record_result (tame_future fut) name st).
Proof.
  unfold ordinary_future, record_result, App.record_result, result,
    App.result, tame_future.
  cbn [App.fut_result].
  destruct (fut_held fut) as [[[[p|] a] e]|exc|b|]; cbn [as_result];
    try discriminate; intros _.
  - unfold FullEff.bind, FullEff.ret, lift, Eff.bind, Eff.ret.
    destruct (1 <? a); reflexivity.
  - reflexivity.
  - reflexivity.
Qed.

Lemma collect_one_ordinary total fut st :
  ordinary_future fut ->
  collect_one env total fut st
  = lifted (App.collect_one (tame env) total (tame_future fut) st).
Proof.
  intros O. unfold collect_one, App.collect_one.
  unfold FullEff.bind at 1, Eff.bind at 1, lift at 1.
  destruct (App.read_cancel_flag (tame env) st) as [[[|]|e] st1];
    cbn [lifted]; try reflexivity.
  unfold FullEff.bind at 1, Eff.bind at 1, FullEff.try_except,
    Eff.try_except.
  rewrite (record_result_ordinary fut _ st1 O). cbn [tame_future App.fut_src].
  destruct (App.record_result (tame_future fut) (Py.path_name (fut_src fut))
              st1) as [[[]|e] st2]; cbn [lifted].
  - unfold FullEff.bind, Eff.bind, lift, FullEff.raise, Eff.raise, Eff.get,
      App.incr_completed, App.put, Eff.modify. cbn.
    destruct (total =? 0); reflexivity.
  - unfold lift at 1.
    destruct (App.record_exception (Py.path_name (fut_src fut)) e st2)
      as [[[]|e'] st3]; cbn [lifted]; [|reflexivity].
    unfold FullEff.bind, Eff.bind, lift, FullEff.raise, Eff.raise, Eff.get,
      App.incr_completed, App.put, Eff.modify. cbn.
    destruct (total =? 0); reflexivity.
Qed.

Lemma collect_loop_ordinary total futs :
  Forall ordinary_future futs ->
  forall st,
    collect_loop env total futs st
    = lifted (App.collect_loop (tame env) total (map tame_future futs) st).
Proof.
  induction 1 as [|fut rest O _ IH]; intros st; [reflexivity|].
  cbn [collect_loop App.collect_loop map].
  unfold FullEff.bind at 1, Eff.bind at 1.
  rewrite (collect_one_ordinary total fut st O).
  destruct (App.collect_one (tame env) total (tame_future fut) st)
    as [[[]|e] st1]; cbn [lifted]; [apply IH|reflexivity].
Qed.

Lemma completion_order_ordinary docx_files :
  Forall ordinary_future (submitted env docx_files) ->
  map tame_future (as_completed env (submitted env docx_files))
  = App.completion_order (tame env) docx_files
  /\ Permutation (as_completed env (submitted env docx_files))
                 (submitted env docx_files)
  /\ Forall ordinary_future (as_completed env (submitted env docx_files)).
Proof.
  intros O. destruct (ordinary_is_done _ O) as [F _].
  pose proof (yielded_perm (submitted env docx_files)) as P.
  rewrite F in P. split; [|split; [exact P|]].
  - unfold as_completed. rewrite F, map_as_completed_from.
    unfold submitted. rewrite map_submit_all, <- (length_map tame_future),
      map_submit_all.
    reflexivity.
  - eapply Permutation_Forall; [symmetry; exact P|exact O].
Qed.

Lemma conversion_phase_ordinary docx_files max_workers st :
  Forall ordinary_future (submitted env docx_files) ->
  conversion_phase env docx_files max_workers st
  = lifted (App.conversion_phase (tame env) docx_files max_workers st).
Proof.
  intros O. destruct (completion_order_ordinary docx_files O) as (M & _ & OO).
  destruct (ordinary_is_done _ O) as [_ D].
  unfold conversion_phase, App.conversion_phase.
  unfold FullEff.bind at 1, Eff.bind at 1, lift at 1.
  destruct (App.announce _ max_workers st) as [[[]|e] st1]; cbn [lifted];
    [|reflexivity].
  unfold with_executor. rewrite D.
  rewrite (collect_loop_ordinary _ _ OO st1), M.
  now destruct (lifted _).
Qed.

(** With futures that hold a triple or an exception that derives from
    [Exception], the thread is that of [App], followed by the [finally]
    clause. *)
Lemma batch_run_ordinary docx_files password zip_path max_workers now :
  Forall ordinary_future (submitted env docx_files) ->
  batch_run env docx_files password zip_path max_workers now
  = (match rmtree_error env with
     | None => Returns tt
     | Some e => Raises e
     end,
     snd (App.batch_run (tame env) docx_files password zip_path max_workers
            now)).
Proof.
  intros O.
  destruct (AppFacts.batch_run_spec (tame env) docx_files password zip_path
              max_workers now) as (st1 & k & st & E & _).
  rewrite E. cbn [snd]. revert E.
  unfold batch_run, App.batch_run, convert_and_zip_thread,
    App.convert_and_zip_thread.
  generalize (App.begin_run docx_files now). intros st0.
  unfold finally, FullEff.try_except, Eff.try_except.
  unfold FullEff.bind at 1, Eff.bind at 1.
  rewrite (conversion_phase_ordinary docx_files max_workers st0 O).
  destruct (App.conversion_phase (tame env) docx_files max_workers st0)
    as [[[]|e] st2]; cbn [lifted].
  - unfold lift at 1.
    destruct (App.packaging_phase (tame env) password zip_path st2)
      as [[[]|e] st3]; cbn [lifted].
    + intros E. injection E as <-. unfold remove_temp_dir.
      destruct (rmtree_error env); reflexivity.
    + unfold lift. intros E. rewrite E. cbn [lifted]. unfold remove_temp_dir.
      destruct (rmtree_error env); reflexivity.
  - unfold lift. intros E. rewrite E. cbn [lifted]. unfold remove_temp_dir.
    destruct (rmtree_error env); reflexivity.
Qed.

Lemma successes_of_order (futs : list Future) :
  flat_map AppObs.recorded_success (map tame_future futs)
  = map name_of (filter holds_output futs).
Proof.
  induction futs as [|fut rest IH]; [reflexivity|].
  cbn [map flat_map filter]. rewrite IH.
  unfold AppObs.recorded_success, AppObs.holds_success, holds_output,
    tame_future, name_of.
  cbn [App.fut_result App.fut_src].
  now destruct (fut_held fut) as [[[[p|] a] e]|exc|b|].
Qed.

Lemma failures_of_order (futs : list Future) :
  map fst (flat_map AppObs.recorded_failure (map tame_future futs))
  = map name_of (filter (fun fut => negb (holds_output fut)) futs).
Proof.
  induction futs as [|fut rest IH]; [reflexivity|].
  cbn [map flat_map filter]. rewrite map_app, IH.
  unfold AppObs.recorded_failure, holds_output, tame_future, name_of.
  cbn [App.fut_result App.fut_src].
  now destruct (fut_held fut) as [[[[p|] a] e]|exc|b|].
Qed.

Lemma outputs_of_order (futs : list Future) :
  flat_map AppObs.output_of (map tame_future futs) = flat_map output_of futs.
Proof.
  induction futs as [|fut rest IH]; [reflexivity|].
  cbn [map flat_map]. rewrite IH. f_equal.
  unfold AppObs.output_of, output_of, tame_future. cbn [App.fut_result].
  now destruct (fut_held fut) as [[[[p|] a] e]|exc|b|].
Qed.

Lemma no_output_iff (futs : list Future) :
  flat_map output_of futs = []
  <-> Forall (fun fut => holds_output fut = false) futs.
Proof.
  induction futs as [|fut rest IH]; [split; [constructor|reflexivity]|].
  cbn [flat_map]. unfold output_of at 1.
  split.
  - intros H. apply app_eq_nil in H. destruct H as [H1 H2].
    constructor; [|now apply IH].
    unfold holds_output.
    destruct (fut_held fut) as [[[[p|] a] e]|exc|b|];
      [discriminate|reflexivity..].
  - intros H. inversion H as [|? ? H1 H2]; subst.
    apply IH in H2. rewrite H2, app_nil_r.
    unfold holds_output in H1.
    destruct (fut_held fut) as [[[[p|] a] e]|exc|b|];
      [discriminate|reflexivity..].
Qed.

(** The state an uncancelled run of ordinary futures ends in. *)
Lemma uncancelled_run docx_files password zip_path max_workers now :
  (forall n, cancel_flag env n = false) ->
  Forall ordinary_future (submitted env docx_files) ->
  let order := as_completed env (submitted env docx_files) in
  let st := snd (batch_run env docx_files password zip_path max_workers now) in
  AppObs.collected_lists (map tame_future order) st
  /\ (App.no_files_failure st <-> App.pdf_files st = []).
Proof.
  intros NC O. cbv zeta.
  rewrite (batch_run_ordinary docx_files password zip_path max_workers now O).
  cbn [snd].
  destruct (completion_order_ordinary docx_files O) as (M & _ & _).
  rewrite M.
  destruct (AppExtras.batch_run_outcome (tame env) docx_files password
              zip_path max_workers now)
    as (st & k & q & m & E & K & _ & CL & _ & _ & _ & _ & _ & Cases).
  destruct (AppFacts.batch_run_spec (tame env) docx_files password zip_path
              max_workers now)
    as (st1 & k' & st' & E' & _ & Sm & _ & _ & _ & _ & Iff).
  rewrite E in E'. injection E' as <-. rewrite E. cbn [snd].
  assert (Kn : k = List.length docx_files).
  { destruct Cases as [(_ & C & _)|(-> & _)]; [|reflexivity].
    cbn in C. rewrite NC in C. discriminate. }
  subst k. split.
  - rewrite <- (AppFacts.length_completion_order (tame env) docx_files) in CL.
    rewrite firstn_all in CL. exact CL.
  - destruct (Iff NC) as [_ I].
    destruct Sm as (_ & _ & _ & _ & P & _). rewrite P. exact I.
Qed.

End Facts.

(** C8, as amended.  Take a run in which the cancellation flag is never
    seen set and every task ends, by returning its triple or by raising an
    exception that derives from [Exception].  Then no failure of a file
    ends the collection: the loop meets every submitted future once, the
    counter of completed conversions reaches the number of input files, the
    report lists as successes the futures that hold an output path and as
    failures all the others, in the order of completion, and [pdf_files]
    holds the output paths the futures hold.  And the run ends on the
    failure "no file converted", with nothing handed to the archive,
    exactly when no future holds an output path. *)
Theorem batch_fails_iff_no_output
  (env : Env) (docx_files : list string) (password zip_path : string)
  (max_workers : Z) (now : float) :
  (forall n, cancel_flag env n = false) ->
  Forall ordinary_future (submitted env docx_files) ->
  let order := as_completed env (submitted env docx_files) in
  let st := snd (batch_run env docx_files password zip_path max_workers now) in
  let r := App.conversion_report st in
  Permutation order (submitted env docx_files)
  /\ App.completed_conversions st = Z.of_nat (List.length docx_files)
  /\ Report.successful_conversions r = map name_of (filter holds_output order)
  /\ map fst (Report.failed_conversions r)
     = map name_of (filter (fun fut => negb (holds_output fut)) order)
  /\ App.pdf_files st = flat_map output_of order
  /\ (App.no_files_failure st
      <-> Forall (fun fut => holds_output fut = false)
                 (submitted env docx_files)).
Proof.
  intros NC O. cbv zeta.
  destruct (uncancelled_run env docx_files password zip_path max_workers now
              NC O) as [(S & F & _ & P & C) Iff].
  destruct (completion_order_ordinary env docx_files O) as (_ & Perm & _).
  split; [exact Perm|]. split.
  - rewrite C, length_map, (Permutation_length Perm).
    unfold submitted. now rewrite length_submitted.
  - split; [rewrite S; apply successes_of_order|].
    split; [rewrite F; apply failures_of_order|].
    rewrite outputs_of_order in P. split; [exact P|].
    rewrite Iff, P, no_output_iff. split; intros H.
    + eapply Permutation_Forall; [exact Perm|exact H].
    + eapply Permutation_Forall; [symmetry; exact Perm|exact H].
Qed.

(** X16.  In a run in which every task ends, by returning its triple or by
    raising an exception that derives from [Exception], the thread puts
    exactly one "finished" message on the queue, as its last message, and
    sets the end time of the report to the clock, on every path.  The
    thread itself returns, unless the removal of the temporary directory in
    the [finally] clause raises: then that exception leaves the thread,
    after the message. *)
Theorem one_finished_message_last
  (env : Env) (docx_files : list string) (password zip_path : string)
  (max_workers : Z) (now : float) :
  Forall ordinary_future (submitted env docx_files) ->
  exists st q m,
    batch_run env docx_files password zip_path max_workers now
    = (match rmtree_error env with
       | None => Returns tt
       | Some e => Raises e
       end, st)
    /\ App.message_queue st = (q ++ [m])%list
    /\ AppObs.is_finished m = true
    /\ AppObs.unfinished q
    /\ Report.end_time (App.conversion_report st) = Some (time_time env).
Proof.
  intros O.
  rewrite (batch_run_ordinary env docx_files password zip_path max_workers
             now O).
  destruct (AppExtras.batch_run_outcome (tame env) docx_files password
              zip_path max_workers now)
    as (st & k & q & m & E & _ & _ & _ & _ & Et & Mq & U & _ & Cases).
  rewrite E. cbn [snd]. exists st, q, m.
  split; [reflexivity|]. split; [exact Mq|].
  split; [|split; [exact U|exact Et]].
  destruct Cases as [(_ & _ & -> & _)
                    |(_ & [(_ & -> & _)|[(_ & _ & -> & _)
                     |[(_ & _ & (e & ->) & _)|(_ & _ & -> & _)]]])];
    reflexivity.
Qed.

(** Two files, for neither of which a PDF is written: both futures hold a
    failure, none raised. *)
Lemma batch_fails_iff_no_output_witness :
  let st :=
    snd (batch_run FullSamples.fruitless_env Examples.two_files ""
           "/tmp/sortida.zip" 2 1700000000%float) in
  App.no_files_failure st
  /\ map fst (Report.failed_conversions (App.conversion_report st))
     = ["acta.docx"; "informe.docx"].
Proof.
  cbv zeta.
  destruct (batch_fails_iff_no_output FullSamples.fruitless_env
              Examples.two_files "" "/tmp/sortida.zip" 2 1700000000%float)
    as (_ & _ & _ & F & _ & Iff).
  - intros n. reflexivity.
  - repeat constructor.
  - split.
    + apply Iff. repeat constructor.
    + rewrite F. vm_compute. reflexivity.
Defined.

(** The sample run succeeds and the temporary directory cannot be
    removed. *)
Lemma one_finished_message_last_witness :
  exists st q m,
    batch_run FullSamples.locked_env Examples.two_files ""
      "/tmp/sortida.zip" 2 1700000000%float
    = (Raises (mkExc OtherException "[WinError 32] /tmp/out"), st)
    /\ App.message_queue st = (q ++ [m])%list
    /\ AppObs.is_finished m = true
    /\ AppObs.unfinished q
    /\ Report.end_time (App.conversion_report st) = Some 1700000060%float.
Proof.
  apply (one_finished_message_last FullSamples.locked_env Examples.two_files
           "" "/tmp/sortida.zip" 2 1700000000%float).
  repeat constructor.
Defined.

(** C8, as stated, fails on a task that ends with an exception outside
    [Exception].  Nobody cancels; [docx2pdf] leaves through [sys.exit(1)] on
    the first file, whose future completes first, and writes nothing for the
    second.  The [SystemExit] passes the clause of line 467 and the two outer
    clauses: the thread ends with it, no outcome is recorded for either
    file, and no "finished" message is put; no output file was produced, and
    the run did not end on the failure "no file converted". *)
Lemma system_exit_aborts_the_run :
  let run :=
    batch_run FullSamples.exit_env Examples.two_files ""
      "/tmp/sortida.zip" 2 1700000000%float in
  let st := snd run in
  (forall n, cancel_flag FullSamples.exit_env n = false)
  /\ Forall (fun fut => holds_output fut = false)
            (submitted FullSamples.exit_env Examples.two_files)
  /\ fst run = Escapes (mkBase SystemExit "1")
  /\ App.recorded st = 0%nat
  /\ App.completed_conversions st = 0
  /\ AppObs.unfinished (App.message_queue st)
  /\ App.pdf_files st = []
  /\ ~ App.no_files_failure st.
Proof.
  cbv zeta.
  split; [intros n; reflexivity|].
  split; [repeat constructor|].
  split; [vm_compute; reflexivity|].
  split; [vm_compute; reflexivity|].
  split; [vm_compute; reflexivity|].
  split; [vm_compute; repeat constructor|].
  split; [vm_compute; reflexivity|].
  intros [_ L]. vm_compute in L. discriminate.
Qed.

End FullAppFacts.
